(** * Build or Boom Card Creator: a shallow embedding of [script.js]

    The page is a collection of DOM event handlers.  The embedding keeps the
    source's structure: one module per source object or class ([CONFIG],
    [Utils], [ShapeFactory], [SupplyListManager], [DragDropManager],
    [ShapeController], [ContextMenuManager], [KeyboardManager],
    [PrintManager]), explicit state passing for the DOM, and the names of the
    source.

    Numbers.  JavaScript numbers are idealised as exact rationals ([Q]) where
    the source computes with event coordinates, and as integers ([Z]) where
    the value is a rounded pixel position ([Math.round] returns an integer,
    [clientWidth] is an integer).  Where the source adds a random offset,
    the sum is taken as the double arithmetic gives it, as an input of the
    handler.  [NaN] and the infinities are outside the model, except in
    [ShapeController.flip], whose parsed scale can be [NaN].

    Errors.  Where a statement of a handler throws, the handler ends
    there: the state is what the statements before it have written. *)

From Stdlib Require Import ZArith QArith Qround Qabs Qminmax Lia Lqa.
From Stdlib Require Import String Ascii DecimalString.
From stdpp Require Import base option list strings gmap.

Local Open Scope Z_scope.

(** ** CONSTANTS & CONFIGURATION *)

Module CONFIG.

Record Size := { width : Z; height : Z }.

(** [CONFIG.SHAPE_SIZES]: the own properties of the object literal.  For
    a shape type that is a property name of [Object.prototype] the source
    reads a function, whose [width] is [undefined]; the positions of such
    shapes are [NaN] and outside the model. *)
Definition SHAPE_SIZES (shapeType : string) : option Size :=
  if String.eqb shapeType "square" then Some {| width := 80; height := 80 |}
  else if String.eqb shapeType "triangle" then Some {| width := 80; height := 80 |}
  else if String.eqb shapeType "half-moon" then Some {| width := 80; height := 80 |}
  else if String.eqb shapeType "cone" then Some {| width := 80; height := 40 |}
  else if String.eqb shapeType "2x4" then Some {| width := 240; height := 80 |}
  else if String.eqb shapeType "arch" then Some {| width := 240; height := 80 |}
  else if String.eqb shapeType "beam" then Some {| width := 240; height := 80 |}
  else if String.eqb shapeType "foreman" then Some {| width := 160; height := 160 |}
  else if String.eqb shapeType "barrel-cylinder" then Some {| width := 80; height := 160 |}
  else if String.eqb shapeType "barrel-circle" then Some {| width := 80; height := 80 |}
  else None.

Definition GRID_SIZE : Z := 20.
Definition MOBILE_BREAKPOINT : Z := 768.
Definition DRAG_THRESHOLD : Z := 5.

(** [CONFIG.SHAPE_SIZES[shapeType] || { width: 80, height: 80 }], the
    expression every handler uses. *)
Definition shapeSize (shapeType : string) : Size :=
  default {| width := 80; height := 80 |} (SHAPE_SIZES shapeType).

End CONFIG.

(** What an object literal inherits from [Object.prototype]: for each
    inherited property name, the string that its value gives where the
    value is used as a property key.  The value is a built-in function,
    printed here as V8 prints it (engines differ in the white space), and
    for [__proto__] it is [Object.prototype] itself.  Every one of these
    values is truthy. *)
Definition Object_prototype (key : string) : option string :=
  if String.eqb key "__proto__" then Some "[object Object]"%string
  else if String.eqb key "constructor"
  then Some "function Object() { [native code] }"%string
  else if existsb (String.eqb key)
            ["__defineGetter__"; "__defineSetter__"; "__lookupGetter__";
             "__lookupSetter__"; "hasOwnProperty"; "isPrototypeOf";
             "propertyIsEnumerable"; "toLocaleString"; "toString"; "valueOf"]%string
  then Some ("function " ++ key ++ "() { [native code] }")%string
  else None.

Definition inheritedKey (key : string) : bool :=
  match Object_prototype key with
  | Some _ => true
  | None => false
  end.

(** [SHAPE_NAMES]: the own properties of the object literal.  A lookup
    [SHAPE_NAMES[shapeType]] also finds what [Object_prototype] lists. *)
Definition SHAPE_NAMES (shapeType : string) : option string :=
  if String.eqb shapeType "2x4" then Some "2x4"%string
  else if String.eqb shapeType "triangle" then Some "Triangle"%string
  else if String.eqb shapeType "arch" then Some "Arch"%string
  else if String.eqb shapeType "barrel-cylinder" then Some "Barrel"%string
  else if String.eqb shapeType "barrel-circle" then Some "Barrel"%string
  else if String.eqb shapeType "half-moon" then Some "Half Moon"%string
  else if String.eqb shapeType "cone" then Some "Cone"%string
  else if String.eqb shapeType "beam" then Some "Beam"%string
  else if String.eqb shapeType "square" then Some "Square"%string
  else if String.eqb shapeType "foreman" then Some "The Foreman"%string
  else None.

(** ** UTILITY FUNCTIONS *)

(** [Math.round]: the integer nearest to [x], halves rounded up. *)
Definition Math_round (x : Q) : Z := Qfloor (x + (1 # 2)).

Module Utils.

(** [Utils.snapToGrid(value)]; the [console.log] line is not modelled. *)
Definition snapToGrid (value : Q) : Z :=
  Math_round (value / inject_Z CONFIG.GRID_SIZE) * CONFIG.GRID_SIZE.

(** [Utils.isMobile()], from [window.innerWidth]. *)
Definition isMobile (innerWidth : Z) : bool :=
  innerWidth <=? CONFIG.MOBILE_BREAKPOINT.

End Utils.

(** ** The DOM, as far as the handlers read and write it *)

(** A palette element ([.shape-item]): its [data-shape] attribute and the
    [innerHTML] of its [.shape-svg] child, when it has one. *)
Record PaletteItem := {
  dataset_shape : option string;
  shape_svg : option string
}.

(** [getBoundingClientRect()]. *)
Record Rect := {
  rect_left : Q;
  rect_top : Q;
  rect_width : Q;
  rect_height : Q
}.

Definition rect_right (r : Rect) : Q := (rect_left r + rect_width r)%Q.
Definition rect_bottom (r : Rect) : Q := (rect_top r + rect_height r)%Q.

(** The build area ([#build-area]): what the handlers read from it. *)
Record Container := {
  clientWidth : Z;
  boundingClientRect : Rect
}.

(** [{ svg, width, height }], the result of [ShapeFactory.getDefinition]. *)
Record ShapeData := {
  svg : string;
  sd_width : Z;
  sd_height : Z
}.

(** The fields of a [ShapeController] instance. *)
Record Controller := {
  isDragging : bool;
  hasDragged : bool;
  startEvent : option bool;  (* [Some true]: a touchstart, [Some false]: a mousedown *)
  startX : Q;
  startY : Q;
  initialX : Z;
  initialY : Z
}.

(** A placed shape: a [div.dropped-shape] with its inline style, its
    [dataset], the inline style of its [svg] child and its [_controller].
    [node] is the identity of the DOM element.  [style.left] and [style.top]
    hold [`${n}px`] for an integer [n], kept here as [n]; [dataset.rotation]
    holds the decimal rendering of an integer, kept here as the integer. *)
Record Shape := {
  node : nat;
  elem_id : string;
  dataset_shapeType : string;
  style_left : Z;
  style_top : Z;
  style_cursor : string;
  style_zIndex : string;
  selected : bool;
  content : ShapeData;
  dataset_rotation : option Z;
  dataset_flippedH : option bool;
  dataset_flippedV : option bool;
  svg_style_transform : string;
  svg_style_transformOrigin : string;
  controller : option Controller
}.

(** What [document.querySelector] gives: an element, [null], or the
    [SyntaxError] it throws for a selector that does not parse. *)
Inductive Query :=
| Found (element : PaletteItem)
| NotFound
| SyntaxError.

(** The document: the elements that carry a [data-shape] attribute (the
    palette) in document order, the build area (absent when
    [getElementById('build-area')] is [null]) and its [.dropped-shape]
    children in document order.  [injected] is what [querySelector]
    answers for [`[data-shape="${shapeType}"]`] when [shapeType] does not
    stay inside the quotes (see [ShapeFactory.querySelector]): the
    selector is then whatever the text makes it, and the browser decides;
    an element it finds is given as its [data-shape] attribute and the
    [innerHTML] of its first [.shape-svg] descendant. *)
Record Document := {
  palette : list PaletteItem;
  buildArea : option Container;
  shapes : list Shape;
  injected : string -> Query
}.

(** ** SHAPE MANAGEMENT *)

Module ShapeFactory.

Definition quote : ascii := ascii_of_nat 34.

(** A character that a double-quoted CSS string takes as itself: any but
    the quote, the backslash, a line break (LF, FF, CR) and NUL. *)
Definition literal (c : ascii) : bool :=
  let n := nat_of_ascii c in
  negb (Nat.eqb n 34 || Nat.eqb n 92 || Nat.eqb n 10 || Nat.eqb n 12
        || Nat.eqb n 13 || Nat.eqb n 0).

(** [shapeType] stays inside the quotes of [`[data-shape="${shapeType}"]`]:
    the selector is an attribute test for the value [shapeType]. *)
Definition plainValue (shapeType : string) : bool :=
  forallb literal (list_ascii_of_string shapeType).

(** A letter, a digit, a space or a hyphen. *)
Definition wordChar (c : ascii) : bool :=
  let n := nat_of_ascii c in
  (Nat.leb 48 n && Nat.leb n 57) || (Nat.leb 65 n && Nat.leb n 90)
  || (Nat.leb 97 n && Nat.leb n 122) || Nat.eqb n 32 || Nat.eqb n 45.

(** [shapeType] has a quote, and nothing else but letters, digits, spaces
    and hyphens.  The first quote ends the attribute value, and at least
    one more string token follows inside the brackets (no comment, escape
    or bracket can hide it): the selector does not parse. *)
Definition brokenByQuote (shapeType : string) : bool :=
  existsb (Ascii.eqb quote) (list_ascii_of_string shapeType)
  && forallb (fun c => Ascii.eqb c quote || wordChar c) (list_ascii_of_string shapeType).

(** [document.querySelector(`[data-shape="${shapeType}"]`)].  The source
    puts [shapeType] into the selector as it is.  For a plain value the
    result is the first element whose attribute equals [shapeType].  For a
    value that [brokenByQuote] describes the call throws.  For any other
    value (a backslash starts an escape, a line break ends the string, a
    quote may be followed by a bracket, a comma or a comment) the selector
    is whatever the text makes it: it may not parse, test another value,
    or select an element of another kind; [injected] holds the answer. *)
Definition querySelector (doc : Document) (shapeType : string) : Query :=
  if plainValue shapeType then
    match List.find (fun item => bool_decide (dataset_shape item = Some shapeType))
            (palette doc) with
    | Some item => Found item
    | None => NotFound
    end
  else if brokenByQuote shapeType then SyntaxError
  else injected doc shapeType.

(** Whether [getDefinition(shapeType)], and so [create], throws. *)
Definition throws (doc : Document) (shapeType : string) : bool :=
  match querySelector doc shapeType with
  | SyntaxError => true
  | _ => false
  end.

(** The element [paletteItem] of [getDefinition], when the call of
    [querySelector] returns one. *)
Definition queryPaletteItem (doc : Document) (shapeType : string) : option PaletteItem :=
  match querySelector doc shapeType with
  | Found item => Some item
  | _ => None
  end.

(** [ShapeFactory.getDefinition(shapeType)]: [None] is [null], and also
    stands where the call throws; [throws] tells the two apart. *)
Definition getDefinition (doc : Document) (shapeType : string) : option ShapeData :=
  match queryPaletteItem doc shapeType with
  | None => None
  | Some paletteItem =>
      match shape_svg paletteItem with
      | None => None
      | Some inner =>
          let shapeSize := CONFIG.shapeSize shapeType in
          Some {| svg := inner;
                  sd_width := CONFIG.width shapeSize;
                  sd_height := CONFIG.height shapeSize |}
      end
  end.

(** [ShapeFactory.create(shapeType, x, y, container)].  [id] is the value
    of [Utils.generateId()] and [n] the fresh DOM node.  The markup built
    by [createUniqueSvg] is kept as the definition it is built from; the
    new [svg] element has no inline style.  [None] is [null], and also
    stands where [getDefinition] throws ([throws]). *)
Definition create (doc : Document) (n : nat) (id : string)
    (shapeType : string) (x y : Q) (container : Container) : option Shape :=
  match getDefinition doc shapeType with
  | None => None
  | Some shapeData =>
      let rawBoundedX :=
        Qmax 0 (Qmin x (inject_Z (clientWidth container - sd_width shapeData))) in
      let rawBoundedY := Qmax 0 y in
      let snappedX := Utils.snapToGrid rawBoundedX in
      let snappedY := Utils.snapToGrid rawBoundedY in
      Some {| node := n;
              elem_id := id;
              dataset_shapeType := shapeType;
              style_left := snappedX;
              style_top := snappedY;
              style_cursor := "";
              style_zIndex := "";
              selected := false;
              content := shapeData;
              dataset_rotation := None;
              dataset_flippedH := None;
              dataset_flippedV := None;
              svg_style_transform := "";
              svg_style_transformOrigin := "";
              controller := None |}
  end.

End ShapeFactory.

Module SupplyListManager.

(** [SHAPE_NAMES[shapeType] || 'Unknown'], as the key it is in
    [counts[displayName]]: the name of an own property, else the string
    of the inherited value, else ['Unknown']. *)
Definition displayName (shapeType : string) : string :=
  match SHAPE_NAMES shapeType with
  | Some name => name
  | None => default "Unknown"%string (Object_prototype shapeType)
  end.

(** [countShapes(shapes)]: the loop body, then the [forEach]. *)
Definition countShape (counts : gmap string nat) (shape : Shape) : gmap string nat :=
  let name := displayName (dataset_shapeType shape) in
  <[name := (default 0%nat (counts !! name) + 1)%nat]> counts.

Definition countShapes (shapes : list Shape) : gmap string nat :=
  foldl countShape ∅ shapes.

End SupplyListManager.

(** ** The application state and the event bus *)

(** [supplyList] is what [SupplyListManager.render] last wrote,
    [currentShape] the field of the [ContextMenuManager], [emitted] the
    names passed to [eventBus.emit], [console] and [alerts] the lines
    written by [console.log]/[console.error] and [alert]. *)
Record App := {
  doc : Document;
  nextNode : nat;
  supplyList : gmap string nat;
  currentShape : option nat;
  emitted : list string;
  console : list string;
  alerts : list string
}.

Definition set_shapes (f : list Shape -> list Shape) (app : App) : App :=
  {| doc := {| palette := palette (doc app);
               buildArea := buildArea (doc app);
               shapes := f (shapes (doc app));
               injected := injected (doc app) |};
     nextNode := nextNode app;
     supplyList := supplyList app;
     currentShape := currentShape app;
     emitted := emitted app;
     console := console app;
     alerts := alerts app |}.

Definition set_currentShape (c : option nat) (app : App) : App :=
  {| doc := doc app; nextNode := nextNode app; supplyList := supplyList app;
     currentShape := c; emitted := emitted app; console := console app;
     alerts := alerts app |}.

Definition console_log (line : string) (app : App) : App :=
  {| doc := doc app; nextNode := nextNode app; supplyList := supplyList app;
     currentShape := currentShape app; emitted := emitted app;
     console := console app ++ [line]; alerts := alerts app |}.

Definition alert (message : string) (app : App) : App :=
  {| doc := doc app; nextNode := nextNode app; supplyList := supplyList app;
     currentShape := currentShape app; emitted := emitted app;
     console := console app; alerts := alerts app ++ [message] |}.

(** Apply [f] to the element [n] when it is in the document. *)
Definition update_node (n : nat) (f : Shape -> Shape) (l : list Shape) : list Shape :=
  List.map (fun s => if Nat.eqb (node s) n then f s else s) l.

(** [element.remove()]. *)
Definition remove_node (n : nat) (l : list Shape) : list Shape :=
  List.filter (fun s => negb (Nat.eqb (node s) n)) l.

Module eventBus.

(** [SupplyListManager.update()]. *)
Definition supplyList_update (app : App) : App :=
  {| doc := doc app; nextNode := nextNode app;
     supplyList := SupplyListManager.countShapes (shapes (doc app));
     currentShape := currentShape app; emitted := emitted app;
     console := console app; alerts := alerts app |}.

(** [eventBus.emit(event)] with the listeners that
    [CardCreatorApp.setupEventListeners] registers. *)
Definition emit (event : string) (app : App) : App :=
  let app :=
    {| doc := doc app; nextNode := nextNode app; supplyList := supplyList app;
       currentShape := currentShape app; emitted := emitted app ++ [event];
       console := console app; alerts := alerts app |} in
  if String.eqb event "shapeAdded" then supplyList_update app
  else if String.eqb event "shapeRemoved" then supplyList_update app
  else if String.eqb event "shapesCleared" then supplyList_update app
  else if String.eqb event "hideContextMenu" then set_currentShape None app
  else app.

End eventBus.

(** ** Field updates of a placed shape *)

Definition set_position (x y : Z) (s : Shape) : Shape :=
  {| node := node s; elem_id := elem_id s; dataset_shapeType := dataset_shapeType s;
     style_left := x; style_top := y;
     style_cursor := style_cursor s; style_zIndex := style_zIndex s;
     selected := selected s; content := content s;
     dataset_rotation := dataset_rotation s;
     dataset_flippedH := dataset_flippedH s; dataset_flippedV := dataset_flippedV s;
     svg_style_transform := svg_style_transform s;
     svg_style_transformOrigin := svg_style_transformOrigin s;
     controller := controller s |}.

Definition set_cursor_zIndex (cursor zIndex : string) (s : Shape) : Shape :=
  {| node := node s; elem_id := elem_id s; dataset_shapeType := dataset_shapeType s;
     style_left := style_left s; style_top := style_top s;
     style_cursor := cursor; style_zIndex := zIndex;
     selected := selected s; content := content s;
     dataset_rotation := dataset_rotation s;
     dataset_flippedH := dataset_flippedH s; dataset_flippedV := dataset_flippedV s;
     svg_style_transform := svg_style_transform s;
     svg_style_transformOrigin := svg_style_transformOrigin s;
     controller := controller s |}.

Definition set_selected (b : bool) (s : Shape) : Shape :=
  {| node := node s; elem_id := elem_id s; dataset_shapeType := dataset_shapeType s;
     style_left := style_left s; style_top := style_top s;
     style_cursor := style_cursor s; style_zIndex := style_zIndex s;
     selected := b; content := content s;
     dataset_rotation := dataset_rotation s;
     dataset_flippedH := dataset_flippedH s; dataset_flippedV := dataset_flippedV s;
     svg_style_transform := svg_style_transform s;
     svg_style_transformOrigin := svg_style_transformOrigin s;
     controller := controller s |}.

Definition set_controller (c : option Controller) (s : Shape) : Shape :=
  {| node := node s; elem_id := elem_id s; dataset_shapeType := dataset_shapeType s;
     style_left := style_left s; style_top := style_top s;
     style_cursor := style_cursor s; style_zIndex := style_zIndex s;
     selected := selected s; content := content s;
     dataset_rotation := dataset_rotation s;
     dataset_flippedH := dataset_flippedH s; dataset_flippedV := dataset_flippedV s;
     svg_style_transform := svg_style_transform s;
     svg_style_transformOrigin := svg_style_transformOrigin s;
     controller := c |}.

Definition set_dataset_rotation (r : option Z) (s : Shape) : Shape :=
  {| node := node s; elem_id := elem_id s; dataset_shapeType := dataset_shapeType s;
     style_left := style_left s; style_top := style_top s;
     style_cursor := style_cursor s; style_zIndex := style_zIndex s;
     selected := selected s; content := content s;
     dataset_rotation := r;
     dataset_flippedH := dataset_flippedH s; dataset_flippedV := dataset_flippedV s;
     svg_style_transform := svg_style_transform s;
     svg_style_transformOrigin := svg_style_transformOrigin s;
     controller := controller s |}.

Definition set_dataset_flipped (h v : option bool) (s : Shape) : Shape :=
  {| node := node s; elem_id := elem_id s; dataset_shapeType := dataset_shapeType s;
     style_left := style_left s; style_top := style_top s;
     style_cursor := style_cursor s; style_zIndex := style_zIndex s;
     selected := selected s; content := content s;
     dataset_rotation := dataset_rotation s;
     dataset_flippedH := h; dataset_flippedV := v;
     svg_style_transform := svg_style_transform s;
     svg_style_transformOrigin := svg_style_transformOrigin s;
     controller := controller s |}.

Definition set_svg_style (transform transformOrigin : string) (s : Shape) : Shape :=
  {| node := node s; elem_id := elem_id s; dataset_shapeType := dataset_shapeType s;
     style_left := style_left s; style_top := style_top s;
     style_cursor := style_cursor s; style_zIndex := style_zIndex s;
     selected := selected s; content := content s;
     dataset_rotation := dataset_rotation s;
     dataset_flippedH := dataset_flippedH s; dataset_flippedV := dataset_flippedV s;
     svg_style_transform := transform;
     svg_style_transformOrigin := transformOrigin;
     controller := controller s |}.

(** A value that may be [undefined], used where the source needs a string
    (a template literal, a property key, a [dataset] assignment). *)
Definition String_of (o : option string) : string := default "undefined"%string o.

(** [!shapeType] for a [dataset] value: [undefined] and [''] are falsy. *)
Definition falsy (o : option string) : bool :=
  match o with
  | None => true
  | Some s => String.eqb s ""
  end.

(** [a <= b] and [a > b] on numbers. *)
Definition num_le (a b : Q) : bool := Qle_bool a b.
Definition num_gt (a b : Q) : bool := negb (Qle_bool a b).

(** The point of a mouse event or of [touches[0]]/[changedTouches[0]]. *)
Record Touch := {
  clientX : Q;
  clientY : Q
}.

(** [new ShapeController(element, container)]: the fields the constructor
    sets.  [startX], [startY], [initialX] and [initialY] are unset until
    [handleMoveStart] and read only while [isDragging]. *)
Definition newShapeController : Controller :=
  {| isDragging := false; hasDragged := false; startEvent := None;
     startX := 0; startY := 0; initialX := 0; initialY := 0 |}.

(** ** DRAG & DROP SYSTEM *)

Module DragDropManager.

(** The fields of the instance ([draggedElement] is written and never
    read). *)
Record State := {
  touchDraggedElement : option PaletteItem;
  touchStartPos : option (Q * Q);
  isDragging : bool
}.

Definition init : State :=
  {| touchDraggedElement := None; touchStartPos := None; isDragging := false |}.

(** [createShape(shapeType, x, y, container)]; [id] is the value of
    [Utils.generateId()].  Where [ShapeFactory.create] throws, the error
    leaves [createShape] before any statement of it has run. *)
Definition createShape (id : string) (shapeType : string) (x y : Q)
    (container : Container) (app : App) : App :=
  if ShapeFactory.throws (doc app) shapeType then app
  else
    match ShapeFactory.create (doc app) (nextNode app) id shapeType x y container with
    | None => console_log "Shape creation failed" app
    | Some shape =>
        let shape := set_controller (Some newShapeController) shape in
        let app :=
          {| doc := {| palette := palette (doc app);
                       buildArea := buildArea (doc app);
                       shapes := shapes (doc app) ++ [shape];
                       injected := injected (doc app) |};
             nextNode := S (nextNode app);
             supplyList := supplyList app;
             currentShape := currentShape app;
             emitted := emitted app;
             console := console app;
             alerts := alerts app |} in
        eventBus.emit "shapeAdded" app
    end.

Definition handleTouchStart (item : PaletteItem) (touch : Touch) (st : State) : State :=
  {| touchDraggedElement := Some item;
     touchStartPos := Some (clientX touch, clientY touch);
     isDragging := false |}.

(** Whether a [touchmove] at [touch] is beyond the threshold. *)
Definition beyondThreshold (start : Q * Q) (touch : Touch) : bool :=
  let deltaX := Qabs (clientX touch - fst start) in
  let deltaY := Qabs (clientY touch - snd start) in
  num_gt deltaX (inject_Z CONFIG.DRAG_THRESHOLD)
  || num_gt deltaY (inject_Z CONFIG.DRAG_THRESHOLD).

(** [handleTouchMove(e)].  Reading [touchStartPos.x] of [null] throws
    before any field is written. *)
Definition handleTouchMove (touch : Touch) (st : State) : State :=
  match touchDraggedElement st with
  | None => st
  | Some _ =>
      match touchStartPos st with
      | None => st
      | Some start =>
          if beyondThreshold start touch
          then {| touchDraggedElement := touchDraggedElement st;
                  touchStartPos := touchStartPos st;
                  isDragging := true |}
          else st
      end
  end.

Definition isOverBuildArea (touch : Touch) (rect : Rect) : bool :=
  num_le (rect_left rect) (clientX touch)
  && num_le (clientX touch) (rect_right rect)
  && num_le (rect_top rect) (clientY touch)
  && num_le (clientY touch) (rect_bottom rect).

(** The position both tap handlers pass to [createShape].  The handlers
    compute [centerX = rect.width / 2 - shapeSize.width / 2],
    [offsetX = (Math.random() - 0.5) * 40] and the sum
    [centerX + offsetX] in double arithmetic, each operation rounded, and
    likewise on the y axis.  [sumX] and [sumY] are the two sums as the
    handler computes them: a random number near [3 / 4] can give a sum
    that is rounded onto the half-way point between two grid lines, which
    the exact sum stays below.  [tapSum] states what the two sums are
    known to satisfy. *)
Definition tapPosition (sumX sumY : Q) : Z * Z :=
  let finalX := Utils.snapToGrid sumX in
  let finalY := Utils.snapToGrid sumY in
  (finalX, finalY).


(** [handleTapToAdd(e)], the [click] listener; [item] is
    [e.currentTarget], [sumX] and [sumY] the sums of [tapPosition].  The
    scale feedback on the palette element is not modelled. *)
Definition handleTapToAdd (item : PaletteItem) (sumX sumY : Q) (id : string)
    (app : App) : App :=
  match buildArea (doc app) with
  | None => app
  | Some area =>
      if falsy (dataset_shape item) then app
      else
        let shapeType := String_of (dataset_shape item) in
        let '(finalX, finalY) := tapPosition sumX sumY in
        createShape id shapeType (inject_Z finalX) (inject_Z finalY) area app
  end.

(** [handleTapToAddTouch(element)]. *)
Definition handleTapToAddTouch (element : PaletteItem) (sumX sumY : Q) (id : string)
    (app : App) : App :=
  match buildArea (doc app) with
  | None => app
  | Some area =>
      if falsy (dataset_shape element) then app
      else
        let shapeType := String_of (dataset_shape element) in
        let '(finalX, finalY) := tapPosition sumX sumY in
        createShape id shapeType (inject_Z finalX) (inject_Z finalY) area app
  end.

(** Whether [handleTapToAddTouch(element)] throws: it does where it
    reaches [createShape] and the selector does not parse. *)
Definition tapThrows (element : PaletteItem) (app : App) : bool :=
  match buildArea (doc app) with
  | None => false
  | Some _ =>
      negb (falsy (dataset_shape element))
      && ShapeFactory.throws (doc app) (String_of (dataset_shape element))
  end.

(** The position [handleTouchEnd] and [handleDrop] pass to
    [createShape]. *)
Definition dropPosition (rect : Rect) (shapeSize : CONFIG.Size) (touch : Touch) : Z * Z :=
  let rawX := (clientX touch - rect_left rect - inject_Z (CONFIG.width shapeSize) / 2)%Q in
  let rawY := (clientY touch - rect_top rect - inject_Z (CONFIG.height shapeSize) / 2)%Q in
  (Utils.snapToGrid rawX, Utils.snapToGrid rawY).

(** [handleTouchEnd(e)]; [touch] is [e.changedTouches[0]], [sumX] and
    [sumY] the sums of [tapPosition].  When the build area is missing,
    [buildArea.getBoundingClientRect()] throws before any field is
    written; when [createShape] or [handleTapToAddTouch] throws, the
    statements that reset the fields are not reached. *)
Definition handleTouchEnd (touch : Touch) (sumX sumY : Q) (id : string)
    (st : State) (app : App) : State * App :=
  match touchDraggedElement st with
  | None => (st, app)
  | Some element =>
      if isDragging st then
        match buildArea (doc app) with
        | None => (st, app)
        | Some area =>
            let rect := boundingClientRect area in
            if isOverBuildArea touch rect then
              let shapeType := String_of (dataset_shape element) in
              let shapeSize := CONFIG.shapeSize shapeType in
              let '(x, y) := dropPosition rect shapeSize touch in
              if ShapeFactory.throws (doc app) shapeType then (st, app)
              else (init, createShape id shapeType (inject_Z x) (inject_Z y) area app)
            else (init, app)
        end
      else if tapThrows element app then (st, app)
      else (init, handleTapToAddTouch element sumX sumY id app)
  end.

(** [handleDrop(e)] on the build area; [data] is
    [e.dataTransfer.getData('text/plain')], any text that is dragged onto
    the build area. *)
Definition handleDrop (data : string) (point : Touch) (id : string) (app : App) : App :=
  match buildArea (doc app) with
  | None => app
  | Some area =>
      let shapeType := data in
      let rect := boundingClientRect area in
      let shapeSize := CONFIG.shapeSize shapeType in
      let '(x, y) := dropPosition rect shapeSize point in
      createShape id shapeType (inject_Z x) (inject_Z y) area app
  end.

End DragDropManager.

(** ** Strings: the JavaScript operations the handlers use *)

(** [`${n}`] for an integer [n]. *)
Definition Z_toString (n : Z) : string := NilZero.string_of_int (Z.to_int n).

(** The two built-ins that [flip] applies to text read back from the
    inline style: [parseFloat] ([None] is [NaN]) and the rendering of a
    number that is not an integer. *)
Record Builtins := {
  parseFloat : string -> option Q;
  fractionToString : Q -> string
}.

(** [`${x}`] for a number [x]. *)
Definition Number_toString (js : Builtins) (x : Q) : string :=
  let r := Qred x in
  if Pos.eqb (Qden r) 1 then Z_toString (Qnum r) else fractionToString js x.

Definition backslash : ascii := ascii_of_nat 92.
Definition rparen : ascii := ascii_of_nat 41.
Definition comma : ascii := ascii_of_nat 44.

Fixpoint strip_prefix (p s : string) : option string :=
  match p with
  | EmptyString => Some s
  | String a p' =>
      match s with
      | EmptyString => None
      | String b s' => if Ascii.eqb a b then strip_prefix p' s' else None
      end
  end.

Module RegExp.

(** The regular-expression literals of [flip] are [/rotate\\(([^)]+)\\)/]
    and [/scale\\(([^)]+)\\)/]: the name, a backslash, then group 1, which
    is group 2 (one or more characters other than a closing parenthesis,
    greedy) followed by a backslash. *)

(** Group 1 matched at the start of [s], if it matches there: the longest
    [c1 ... cn \] with [n >= 1] and no [ci] a closing parenthesis. *)
Fixpoint group1 (s : string) : option string :=
  match s with
  | EmptyString => None
  | String c rest =>
      if Ascii.eqb c rparen then None
      else
        match group1 rest with
        | Some g => Some (String c g)
        | None =>
            match rest with
            | String b _ =>
                if Ascii.eqb b backslash
                then Some (String c (String backslash EmptyString))
                else None
            | EmptyString => None
            end
        end
  end.

(** The literal at the start of [s]. *)
Definition matchHere (name s : string) : option string :=
  match strip_prefix (name ++ String backslash EmptyString)%string s with
  | Some rest => group1 rest
  | None => None
  end.

(** [s.match(/name\\(([^)]+)\\)/)]: [None] is [null], [Some g] a match
    whose element [1] is [g]; the leftmost start wins. *)
Fixpoint match_ (name s : string) : option string :=
  match matchHere name s with
  | Some g => Some g
  | None =>
      match s with
      | EmptyString => None
      | String _ rest => match_ name rest
      end
  end.

End RegExp.

(** [s.split(',')]. *)
Fixpoint split_comma (s : string) : list string :=
  match s with
  | EmptyString => [EmptyString]
  | String c rest =>
      if Ascii.eqb c comma then EmptyString :: split_comma rest
      else
        match split_comma rest with
        | piece :: pieces => String c piece :: pieces
        | [] => [String c EmptyString]
        end
  end.

Definition is_space (c : ascii) : bool :=
  let n := nat_of_ascii c in
  Nat.eqb n 32 || (Nat.leb 9 n && Nat.leb n 13).

Fixpoint trimStart (s : string) : string :=
  match s with
  | EmptyString => EmptyString
  | String c rest => if is_space c then trimStart rest else s
  end.

Definition string_rev (s : string) : string :=
  string_of_list_ascii (List.rev (list_ascii_of_string s)).

(** [s.trim()] on ASCII white space. *)
Definition trim (s : string) : string :=
  string_rev (trimStart (string_rev (trimStart s))).

(** [v || d] for a number read from an array: [undefined], [NaN] and [0]
    are falsy. *)
Definition number_or (v : option (option Q)) (d : Q) : Q :=
  match v with
  | Some (Some q) => if Qeq_bool q 0 then d else q
  | _ => d
  end.

(** The body that [ShapeController.flip] and the [flip] of
    [ContextMenuManager.getShapeController] share, statement for statement:
    the new scale factors and the new [svg.style.transform]. *)
Definition flipTransform (js : Builtins) (direction : string)
    (currentTransform : string) : Q * Q * string :=
  let rotateMatch := RegExp.match_ "rotate" currentTransform in
  let scaleMatch := RegExp.match_ "scale" currentTransform in
  let rotation := default "0deg"%string rotateMatch in
  let '(scaleX, scaleY) :=
    match scaleMatch with
    | Some g =>
        let scaleValues := List.map (fun v => parseFloat js (trim v)) (split_comma g) in
        let scaleX := number_or (scaleValues !! 0%nat) 1 in
        let scaleY := number_or (scaleValues !! 1%nat) scaleX in
        (scaleX, scaleY)
    | None => (1%Q, 1%Q)
    end in
  let '(scaleX, scaleY) :=
    if String.eqb direction "horizontal" then ((scaleX * -1)%Q, scaleY)
    else if String.eqb direction "vertical" then (scaleX, (scaleY * -1)%Q)
    else (scaleX, scaleY) in
  (scaleX, scaleY,
   ("rotate(" ++ rotation ++ ") scale(" ++ Number_toString js scaleX ++ ", "
      ++ Number_toString js scaleY ++ ")")%string).

(** ** SHAPE BEHAVIOR CONTROLLER *)

Module ShapeController.

(** [handleMoveStart(e)]; [touch] tells a [touchstart] from a
    [mousedown]. *)
Definition handleMoveStart (touch : bool) (point : Touch) (s : Shape) : Shape :=
  match controller s with
  | None => s
  | Some _ =>
      set_cursor_zIndex "grabbing" "100"
        (set_controller
           (Some {| isDragging := true;
                    hasDragged := false;
                    startEvent := Some touch;
                    startX := clientX point;
                    startY := clientY point;
                    initialX := style_left s;
                    initialY := style_top s |})
           s)
  end.

(** [handleMove(e)]; [container] is [this.container] as the browser
    measures it when the event arrives. *)
Definition handleMove (container : Container) (point : Touch) (s : Shape) : Shape :=
  match controller s with
  | None => s
  | Some this =>
      if negb (isDragging this) then s
      else
        let dx := (clientX point - startX this)%Q in
        let dy := (clientY point - startY this)%Q in
        if num_gt (Qabs dx) (inject_Z CONFIG.DRAG_THRESHOLD)
           || num_gt (Qabs dy) (inject_Z CONFIG.DRAG_THRESHOLD)
        then
          let rawX := (inject_Z (initialX this) + dx)%Q in
          let rawY := (inject_Z (initialY this) + dy)%Q in
          let snappedX := Utils.snapToGrid rawX in
          let snappedY := Utils.snapToGrid rawY in
          let shapeSize := CONFIG.shapeSize (dataset_shapeType s) in
          let newX :=
            Z.max 0 (Z.min snappedX (clientWidth container - CONFIG.width shapeSize)) in
          let newY := Z.max 0 snappedY in
          set_position newX newY
            (set_controller
               (Some {| isDragging := isDragging this;
                        hasDragged := true;
                        startEvent := startEvent this;
                        startX := startX this;
                        startY := startY this;
                        initialX := initialX this;
                        initialY := initialY this |})
               s)
        else s
  end.

(** [handleClick()], up to the timer that later emits
    ['showContextMenu']. *)
Definition handleClick (n : nat) (l : list Shape) : list Shape :=
  update_node n (set_selected true) (List.map (set_selected false) l).

(** [handleMoveEnd()] of the controller of element [n]. *)
Definition handleMoveEnd (n : nat) (l : list Shape) : list Shape :=
  match List.find (fun s => Nat.eqb (node s) n) l with
  | None => l
  | Some s =>
      match controller s with
      | None => l
      | Some this =>
          if isDragging this then
            let l :=
              update_node n
                (fun s =>
                   set_cursor_zIndex "move" "10"
                     (set_controller
                        (Some {| isDragging := false;
                                 hasDragged := hasDragged this;
                                 startEvent := startEvent this;
                                 startX := startX this;
                                 startY := startY this;
                                 initialX := initialX this;
                                 initialY := initialY this |})
                        s))
                l in
            let l :=
              if negb (hasDragged this) && bool_decide (is_Some (startEvent this))
              then handleClick n l else l in
            update_node n
              (fun s =>
                 set_controller
                   (Some {| isDragging := false;
                            hasDragged := false;
                            startEvent := None;
                            startX := startX this;
                            startY := startY this;
                            initialX := initialX this;
                            initialY := initialY this |})
                   s)
              l
          else l
      end
  end.

(** [rotate()]. *)
Definition rotate (s : Shape) : Shape :=
  let currentRotation := default 0 (dataset_rotation s) in
  let currentRotation := Z.rem (currentRotation + 90) 360 in
  set_svg_style ("rotate(" ++ Z_toString currentRotation ++ "deg)")%string
    "center center"
    (set_dataset_rotation (Some currentRotation) s).

(** [flip(direction)]. *)
Definition flip (js : Builtins) (direction : string) (s : Shape) : Shape :=
  let '(scaleX, scaleY, transform) :=
    flipTransform js direction (svg_style_transform s) in
  let s :=
    if String.eqb direction "horizontal"
    then set_dataset_flipped (Some (num_gt 0 scaleX)) (dataset_flippedV s) s
    else if String.eqb direction "vertical"
    then set_dataset_flipped (dataset_flippedH s) (Some (num_gt 0 scaleY)) s
    else s in
  set_svg_style transform "center center" s.

(** [destroy()]. *)
Definition destroy (n : nat) (app : App) : App :=
  eventBus.emit "shapeRemoved" (set_shapes (remove_node n) app).

End ShapeController.

(** ** CONTEXT MENU SYSTEM *)

Module ContextMenuManager.

(** [show(shape, x, y)]: [hide()], then [currentShape = shape].  The
    menu element and its position are not modelled. *)
Definition show (n : nat) (app : App) : App := set_currentShape (Some n) app.

Definition hide (app : App) : App := set_currentShape None app.

(** The object returned by [getShapeController(element)]. *)
Module getShapeController.

Definition rotate (element : Shape) : Shape :=
  let currentRotation := default 0 (dataset_rotation element) in
  let currentRotation := Z.rem (currentRotation + 90) 360 in
  set_svg_style ("rotate(" ++ Z_toString currentRotation ++ "deg)")%string
    "center center"
    (set_dataset_rotation (Some currentRotation) element).

Definition flip (js : Builtins) (direction : string) (element : Shape) : Shape :=
  let '(_, _, transform) :=
    flipTransform js direction (svg_style_transform element) in
  set_svg_style transform "center center" element.

Definition destroy (n : nat) (app : App) : App :=
  eventBus.emit "shapeRemoved" (set_shapes (remove_node n) app).

End getShapeController.

(** [handleAction(e)]; [button] is the [data-action] of
    [e.target.closest('.context-menu-item')], [None] when there is no
    such element. *)
Definition handleAction (js : Builtins) (button : option string) (app : App) : App :=
  match button, currentShape app with
  | Some action, Some n =>
      let app :=
        if String.eqb action "rotate"
        then set_shapes (update_node n getShapeController.rotate) app
        else if String.eqb action "flip-horizontal"
        then set_shapes (update_node n (getShapeController.flip js "horizontal")) app
        else if String.eqb action "flip-vertical"
        then set_shapes (update_node n (getShapeController.flip js "vertical")) app
        else if String.eqb action "delete"
        then getShapeController.destroy n app
        else app in
      hide app
  | _, _ => app
  end.

End ContextMenuManager.

(** ** KEYBOARD SHORTCUTS *)

Module KeyboardManager.

(** [clearAllShapes()]; without a build area the first statement
    throws. *)
Definition clearAllShapes (app : App) : App :=
  match buildArea (doc app) with
  | None => app
  | Some _ => eventBus.emit "shapesCleared" (set_shapes (fun _ => []) app)
  end.

(** [deleteSelectedShape()]: the first selected shape in document
    order. *)
Definition deleteSelectedShape (app : App) : App :=
  match List.find selected (shapes (doc app)) with
  | None => app
  | Some s => eventBus.emit "shapeRemoved" (set_shapes (remove_node (node s)) app)
  end.

Definition handleKeydown (key : string) (app : App) : App :=
  if String.eqb key "Escape" then clearAllShapes app
  else if String.eqb key "Delete" then deleteSelectedShape app
  else if String.eqb key "Backspace" then deleteSelectedShape app
  else app.

End KeyboardManager.

(** ** PRINT SYSTEM *)

(** What the browser and the network answer during one
    [captureAsImage()]: whether [html2canvas] is already defined, whether
    the script loads, whether loading it defines [html2canvas], and
    whether rendering the card succeeds. *)
Record CaptureEnv := {
  html2canvas_defined : bool;
  loadScript_resolves : bool;
  script_defines_html2canvas : bool;
  html2canvas_resolves : bool
}.

Module PrintManager.

(** A statement sequence that can throw: the calls made so far
    ([html2canvas], [Utils.loadScript], [canvas.toBlob],
    [window.print]) and the application state are threaded through;
    the result is a value or the thrown error. *)
Record World := {
  app : App;
  calls : list string
}.

Inductive Completion (A : Type) :=
| Normal (a : A)
| Throw (error : string).
Arguments Normal {A} a.
Arguments Throw {A} error.

Definition M (A : Type) : Type := World -> Completion A * World.

Definition ret {A} (a : A) : M A := fun w => (Normal a, w).

Definition bind {A B} (m : M A) (k : A -> M B) : M B :=
  fun w =>
    match m w with
    | (Normal a, w') => k a w'
    | (Throw e, w') => (Throw e, w')
    end.

Definition throw {A} (e : string) : M A := fun w => (Throw e, w).

(** [try { body } catch (error) { handler }]. *)
Definition try_catch {A} (body : M A) (handler : string -> M A) : M A :=
  fun w =>
    match body w with
    | (Normal a, w') => (Normal a, w')
    | (Throw e, w') => handler e w'
    end.

#[export] Instance M_ret : MRet M := @ret.
#[export] Instance M_bind : MBind M := fun A B k m => bind m k.

Definition call (name : string) : M unit :=
  fun w => (Normal tt, {| app := app w; calls := calls w ++ [name] |}).

Definition on_app (f : App -> App) : M unit :=
  fun w => (Normal tt, {| app := f (app w); calls := calls w |}).

Definition fallbackMessage : string :=
  "To save this card:\n\n1. Take a screenshot of the card\n2. Crop to just the blue card area\n3. Save to your photos\n\nOr use a desktop browser for printing.".

(** [showFallbackInstructions()]. *)
Definition showFallbackInstructions : M unit := on_app (alert fallbackMessage).

(** [await Utils.loadScript(src)]. *)
Definition loadScript (env : CaptureEnv) : M unit :=
  call "Utils.loadScript";;
  if loadScript_resolves env then ret tt else throw "script load error".

(** [await html2canvas(card, options)]; [defined] tells whether the
    name is bound when the call is evaluated. *)
Definition html2canvas (env : CaptureEnv) (defined : bool) : M unit :=
  if defined then
    (call "html2canvas";;
     if html2canvas_resolves env then ret tt else throw "html2canvas error")
  else throw "ReferenceError: html2canvas is not defined".

(** [captureAsImage()]. *)
Definition captureAsImage (env : CaptureEnv) : M unit :=
  try_catch
    (defined ←
       (if negb (html2canvas_defined env)
        then (loadScript env;; ret (script_defines_html2canvas env))
        else ret true);
     html2canvas env defined;;
     call "canvas.toBlob")
    (fun error =>
       on_app (console_log "Error capturing card:");;
       showFallbackInstructions).

(** [handlePrint()]; [innerWidth] is [window.innerWidth]. *)
Definition handlePrint (innerWidth : Z) (env : CaptureEnv) : M unit :=
  on_app (eventBus.emit "hideContextMenu");;
  if Utils.isMobile innerWidth then captureAsImage env
  else call "window.print".

End PrintManager.

(** ** APPLICATION CONTROLLER: the page as a transition system *)

(** The application with the one [DragDropManager] instance. *)
Record Page := {
  application : App;
  dragDrop : DragDropManager.State
}.

(** The events the registered listeners react to, with what the browser
    supplies at each: the sums that hold the random numbers, generated
    ids, event coordinates.  [ShowContextMenu] is the timer that
    [handleClick] starts, [Resize] a change of the measured build area,
    [DocumentChange] a change of what the document answers for the
    selectors of [injected]. *)
Inductive Action :=
| PaletteClick (item : PaletteItem) (sumX sumY : Q) (id : string)
| PaletteTouchStart (item : PaletteItem) (touch : Touch)
| PaletteTouchMove (touch : Touch)
| PaletteTouchEnd (touch : Touch) (sumX sumY : Q) (id : string)
| BuildAreaDrop (data : string) (point : Touch) (id : string)
| ShapePress (n : nat) (touch : bool) (point : Touch)
| DocumentMove (n : nat) (point : Touch)
| DocumentRelease (n : nat)
| ShapeContextMenu (n : nat)
| ShowContextMenu (n : nat)
| MenuClick (button : option string)
| KeyDown (key : string)
| ClearAllClick
| PrintClick (innerWidth : Z) (env : CaptureEnv)
| Resize (area : Container)
| DocumentChange (answers : string -> Query).

Definition on_application (f : App -> App) (p : Page) : Page :=
  {| application := f (application p); dragDrop := dragDrop p |}.

Definition set_buildArea (area : Container) (app : App) : App :=
  {| doc := {| palette := palette (doc app);
               buildArea := match buildArea (doc app) with
                            | Some _ => Some area
                            | None => None
                            end;
               shapes := shapes (doc app);
               injected := injected (doc app) |};
     nextNode := nextNode app;
     supplyList := supplyList app;
     currentShape := currentShape app;
     emitted := emitted app;
     console := console app;
     alerts := alerts app |}.

Definition set_injected (answers : string -> Query) (app : App) : App :=
  {| doc := {| palette := palette (doc app);
               buildArea := buildArea (doc app);
               shapes := shapes (doc app);
               injected := answers |};
     nextNode := nextNode app;
     supplyList := supplyList app;
     currentShape := currentShape app;
     emitted := emitted app;
     console := console app;
     alerts := alerts app |}.

Definition step (js : Builtins) (a : Action) (p : Page) : Page :=
  match a with
  | PaletteClick item sumX sumY id =>
      on_application (DragDropManager.handleTapToAdd item sumX sumY id) p
  | PaletteTouchStart item touch =>
      {| application := application p;
         dragDrop := DragDropManager.handleTouchStart item touch (dragDrop p) |}
  | PaletteTouchMove touch =>
      {| application := application p;
         dragDrop := DragDropManager.handleTouchMove touch (dragDrop p) |}
  | PaletteTouchEnd touch sumX sumY id =>
      let '(st, app) :=
        DragDropManager.handleTouchEnd touch sumX sumY id (dragDrop p) (application p) in
      {| application := app; dragDrop := st |}
  | BuildAreaDrop data point id =>
      on_application (DragDropManager.handleDrop data point id) p
  | ShapePress n touch point =>
      on_application
        (set_shapes (update_node n (ShapeController.handleMoveStart touch point))) p
  | DocumentMove n point =>
      match buildArea (doc (application p)) with
      | Some area =>
          on_application
            (set_shapes (update_node n (ShapeController.handleMove area point))) p
      | None => p
      end
  | DocumentRelease n =>
      on_application (set_shapes (ShapeController.handleMoveEnd n)) p
  | ShapeContextMenu n =>
      on_application
        (set_shapes
           (update_node n
              (fun s => match controller s with
                        | Some _ => ShapeController.rotate s
                        | None => s
                        end))) p
  | ShowContextMenu n => on_application (ContextMenuManager.show n) p
  | MenuClick button => on_application (ContextMenuManager.handleAction js button) p
  | KeyDown key => on_application (KeyboardManager.handleKeydown key) p
  | ClearAllClick => on_application KeyboardManager.clearAllShapes p
  | PrintClick innerWidth env =>
      on_application
        (fun app =>
           PrintManager.app
             (snd (PrintManager.handlePrint innerWidth env
                     {| PrintManager.app := app; PrintManager.calls := [] |}))) p
  | Resize area => on_application (set_buildArea area) p
  | DocumentChange answers => on_application (set_injected answers) p
  end.

Definition run (js : Builtins) (actions : list Action) (p : Page) : Page :=
  foldl (fun p a => step js a p) p actions.

(** The page after [DOMContentLoaded]: no shape is placed.  The answers
    of [injected] are set by [DocumentChange]; until then every such
    selector is taken not to parse. *)
Definition loaded (items : list PaletteItem) (area : option Container) : Page :=
  {| application :=
       {| doc := {| palette := items; buildArea := area; shapes := [];
                    injected := fun _ => SyntaxError |};
          nextNode := 0;
          supplyList := ∅;
          currentShape := None;
          emitted := [];
          console := [];
          alerts := [] |};
     dragDrop := DragDropManager.init |}.

(** An action that places a shape, and one that deletes or clears. *)
Definition is_place (a : Action) : bool :=
  match a with
  | PaletteClick _ _ _ _ | PaletteTouchEnd _ _ _ _ | BuildAreaDrop _ _ _ => true
  | _ => false
  end.

Definition is_delete_or_clear (a : Action) : bool :=
  match a with
  | MenuClick (Some action) => String.eqb action "delete"
  | KeyDown key =>
      String.eqb key "Escape" || String.eqb key "Delete" || String.eqb key "Backspace"
  | ClearAllClick => true
  | _ => false
  end.

Definition nodes (p : Page) : list nat :=
  List.map node (shapes (doc (application p))).

(** Concrete stand-ins for the two built-ins, for evaluating examples:
    on the transforms this page writes, [flip] calls neither. *)
Definition noBuiltins : Builtins :=
  {| parseFloat := fun _ => None; fractionToString := fun _ => "NaN"%string |}.
(** ** Properties the specification states *)

(** The width the handlers use for a placed shape. *)
Definition shapeWidth (s : Shape) : Z :=
  CONFIG.width (CONFIG.shapeSize (dataset_shapeType s)).

(** "Position stays within visible bounds, rounded to a fixed grid step",
    for a build area of width [containerWidth]. *)
Definition within_bounds_on_grid (containerWidth : Z) (s : Shape) : Prop :=
  (CONFIG.GRID_SIZE | style_left s) /\
  0 <= style_left s <= containerWidth - shapeWidth s /\
  (CONFIG.GRID_SIZE | style_top s) /\
  0 <= style_top s.

Definition same_position (s s' : Shape) : Prop :=
  style_left s' = style_left s /\ style_top s' = style_top s.





(** The DOM nodes that define a shape are missing: the selector finds no
    element, or an element without a [.shape-svg] child. *)
Definition nodes_missing (doc : Document) (shapeType : string) : Prop :=
  ShapeFactory.querySelector doc shapeType = NotFound \/
  exists item,
    ShapeFactory.querySelector doc shapeType = Found item /\ shape_svg item = None.

(** A text with a quote in it: the three characters a, quote, b. *)
Definition quotedText : string :=
  String "a" (String ShapeFactory.quote (String "b" EmptyString)).


(** A touch gesture on a palette item up to its [touchend]: the
    [touchstart] on [item] at [start], then the [touchmove] events. *)
Definition touchGesture (st0 : DragDropManager.State) (item : PaletteItem)
    (start : Touch) (moves : list Touch) : DragDropManager.State :=
  foldl (fun st touch => DragDropManager.handleTouchMove touch st)
    (DragDropManager.handleTouchStart item start st0) moves.


(** The number of shapes that satisfy [p]. *)
Definition countIf (p : Shape -> bool) (l : list Shape) : nat :=
  length (List.filter p l).

(** The shapes whose type [SHAPE_NAMES] maps to [name], and those whose
    type it does not map. *)
Definition named (name : string) (s : Shape) : bool :=
  bool_decide (SHAPE_NAMES (dataset_shapeType s) = Some name).

Definition unnamed (s : Shape) : bool :=
  bool_decide (SHAPE_NAMES (dataset_shapeType s) = None).

(** The shapes whose type is neither a key of [SHAPE_NAMES] nor a
    property name of [Object.prototype], and those whose type is such a
    property name with a value that prints as [name]. *)
Definition unknown (s : Shape) : bool :=
  unnamed s && negb (inheritedKey (dataset_shapeType s)).

Definition inheritedNamed (name : string) (s : Shape) : bool :=
  unnamed s && bool_decide (Object_prototype (dataset_shapeType s) = Some name).

(** A placed shape of the given type, for examples. *)
Definition shapeOfType (shapeType : string) : Shape :=
  {| node := 0;
     elem_id := "shape-1";
     dataset_shapeType := shapeType;
     style_left := 0;
     style_top := 0;
     style_cursor := "";
     style_zIndex := "";
     selected := false;
     content := {| svg := "<rect/>"; sd_width := 80; sd_height := 80 |};
     dataset_rotation := None;
     dataset_flippedH := None;
     dataset_flippedV := None;
     svg_style_transform := "";
     svg_style_transformOrigin := "";
     controller := None |}.

(** The shapes that [countShapes] files under [name]. *)
Definition hasDisplayName (name : string) (s : Shape) : bool :=
  String.eqb (SupplyListManager.displayName (dataset_shapeType s)) name.

Definition hasType (shapeType : string) (s : Shape) : bool :=
  String.eqb (dataset_shapeType s) shapeType.

(** "Image capture fails": the script does not load when it is needed,
    or the call of [html2canvas] throws. *)
Definition capture_fails (env : CaptureEnv) : Prop :=
  (html2canvas_defined env = false /\ loadScript_resolves env = false) \/
  (html2canvas_defined env = false /\ script_defines_html2canvas env = false) \/
  html2canvas_resolves env = false.

(** Whether a string contains a backslash. *)
Fixpoint has_backslash (s : string) : bool :=
  match s with
  | EmptyString => false
  | String c rest => Ascii.eqb c backslash || has_backslash rest
  end.

(** The rotation state of a shape: [dataset.rotation], 0 when unset. *)
Definition rotation_state (s : Shape) : Z := default 0 (dataset_rotation s).

Definition quarter_turn (s : Shape) : Prop :=
  In (rotation_state s) [0; 90; 180; 270].

(** What every placed shape satisfies: a quarter-turn rotation state and
    an inline transform that this page wrote (no backslash in it). *)
Definition shape_inv (s : Shape) : Prop :=
  quarter_turn s /\ has_backslash (svg_style_transform s) = false.

(** [s'] differs from [s] at most in the rotation and flip attributes and
    in the inline style of the [svg] child. *)
Definition same_but_rotation_flip (s s' : Shape) : Prop :=
  node s' = node s /\
  elem_id s' = elem_id s /\
  dataset_shapeType s' = dataset_shapeType s /\
  style_left s' = style_left s /\
  style_top s' = style_top s /\
  style_cursor s' = style_cursor s /\
  style_zIndex s' = style_zIndex s /\
  selected s' = selected s /\
  content s' = content s /\
  controller s' = controller s.

(** The rotate and flip actions, and the element they address. *)
Definition is_rotate_or_flip (a : Action) : bool :=
  match a with
  | ShapeContextMenu _ => true
  | MenuClick (Some action) =>
      String.eqb action "rotate" || String.eqb action "flip-horizontal"
      || String.eqb action "flip-vertical"
  | _ => false
  end.

Definition target (a : Action) (p : Page) : option nat :=
  match a with
  | ShapeContextMenu n => Some n
  | MenuClick _ => currentShape (application p)
  | _ => None
  end.

Definition placed (p : Page) : list Shape := shapes (doc (application p)).

(** Four applications of [f]. *)
Definition four_times (f : Shape -> Shape) (s : Shape) : Shape := f (f (f (f s))).

(** The handlers other than rotate and flip leave [dataset.rotation] and
    the inline transform alone. *)
Definition keeps_rotation_and_transform (f : Shape -> Shape) : Prop :=
  forall s,
    dataset_rotation (f s) = dataset_rotation s /\
    svg_style_transform (f s) = svg_style_transform s.

(** The handlers that rewrite a placed shape keep its DOM node. *)
Definition keeps_node (f : Shape -> Shape) : Prop := forall s, node (f s) = node s.

(** Example pages. *)
Definition examplePalette : list PaletteItem :=
  [ {| dataset_shape := Some "square"%string; shape_svg := Some "<rect/>"%string |};
    {| dataset_shape := Some "beam"%string; shape_svg := Some "<rect/>"%string |};
    {| dataset_shape := Some "cone"%string; shape_svg := None |} ].

Definition exampleArea (w h : Z) : Container :=
  {| clientWidth := w;
     boundingClientRect :=
       {| rect_left := 0; rect_top := 0;
          rect_width := inject_Z w; rect_height := inject_Z h |} |}.

Definition exampleDoc (w h : Z) : Document :=
  {| palette := examplePalette; buildArea := Some (exampleArea w h); shapes := [];
     injected := fun _ => SyntaxError |}.

Definition exampleApp (w h : Z) : App :=
  {| doc := exampleDoc w h; nextNode := 0; supplyList := ∅; currentShape := None;
     emitted := []; console := []; alerts := [] |}.

(** A square dropped in the middle of a 400 by 600 build area, then
    rotated once by the [contextmenu] listener. *)
Definition exampleLoaded : Page := loaded examplePalette (Some (exampleArea 400 600)).

Definition exampleDrop : Action :=
  BuildAreaDrop "square" {| clientX := 200; clientY := 300 |} "shape-1".

Definition exampleRotated (js : Builtins) : Page :=
  run js [exampleDrop; ShapeContextMenu 0] exampleLoaded.

(** ** Further parts of the page *)

(** *** EVENT SYSTEM: the [EventEmitter] class *)

Module EventEmitter.

(** [this.events], by own properties.  A callback is a function object,
    compared by identity in [off]: it is kept here as its identity.
    [emit] is given as the callbacks it calls, in order; the callbacks of
    this page do not register or remove listeners.

    [this.events] is an object literal: for an event name that
    [Object.prototype] defines and no own property hides,
    [this.events[event]] is the inherited value, truthy and without
    [push], [forEach] or [filter], and each method throws a [TypeError],
    given as [None]. *)

Definition on (event : string) (callback : nat) (events : gmap string (list nat))
    : option (gmap string (list nat)) :=
  match events !! event with
  | Some callbacks => Some (<[event := callbacks ++ [callback]]> events)
  | None =>
      if inheritedKey event then None
      else Some (<[event := [callback]]> events)
  end.

Definition emit (event : string) (events : gmap string (list nat)) : option (list nat) :=
  match events !! event with
  | Some callbacks => Some callbacks
  | None => if inheritedKey event then None else Some []
  end.

Definition off (event : string) (callback : nat) (events : gmap string (list nat))
    : option (gmap string (list nat)) :=
  match events !! event with
  | Some callbacks =>
      Some (<[event := List.filter (fun cb => negb (Nat.eqb cb callback)) callbacks]> events)
  | None => if inheritedKey event then None else Some events
  end.

End EventEmitter.

(** *** The supply list in the order [render] shows it *)

(** [counts[displayName] = (counts[displayName] || 0) + 1] on the entries
    of [counts] in insertion order, the order of [Object.entries]. *)
Fixpoint bumpEntry (name : string) (entries : list (string * nat)) : list (string * nat) :=
  match entries with
  | [] => [(name, 1%nat)]
  | (key, count) :: rest =>
      if String.eqb key name then (key, (count + 1)%nat) :: rest
      else (key, count) :: bumpEntry name rest
  end.

(** [Object.entries(countShapes(shapes))]. *)
Definition countEntries (shapes : list Shape) : list (string * nat) :=
  foldl (fun entries shape =>
           bumpEntry (SupplyListManager.displayName (dataset_shapeType shape)) entries)
    [] shapes.

(** The distinct elements of a list, each at its first occurrence. *)
Fixpoint firstOccurrences (l : list string) : list string :=
  match l with
  | [] => []
  | x :: rest => x :: List.filter (fun y => negb (String.eqb y x)) (firstOccurrences rest)
  end.

(** *** Mouse drag from the palette *)

(** [handleDragStart(e)]: the text given to [e.dataTransfer.setData]. *)
Definition handleDragStart (item : PaletteItem) : string :=
  String_of (dataset_shape item).

(** *** The context menu on screen *)

(** The adjustment that [ContextMenuManager.show] makes in its animation
    frame: [rect] is the menu's bounding rectangle, the result the
    [left] and [top] it stores. *)
Definition adjustForScreenBounds (x y : Q) (rect : Rect)
    (viewportWidth viewportHeight : Q) : Q * Q :=
  let newX :=
    if num_gt (rect_right rect) viewportWidth
    then (viewportWidth - rect_width rect - 10)%Q else x in
  let newY :=
    if num_gt (rect_bottom rect) viewportHeight
    then (viewportHeight - rect_height rect - 10)%Q else y in
  (newX, newY).

(** *** DIFFICULTY SYSTEM *)

Module DifficultyManager.

(** A [.difficulty-btn]: [parseInt(btn.dataset.difficulty)] ([None] is
    [NaN]) and whether it has the class [active]. *)
Record Button := {
  difficulty : option Z;
  active : bool
}.

(** [description] is the [#difficulty-desc] element, absent when
    [getElementById] returns [null], with the value last assigned to its
    [textContent] ([None] is [undefined]); [hammers] is the number of
    hammer icons in [hammersContainer.innerHTML]. *)
Record State := {
  currentLevel : option Z;
  buttons : list Button;
  description : option (option string);
  hammers : nat
}.

Definition descriptions (level : option Z) : option string :=
  match level with
  | Some 1 => Some "Easy: Use any shapes, no limits"%string
  | Some 2 => Some "Medium: Moderate challenge"%string
  | Some 3 => Some "Hard: Maximum challenge"%string
  | _ => None
  end.

(** The number of turns of [for (let i = 0; i < level; i++)]. *)
Definition turns (level : option Z) : nat :=
  match level with
  | Some l => Z.to_nat l
  | None => 0%nat
  end.

Definition updateDisplay (st : State) : State :=
  {| currentLevel := currentLevel st;
     buttons := buttons st;
     description := description st;
     hammers := turns (currentLevel st) |}.

(** The constructor: [currentLevel = 1], then [init()]. *)
Definition new (btns : list Button) (desc : option (option string)) : State :=
  updateDisplay
    {| currentLevel := Some 1; buttons := btns; description := desc; hammers := 0 |}.

Definition setActive (b : bool) (btn : Button) : Button :=
  {| difficulty := difficulty btn; active := b |}.

(** The [click] listener of button [i].  Without the description element
    the assignment to [textContent] throws and [updateDisplay] is not
    reached. *)
Definition click (i : nat) (st : State) : State :=
  match buttons st !! i with
  | None => st
  | Some btn =>
      let level := difficulty btn in
      let btns := alter (setActive true) i (List.map (setActive false) (buttons st)) in
      match description st with
      | None =>
          {| currentLevel := level; buttons := btns; description := None;
             hammers := hammers st |}
      | Some _ =>
          updateDisplay
            {| currentLevel := level; buttons := btns;
               description := Some (descriptions level);
               hammers := hammers st |}
      end
  end.

End DifficultyManager.

(** *** MOBILE UI SYSTEM *)

Module MobileUIManager.

(** [collapseBtn] and [content] are the two elements, absent when
    [getElementById] returns [null], each with whether it has the class
    [collapsed]; [listening] tells whether [setupCollapse] registered the
    [click] listener. *)
Record State := {
  isCollapsed : bool;
  collapseBtn : option bool;
  content : option bool;
  listening : bool
}.

Definition setBoth (b : bool) (st : State) : State :=
  match collapseBtn st, content st with
  | Some _, Some _ =>
      {| isCollapsed := b; collapseBtn := Some b; content := Some b;
         listening := listening st |}
  | _, _ => st
  end.

Definition expandByDefault (st : State) : State := setBoth false st.

Definition collapseByDefault (st : State) : State := setBoth true st.

Definition handleResize (innerWidth : Z) (st : State) : State :=
  if Utils.isMobile innerWidth then collapseByDefault st else expandByDefault st.

(** [toggle()]: the new state and whether a [classList] access threw. *)
Definition toggle (st : State) : State * bool :=
  match collapseBtn st with
  | None => (st, true)
  | Some _ =>
      let c := negb (isCollapsed st) in
      match content st with
      | None =>
          ({| isCollapsed := isCollapsed st; collapseBtn := Some c; content := None;
              listening := listening st |}, true)
      | Some _ =>
          ({| isCollapsed := c; collapseBtn := Some c; content := Some c;
              listening := listening st |}, false)
      end
  end.

(** The constructor: [isCollapsed = false], [setupCollapse()], then
    [handleResize()]. *)
Definition new (innerWidth : Z) (btn cnt : option bool) : State :=
  handleResize innerWidth
    {| isCollapsed := false; collapseBtn := btn; content := cnt;
       listening := bool_decide (is_Some btn) && bool_decide (is_Some cnt) |}.

(** The events of the manager: a [resize] of the window and a [click] on
    the collapse button. *)
Inductive Event :=
| Resize (innerWidth : Z)
| Click.

Definition handle (e : Event) (st : State) : State :=
  match e with
  | Resize innerWidth => handleResize innerWidth st
  | Click => if listening st then fst (toggle st) else st
  end.

Definition consistent (st : State) : Prop :=
  collapseBtn st = Some (isCollapsed st) /\ content st = Some (isCollapsed st).

End MobileUIManager.

(** *** Saving the captured image *)

(** The argument of [saveImage]: what [canvas.toBlob] hands to its
    callback, a [Blob] or, when the image cannot be created, [null]. *)
Record Blob := { blob_size : nat }.

(** What the browser answers during one [saveImage(blob)]: whether
    [navigator.share] and [navigator.canShare] exist, whether [new File]
    succeeds, what [navigator.canShare({ files })] returns ([None]: it
    throws), and whether the promise of [navigator.share] resolves. *)
Record ShareEnv := {
  share_supported : bool;
  File_constructs : bool;
  canShare_files : option bool;
  share_resolves : bool
}.

Module ImageSaver.

Import PrintManager.

(** The [try] block of [saveImage]: [true] when it ends in [return]. *)
Definition tryShare (env : ShareEnv) : M bool :=
  call "new File";;
  (if File_constructs env then ret tt else throw "File is not a constructor");;
  call "navigator.canShare";;
  match canShare_files env with
  | None => throw "canShare failed"
  | Some false => ret false
  | Some true =>
      call "navigator.share";;
      if share_resolves env then ret true else throw "share rejected"
  end.

(** [URL.createObjectURL(blob)]: a [TypeError] for [null]. *)
Definition createObjectURL (blob : option Blob) : M unit :=
  call "URL.createObjectURL";;
  match blob with
  | Some _ => ret tt
  | None => throw "TypeError: createObjectURL"
  end.

(** [saveImage(blob)]; [None] is [null].  The download is outside the
    [try]: what [createObjectURL] throws leaves [saveImage]. *)
Definition saveImage (blob : option Blob) (env : ShareEnv) : M unit :=
  shared ←
    (if share_supported env
     then try_catch (tryShare env) (fun error => ret false)
     else ret false);
  if (shared : bool) then ret tt
  else
    (createObjectURL blob;;
     call "link.click";;
     call "URL.revokeObjectURL").

End ImageSaver.

(** The number of occurrences of a call. *)
Definition callCount (name : string) (l : list string) : nat :=
  length (List.filter (String.eqb name) l).

(** *** Properties of the placed shapes *)

(** The inline transforms that a flip writes. *)
Definition flipTransforms : list string :=
  ["rotate(0deg) scale(-1, 1)"%string; "rotate(0deg) scale(1, -1)"%string;
   "rotate(0deg) scale(1, 1)"%string].

(** The inline transform of a placed shape is empty, or the rotation of
    its [dataset.rotation], or one that a flip wrote. *)
Definition transform_written (s : Shape) : Prop :=
  quarter_turn s /\
  (svg_style_transform s = ""%string \/
   svg_style_transform s = ("rotate(" ++ Z_toString (rotation_state s) ++ "deg)")%string \/
   In (svg_style_transform s) flipTransforms).

(** The state of an application that the listeners keep: the placed
    elements are distinct nodes allocated before [nextNode], at most one
    of them is selected, and the rendered supply list is the count of the
    placed shapes. *)
Definition app_inv (app : App) : Prop :=
  NoDup (List.map node (shapes (doc app))) /\
  Forall (fun s => (node s < nextNode app)%nat) (shapes (doc app)) /\
  (length (List.filter selected (shapes (doc app))) <= 1)%nat /\
  supplyList app = SupplyListManager.countShapes (shapes (doc app)).


(** The position [handleMove] stores for a move at [point] of a drag
    that started at [start] with the shape at [(x0, y0)]. *)
Definition draggedTo (container : Container) (shapeType : string) (x0 y0 : Z)
    (start point : Touch) : Z * Z :=
  (Z.max 0
     (Z.min (Utils.snapToGrid (inject_Z x0 + (clientX point - clientX start)))
        (clientWidth container - CONFIG.width (CONFIG.shapeSize shapeType))),
   Z.max 0 (Utils.snapToGrid (inject_Z y0 + (clientY point - clientY start)))).

(** Whether a capture goes through: [html2canvas] is bound when it is
    called, and its promise resolves. *)
Definition capture_ok (env : CaptureEnv) : bool :=
  (html2canvas_defined env
   || (loadScript_resolves env && script_defines_html2canvas env))
  && html2canvas_resolves env.

(** Whether [saveImage] hands the image to [navigator.share] and the
    share resolves. *)
Definition share_ok (env : ShareEnv) : bool :=
  share_supported env && File_constructs env
  && bool_decide (canShare_files env = Some true) && share_resolves env.

(** The controller of a shape while it is dragged. *)
Definition dragging (touch : bool) (start : Touch) (x0 y0 : Z) (dragged : bool)
    : Controller :=
  {| isDragging := true; hasDragged := dragged; startEvent := Some touch;
     startX := clientX start; startY := clientY start;
     initialX := x0; initialY := y0 |}.

(** Two lists of shapes with the same nodes, selections and types, in
    the same order. *)
Definition same_census (l l' : list Shape) : Prop :=
  List.map node l' = List.map node l /\
  List.map selected l' = List.map selected l /\
  List.map dataset_shapeType l' = List.map dataset_shapeType l.

(** Whether [name] is a key of the entries, and the count stored under
    it. *)
Definition isKey (keys : list string) (name : string) : bool :=
  existsb (fun key => String.eqb key name) keys.

Definition entryCount (entries : list (string * nat)) (name : string) : option nat :=
  snd <$> List.find (fun entry => String.eqb (fst entry) name) entries.

(** ** Grid snapping *)

Section SnapToGrid.

Import Utils.

Lemma snapToGrid_cell (v : Q) :
  (inject_Z (snapToGrid v) - 10 <= v /\ v < inject_Z (snapToGrid v) + 10)%Q.
Proof.
  unfold snapToGrid, Math_round, CONFIG.GRID_SIZE.
  set (k := Qfloor (v / inject_Z 20 + (1 # 2))).
  pose proof (Qfloor_le (v / inject_Z 20 + (1 # 2))) as Hlo.
  pose proof (Qlt_floor (v / inject_Z 20 + (1 # 2))) as Hhi.
  fold k in Hlo, Hhi.
  rewrite inject_Z_plus in Hhi. rewrite inject_Z_mult.
  assert (Hv : (v == (v / inject_Z 20) * inject_Z 20)%Q) by (field; discriminate).
  set (q := (v / inject_Z 20)%Q) in *.
  change (inject_Z 20) with (20 # 1)%Q in *.
  change (inject_Z 1) with (1 # 1)%Q in *.
  split; lra.
Qed.

Lemma snapToGrid_divide (v : Q) : (CONFIG.GRID_SIZE | snapToGrid v).
Proof. unfold snapToGrid. apply Z.divide_factor_r. Qed.

Lemma snapToGrid_unique (v : Q) (k : Z) :
  (inject_Z (k * 20) - 10 <= v)%Q -> (v < inject_Z (k * 20) + 10)%Q ->
  snapToGrid v = k * 20.
Proof.
  intros Hlo Hhi.
  destruct (snapToGrid_divide v) as [j Hj].
  destruct (snapToGrid_cell v) as [Hlo' Hhi'].
  unfold CONFIG.GRID_SIZE in Hj. rewrite Hj in *.
  assert (H1 : (inject_Z (j * 20) < inject_Z (k * 20) + 20)%Q) by lra.
  assert (H2 : (inject_Z (k * 20) < inject_Z (j * 20) + 20)%Q) by lra.
  change 20%Q with (inject_Z 20) in H1, H2.
  rewrite <- inject_Z_plus, <- Zlt_Qlt in H1, H2. lia.
Qed.

Lemma snapToGrid_multiple (k : Z) : snapToGrid (inject_Z (k * 20)) = k * 20.
Proof. apply snapToGrid_unique; lra. Qed.

Lemma snapToGrid_fixed (z : Z) : (20 | z) -> snapToGrid (inject_Z z) = z.
Proof. intros [k ->]. apply snapToGrid_multiple. Qed.

End SnapToGrid.

Section SnapToGridOrder.

Import Utils.

Lemma snapToGrid_mono (a b : Q) : (a <= b)%Q -> snapToGrid a <= snapToGrid b.
Proof.
  intros Hab. unfold snapToGrid, Math_round, CONFIG.GRID_SIZE.
  apply Z.mul_le_mono_nonneg_r; [lia |].
  apply Qfloor_resp_le.
  apply Qplus_le_l.
  apply Qmult_le_compat_r; [exact Hab |].
  apply Qinv_le_0_compat. discriminate.
Qed.



Lemma snapToGrid_Qabs (v : Q) : (Qabs (inject_Z (snapToGrid v) - v) <= 10)%Q.
Proof.
  destruct (snapToGrid_cell v) as [Hlo Hhi].
  apply Qabs_Qle_condition. split; lra.
Qed.

Lemma snapToGrid_closest (v : Q) (k : Z) :
  (Qabs (inject_Z (snapToGrid v) - v) <= Qabs (inject_Z (k * CONFIG.GRID_SIZE) - v))%Q.
Proof.
  destruct (snapToGrid_cell v) as [Hlo Hhi].
  destruct (snapToGrid_divide v) as [j Hj]. rewrite Hj in *.
  unfold CONFIG.GRID_SIZE in *.
  assert (Hnear : (Qabs (inject_Z (j * 20) - v) <= 10)%Q)
    by (apply Qabs_Qle_condition; split; lra).
  destruct (Z.lt_trichotomy k j) as [Hlt | [-> | Hgt]].
  - assert (Hk : (inject_Z (k * 20) + 20 <= inject_Z (j * 20))%Q).
    { change 20%Q with (inject_Z 20). rewrite <- inject_Z_plus, <- Zle_Qle. lia. }
    apply Qle_trans with 10%Q; [exact Hnear |].
    apply (Qabs_case (inject_Z (k * 20) - v) (fun r => (10 <= r)%Q)); intros; lra.
  - apply Qle_refl.
  - assert (Hk : (inject_Z (j * 20) + 20 <= inject_Z (k * 20))%Q).
    { change 20%Q with (inject_Z 20). rewrite <- inject_Z_plus, <- Zle_Qle. lia. }
    apply Qle_trans with 10%Q; [exact Hnear |].
    apply (Qabs_case (inject_Z (k * 20) - v) (fun r => (10 <= r)%Q)); intros; lra.
Qed.

End SnapToGridOrder.

(** C2.  For every (rational) input [v], [Utils.snapToGrid v] is the
    multiple of [GRID_SIZE = 20] nearest to [v]: it is divisible by 20, it
    is at distance at most 10 from [v], no multiple of 20 is closer to [v],
    and snapping a snapped value changes nothing. *)
Theorem snapToGrid_nearest_multiple (v : Q) :
  CONFIG.GRID_SIZE = 20 /\
  (CONFIG.GRID_SIZE | Utils.snapToGrid v) /\
  (Qabs (inject_Z (Utils.snapToGrid v) - v) <= 10)%Q /\
  (forall k : Z,
     (Qabs (inject_Z (Utils.snapToGrid v) - v)
      <= Qabs (inject_Z (k * CONFIG.GRID_SIZE) - v))%Q) /\
  Utils.snapToGrid (inject_Z (Utils.snapToGrid v)) = Utils.snapToGrid v.
Proof.
  split; [reflexivity |].
  split; [apply snapToGrid_divide |].
  split; [apply snapToGrid_Qabs |].
  split; [intros k; apply snapToGrid_closest |].
  apply snapToGrid_fixed, snapToGrid_divide.
Qed.

(** ** Placing and moving: bounds and grid *)

Section Position.

Lemma create_Some doc n id shapeType x y container s :
  ShapeFactory.create doc n id shapeType x y container = Some s ->
  dataset_shapeType s = shapeType /\
  node s = n /\
  sd_width (content s) = CONFIG.width (CONFIG.shapeSize shapeType) /\
  style_left s =
    Utils.snapToGrid
      (Qmax 0 (Qmin x (inject_Z (clientWidth container
                                 - CONFIG.width (CONFIG.shapeSize shapeType))))) /\
  style_top s = Utils.snapToGrid (Qmax 0 y).
Proof.
  unfold ShapeFactory.create, ShapeFactory.getDefinition.
  destruct (ShapeFactory.queryPaletteItem doc shapeType) as [item |]; [| discriminate].
  destruct (shape_svg item) as [inner |]; [| discriminate].
  intros [= <-]. simpl. repeat split; reflexivity.
Qed.



(** [handleMove] either leaves the position alone or stores the clamped
    snap of the dragged position. *)
Lemma handleMove_position container point s :
  same_position s (ShapeController.handleMove container point s) \/
  exists snappedX snappedY,
    (CONFIG.GRID_SIZE | snappedX) /\ (CONFIG.GRID_SIZE | snappedY) /\
    style_left (ShapeController.handleMove container point s) =
      Z.max 0 (Z.min snappedX (clientWidth container - shapeWidth s)) /\
    style_top (ShapeController.handleMove container point s) = Z.max 0 snappedY /\
    dataset_shapeType (ShapeController.handleMove container point s) = dataset_shapeType s.
Proof.
  unfold ShapeController.handleMove.
  destruct (controller s) as [this |]; [| left; split; reflexivity].
  destruct (isDragging this); simpl; [| left; split; reflexivity].
  match goal with |- context [if ?b then _ else _] => destruct b end;
    [| left; split; reflexivity].
  right. eexists _, _. simpl.
  split; [apply snapToGrid_divide |].
  split; [apply snapToGrid_divide |].
  repeat split; reflexivity.
Qed.

Lemma divide_max_0_min (a b : Z) :
  (CONFIG.GRID_SIZE | a) -> (CONFIG.GRID_SIZE | b) ->
  (CONFIG.GRID_SIZE | Z.max 0 (Z.min a b)).
Proof.
  intros Ha Hb.
  destruct (Z.max_spec 0 (Z.min a b)) as [[_ ->] | [_ ->]];
    [| apply Z.divide_0_r].
  destruct (Z.min_spec a b) as [[_ ->] | [_ ->]]; assumption.
Qed.

Lemma handleMove_within_bounds container point s :
  0 <= clientWidth container - shapeWidth s ->
  (CONFIG.GRID_SIZE | clientWidth container - shapeWidth s) ->
  same_position s (ShapeController.handleMove container point s) \/
  within_bounds_on_grid (clientWidth container)
    (ShapeController.handleMove container point s).
Proof.
  intros Hfit Hgrid.
  destruct (handleMove_position container point s)
    as [Hsame | (sx & sy & Hsx & Hsy & Hl & Ht & Hty)]; [left; exact Hsame |].
  right. unfold within_bounds_on_grid, shapeWidth. rewrite Hty, Hl, Ht.
  fold (shapeWidth s).
  split; [apply divide_max_0_min; assumption |].
  split; [lia |].
  split; [| lia].
  destruct (Z.max_spec 0 sy) as [[_ ->] | [_ ->]];
    [assumption | apply Z.divide_0_r].
Qed.

End Position.



(** Where the width left for the shape is not a multiple of 20, each path
    keeps the half of the property it applies last: [create] stores a grid
    position beyond the bound, [handleMove] a bounded position off the
    grid. *)
Example create_beyond_bound_unaligned_width :
  exists s,
    ShapeFactory.create (exampleDoc 350 600) 0 "shape-1" "square" 280 0 (exampleArea 350 600)
      = Some s /\
    style_left s = 280 /\ clientWidth (exampleArea 350 600) - shapeWidth s = 270.
Proof. eexists. repeat split. Qed.

Example handleMove_off_grid_unaligned_width :
  exists s s',
    ShapeFactory.create (exampleDoc 350 600) 0 "shape-1" "square" 0 0 (exampleArea 350 600)
      = Some s /\
    s' = ShapeController.handleMove (exampleArea 350 600) {| clientX := 300; clientY := 0 |}
           (ShapeController.handleMoveStart false {| clientX := 0; clientY := 0 |}
              (set_controller (Some newShapeController) s)) /\
    style_left s' = 270 /\ ~ (CONFIG.GRID_SIZE | style_left s').
Proof.
  eexists _, _. split; [reflexivity |]. split; [reflexivity |].
  split; [reflexivity |].
  intros [k Hk]. change (270 = k * 20) in Hk. lia.
Qed.

(** ** Creating a shape *)

Section CreateShape.

Lemma emit_doc event app : doc (eventBus.emit event app) = doc app.
Proof.
  unfold eventBus.emit.
  repeat match goal with |- context [if ?b then _ else _] => destruct b end;
    reflexivity.
Qed.



Lemma nodes_missing_returns_null doc shapeType :
  nodes_missing doc shapeType ->
  ShapeFactory.throws doc shapeType = false /\
  ShapeFactory.getDefinition doc shapeType = None.
Proof.
  unfold nodes_missing, ShapeFactory.throws, ShapeFactory.getDefinition,
    ShapeFactory.queryPaletteItem.
  intros [-> | (item & -> & ->)]; split; reflexivity.
Qed.






Lemma createShape_throws id shapeType x y container app :
  ShapeFactory.throws (doc app) shapeType = true ->
  DragDropManager.createShape id shapeType x y container app = app.
Proof. intros H. unfold DragDropManager.createShape. rewrite H. reflexivity. Qed.

Lemma quote_not_plain (l : list ascii) :
  existsb (Ascii.eqb ShapeFactory.quote) l = true ->
  forallb ShapeFactory.literal l = false.
Proof.
  induction l as [| c l IH]; [discriminate |].
  cbn [existsb forallb]. destruct (Ascii.eqb ShapeFactory.quote c) eqn:E.
  - apply Ascii.eqb_eq in E. subst c. intros _. reflexivity.
  - cbn [orb]. intros H. rewrite (IH H). apply andb_false_r.
Qed.

Lemma brokenByQuote_SyntaxError doc shapeType :
  ShapeFactory.brokenByQuote shapeType = true ->
  ShapeFactory.querySelector doc shapeType = SyntaxError.
Proof.
  intros H. unfold ShapeFactory.querySelector. rewrite H.
  unfold ShapeFactory.brokenByQuote in H. apply andb_true_iff in H as [H _].
  unfold ShapeFactory.plainValue. rewrite (quote_not_plain _ H). reflexivity.
Qed.

End CreateShape.

(** C5.  The claim fails for a requested shape type that has a quote in
    it (and otherwise letters, digits, spaces and hyphens), such as a text
    dragged onto the build area: the selector that [getDefinition] builds
    from it does not parse, [querySelector] throws a [SyntaxError], and
    the error leaves [ShapeFactory.create], [createShape] and
    [handleDrop] uncaught.  Nothing is written to the console, and the
    state is as before. *)
Theorem createShape_throws_on_broken_selector
    (id shapeType : string) (x y : Q) (container : Container) (point : Touch)
    (app : App)
    (Hquote : ShapeFactory.brokenByQuote shapeType = true) :
  ShapeFactory.plainValue shapeType = false /\
  ShapeFactory.querySelector (doc app) shapeType = SyntaxError /\
  ShapeFactory.throws (doc app) shapeType = true /\
  DragDropManager.createShape id shapeType x y container app = app /\
  DragDropManager.createShape id shapeType x y container app
    <> console_log "Shape creation failed" app /\
  DragDropManager.handleDrop shapeType point id app = app.
Proof.
  pose proof (brokenByQuote_SyntaxError (doc app) shapeType Hquote) as Hq.
  assert (Ht : ShapeFactory.throws (doc app) shapeType = true)
    by (unfold ShapeFactory.throws; rewrite Hq; reflexivity).
  split.
  { unfold ShapeFactory.brokenByQuote in Hquote.
    apply andb_true_iff in Hquote as [H _]. exact (quote_not_plain _ H). }
  split; [exact Hq |]. split; [exact Ht |].
  split; [apply createShape_throws, Ht |].
  split.
  - rewrite (createShape_throws _ _ _ _ _ _ Ht). intros H.
    apply (f_equal (fun a => length (console a))) in H.
    unfold console_log in H. simpl in H. rewrite length_app in H. simpl in H. lia.
  - unfold DragDropManager.handleDrop.
    destruct (buildArea (doc app)) as [area |]; [| reflexivity].
    cbv zeta. destruct (DragDropManager.dropPosition _ _ point).
    apply createShape_throws, Ht.
Qed.

Lemma createShape_throws_on_broken_selector_witness :
  List.find (fun item => bool_decide (dataset_shape item = Some quotedText))
    (palette (doc (exampleApp 400 600))) = None /\
  ShapeFactory.throws (doc (exampleApp 400 600)) quotedText = true /\
  DragDropManager.handleDrop quotedText {| clientX := 200; clientY := 300 |} "shape-1"
    (exampleApp 400 600) = exampleApp 400 600.
Proof.
  split; [reflexivity |].
  destruct (createShape_throws_on_broken_selector "shape-1" quotedText 0 0
              (exampleArea 400 600) {| clientX := 200; clientY := 300 |}
              (exampleApp 400 600) eq_refl)
    as (_ & _ & Ht & _ & _ & Hdrop).
  split; [exact Ht | exact Hdrop].
Defined.

(** X23.  When the DOM nodes that define a shape are missing (the
    selector finds no element, or an element without a [.shape-svg]
    child), nothing is thrown, [ShapeFactory.create] returns [null] and
    [DragDropManager.createShape] changes nothing but the console: the
    document (so no element is appended), the emitted events (so no
    ['shapeAdded']), the supply list, the node counter and the alerts are
    as before, and the one console line is ['Shape creation failed'].
    For a shape type that stays inside the quotes of the selector, the
    nodes are missing exactly when no element of the palette carries the
    type, or the first that does has no [.shape-svg] child. *)
Theorem createShape_nodes_missing
    (id shapeType : string) (x y : Q) (container : Container) (app : App)
    (Hmissing : nodes_missing (doc app) shapeType) :
  ShapeFactory.throws (doc app) shapeType = false /\
  ShapeFactory.getDefinition (doc app) shapeType = None /\
  ShapeFactory.create (doc app) (nextNode app) id shapeType x y container = None /\
  DragDropManager.createShape id shapeType x y container app
    = console_log "Shape creation failed" app /\
  doc (DragDropManager.createShape id shapeType x y container app) = doc app /\
  emitted (DragDropManager.createShape id shapeType x y container app) = emitted app /\
  supplyList (DragDropManager.createShape id shapeType x y container app) = supplyList app /\
  nextNode (DragDropManager.createShape id shapeType x y container app) = nextNode app /\
  alerts (DragDropManager.createShape id shapeType x y container app) = alerts app /\
  (forall doc' shapeType',
     ShapeFactory.plainValue shapeType' = true ->
     (nodes_missing doc' shapeType' <->
      match List.find (fun item => bool_decide (dataset_shape item = Some shapeType'))
              (palette doc') with
      | Some item => shape_svg item = None
      | None => True
      end)).
Proof.
  destruct (nodes_missing_returns_null _ _ Hmissing) as [Hthrows Hnone].
  assert (Hcreate :
    ShapeFactory.create (doc app) (nextNode app) id shapeType x y container = None)
    by (unfold ShapeFactory.create; rewrite Hnone; reflexivity).
  split; [exact Hthrows |]. split; [exact Hnone |]. split; [exact Hcreate |].
  unfold DragDropManager.createShape. rewrite Hthrows, Hcreate.
  repeat (split; [reflexivity |]).
  intros doc' shapeType' Hplain.
  unfold nodes_missing, ShapeFactory.querySelector. rewrite Hplain.
  destruct (List.find _ (palette doc')) as [item |]; split.
  - intros [H | (item' & [= <-] & Hsvg)]; [discriminate | exact Hsvg].
  - intros Hsvg. right. exists item. split; [reflexivity | exact Hsvg].
  - intros _. exact I.
  - intros _. left. reflexivity.
Qed.

Lemma createShape_nodes_missing_witness :
  nodes_missing (doc (exampleApp 400 600)) "cone" /\
  nodes_missing (doc (exampleApp 400 600)) "triangle" /\
  DragDropManager.createShape "shape-1" "cone" 100 100 (exampleArea 400 600) (exampleApp 400 600)
    = console_log "Shape creation failed" (exampleApp 400 600) /\
  DragDropManager.createShape "shape-1" "triangle" 100 100 (exampleArea 400 600)
      (exampleApp 400 600)
    = console_log "Shape creation failed" (exampleApp 400 600).
Proof.
  assert (Hcone : nodes_missing (doc (exampleApp 400 600)) "cone").
  { right. eexists. split; reflexivity. }
  assert (Htriangle : nodes_missing (doc (exampleApp 400 600)) "triangle").
  { left. reflexivity. }
  split; [exact Hcone |]. split; [exact Htriangle |]. split.
  - exact (proj1 (proj2 (proj2 (proj2
      (createShape_nodes_missing "shape-1" "cone" 100 100
         (exampleArea 400 600) (exampleApp 400 600) Hcone))))).
  - exact (proj1 (proj2 (proj2 (proj2
      (createShape_nodes_missing "shape-1" "triangle" 100 100
         (exampleArea 400 600) (exampleApp 400 600) Htriangle))))).
Defined.

(** ** Tap to add *)

Section Tap.








End Tap.




(** ** Touch: tap or drag *)

Section TouchGesture.

Lemma num_gt_lt (a b : Q) : num_gt a b = true <-> (b < a)%Q.
Proof.
  unfold num_gt. rewrite negb_true_iff. split.
  - intros H. apply Qnot_le_lt. intros Hle.
    apply Qle_bool_iff in Hle. congruence.
  - intros H. destruct (Qle_bool a b) eqn:E; [| reflexivity].
    apply Qle_bool_iff in E. exfalso. exact (Qlt_not_le _ _ H E).
Qed.


Lemma touchMoves_fields (item : PaletteItem) (start : Touch) (moves : list Touch)
    (st : DragDropManager.State) :
  DragDropManager.touchDraggedElement st = Some item ->
  DragDropManager.touchStartPos st = Some (clientX start, clientY start) ->
  let st' := foldl (fun st touch => DragDropManager.handleTouchMove touch st) st moves in
  DragDropManager.touchDraggedElement st' = Some item /\
  DragDropManager.touchStartPos st' = Some (clientX start, clientY start) /\
  DragDropManager.isDragging st' =
    DragDropManager.isDragging st
    || existsb (DragDropManager.beyondThreshold (clientX start, clientY start)) moves.
Proof.
  revert st. induction moves as [| touch moves IH]; intros st Hel Hpos; simpl.
  - rewrite orb_false_r. auto.
  - destruct (IH (DragDropManager.handleTouchMove touch st)) as (IH1 & IH2 & IH3).
    + unfold DragDropManager.handleTouchMove. rewrite Hel, Hpos.
      destruct (DragDropManager.beyondThreshold _ touch); simpl; congruence.
    + unfold DragDropManager.handleTouchMove. rewrite Hel, Hpos.
      destruct (DragDropManager.beyondThreshold _ touch); simpl; congruence.
    + split; [exact IH1 |]. split; [exact IH2 |].
      rewrite IH3. unfold DragDropManager.handleTouchMove. rewrite Hel, Hpos.
      destruct (DragDropManager.beyondThreshold _ touch); simpl.
      * rewrite orb_true_r. reflexivity.
      * reflexivity.
Qed.

Lemma touchGesture_fields st0 item start moves :
  DragDropManager.touchDraggedElement (touchGesture st0 item start moves) = Some item /\
  DragDropManager.isDragging (touchGesture st0 item start moves) =
    existsb (DragDropManager.beyondThreshold (clientX start, clientY start)) moves.
Proof.
  destruct (touchMoves_fields item start moves
              (DragDropManager.handleTouchStart item start st0))
    as (H1 & _ & H3); [reflexivity | reflexivity |].
  split; [exact H1 | exact H3].
Qed.


End TouchGesture.




(** ** The supply list *)

Section SupplyList.

Import SupplyListManager.

Lemma countShape_lookup (counts : gmap string nat) (s : Shape) (name : string) :
  countShape counts s !! name =
    if hasDisplayName name s then Some (default 0%nat (counts !! name) + 1)%nat
    else counts !! name.
Proof.
  unfold countShape, hasDisplayName.
  destruct (String.eqb_spec (displayName (dataset_shapeType s)) name) as [-> | Hne].
  - apply lookup_insert_eq.
  - apply lookup_insert_ne. exact Hne.
Qed.

Lemma countIf_cons (p : Shape -> bool) (s : Shape) (l : list Shape) :
  countIf p (s :: l) = ((if p s then 1 else 0) + countIf p l)%nat.
Proof. unfold countIf. simpl. destruct (p s); reflexivity. Qed.

Lemma countShapes_from (l : list Shape) (counts : gmap string nat) (name : string) :
  foldl countShape counts l !! name =
    if Nat.eqb (countIf (hasDisplayName name) l) 0 then counts !! name
    else Some (default 0%nat (counts !! name) + countIf (hasDisplayName name) l)%nat.
Proof.
  revert counts. induction l as [| s l IH]; intros counts; [reflexivity |].
  simpl foldl. rewrite IH, countShape_lookup, countIf_cons.
  destruct (hasDisplayName name s), (countIf (hasDisplayName name) l) as [| c];
    simpl; try reflexivity; f_equal; lia.
Qed.

Lemma countShapes_lookup (l : list Shape) (name : string) :
  countShapes l !! name =
    if Nat.eqb (countIf (hasDisplayName name) l) 0 then None
    else Some (countIf (hasDisplayName name) l).
Proof. unfold countShapes. rewrite countShapes_from, lookup_empty. reflexivity. Qed.

Lemma SHAPE_NAMES_not_Unknown shapeType name :
  SHAPE_NAMES shapeType = Some name -> name <> "Unknown"%string.
Proof.
  unfold SHAPE_NAMES.
  repeat match goal with |- context [if ?b then _ else _] => destruct b end;
    intros [= <-]; discriminate.
Qed.

(** An inherited value prints as ['[object Object]'] or as a function. *)
Lemma Object_prototype_value key value :
  Object_prototype key = Some value ->
  value = "[object Object]"%string \/
  exists rest, value = ("function " ++ rest)%string.
Proof.
  unfold Object_prototype.
  repeat match goal with |- context [if ?b then _ else _] => destruct b end;
    intros [= <-]; [left; reflexivity | right; eexists; reflexivity ..].
Qed.

Lemma Object_prototype_not_Unknown key value :
  Object_prototype key = Some value -> value <> "Unknown"%string.
Proof.
  intros H. apply Object_prototype_value in H as [-> | [rest ->]]; discriminate.
Qed.

(** No key of [SHAPE_NAMES] is a property name of [Object.prototype]. *)
Lemma inheritedKey_unnamed shapeType :
  inheritedKey shapeType = true -> SHAPE_NAMES shapeType = None.
Proof.
  intros H. unfold SHAPE_NAMES.
  repeat match goal with
         | |- context [String.eqb ?a ?b] => destruct (String.eqb_spec a b) as [-> | _]
         end;
    try reflexivity; vm_compute in H; discriminate.
Qed.

Lemma hasDisplayName_split name s :
  hasDisplayName name s =
    named name s || (String.eqb name "Unknown" && unknown s) || inheritedNamed name s.
Proof.
  unfold hasDisplayName, named, unknown, inheritedNamed, unnamed, displayName,
    inheritedKey.
  destruct (SHAPE_NAMES (dataset_shapeType s)) as [n |] eqn:E.
  - rewrite (bool_decide_eq_false_2 (Some n = None)) by discriminate.
    cbn [andb]. rewrite andb_false_r, !orb_false_r.
    destruct (String.eqb_spec n name) as [-> | Hne].
    + rewrite bool_decide_eq_true_2; reflexivity.
    + rewrite bool_decide_eq_false_2; [reflexivity | congruence].
  - rewrite (bool_decide_eq_false_2 (None = Some name)) by discriminate.
    rewrite (bool_decide_eq_true_2 (None = None)) by reflexivity.
    cbn [andb orb].
    destruct (Object_prototype (dataset_shapeType s)) as [value |] eqn:Ep.
    + change (default "Unknown"%string (Some value)) with value.
      cbn [negb]. rewrite andb_false_r. cbn [orb].
      destruct (String.eqb_spec value name) as [-> | Hne].
      * rewrite bool_decide_eq_true_2; reflexivity.
      * rewrite bool_decide_eq_false_2; [reflexivity | congruence].
    + change (default "Unknown"%string None) with "Unknown"%string.
      cbn [negb]. rewrite andb_true_r.
      rewrite (bool_decide_eq_false_2 (None = Some name)) by discriminate.
      rewrite orb_false_r. apply String.eqb_sym.
Qed.

Lemma countIf_ext (p q : Shape -> bool) l :
  (forall s, p s = q s) -> countIf p l = countIf q l.
Proof.
  intros H. unfold countIf. induction l as [| s l IH]; [reflexivity |].
  simpl. rewrite H. destruct (q s); simpl; congruence.
Qed.

Lemma countIf_disjoint (p q : Shape -> bool) l :
  (forall s, p s && q s = false) ->
  countIf (fun s => p s || q s) l = (countIf p l + countIf q l)%nat.
Proof.
  intros H. unfold countIf. induction l as [| s l IH]; [reflexivity |].
  simpl. specialize (H s).
  destruct (p s), (q s); simpl in *; try discriminate; lia.
Qed.

Lemma countIf_false l : countIf (fun _ => false) l = 0%nat.
Proof. unfold countIf. induction l; simpl; auto. Qed.

Lemma countIf_lt (p q : Shape -> bool) (s : Shape) l :
  (forall s', p s' = true -> q s' = true) ->
  In s l -> p s = false -> q s = true ->
  (countIf p l < countIf q l)%nat.
Proof.
  intros Hpq Hin Hp Hq.
  assert (Hle : forall l', (countIf p l' <= countIf q l')%nat).
  { induction l' as [| s' l' IH]; [apply Nat.le_refl |].
    rewrite !countIf_cons. specialize (Hpq s').
    destruct (p s'), (q s'); first [lia | discriminate (Hpq eq_refl)]. }
  induction l as [| s' l IH]; [destruct Hin |].
  rewrite !countIf_cons. destruct Hin as [-> | Hin].
  - rewrite Hp, Hq. specialize (Hle l). lia.
  - specialize (IH Hin). specialize (Hpq s').
    destruct (p s'), (q s'); first [lia | discriminate (Hpq eq_refl)].
Qed.

Lemma unnamed_named name s : named name s && unnamed s = false.
Proof.
  unfold named, unnamed.
  destruct (SHAPE_NAMES (dataset_shapeType s)).
  - rewrite (bool_decide_eq_false_2 (Some _ = None)) by discriminate.
    apply andb_false_r.
  - rewrite (bool_decide_eq_false_2 (None = Some name)) by discriminate.
    reflexivity.
Qed.

Lemma count_displayName (l : list Shape) (name : string) :
  countIf (hasDisplayName name) l =
    (countIf (named name) l
     + (if String.eqb name "Unknown" then countIf unknown l else 0)
     + countIf (inheritedNamed name) l)%nat.
Proof.
  rewrite (countIf_ext _ _ l (hasDisplayName_split name)).
  rewrite (countIf_disjoint (fun s => named name s || (String.eqb name "Unknown" && unknown s))).
  - f_equal. rewrite countIf_disjoint.
    + f_equal. destruct (String.eqb name "Unknown"); simpl; [reflexivity |].
      apply countIf_false.
    + intros s. pose proof (unnamed_named name s) as H. unfold unknown.
      destruct (named name s), (unnamed s); try discriminate;
        cbn [andb]; rewrite ?andb_false_r; reflexivity.
  - intros s. pose proof (unnamed_named name s) as H.
    unfold unknown, inheritedNamed, inheritedKey.
    destruct (named name s), (unnamed s); try discriminate; cbn [andb orb];
      rewrite ?andb_false_r; try reflexivity.
    destruct (Object_prototype (dataset_shapeType s)) as [value |] eqn:Ep.
    + cbn [negb]. rewrite andb_false_r. reflexivity.
    + rewrite (bool_decide_eq_false_2 (None = Some name)) by discriminate.
      apply andb_false_r.
Qed.

Lemma named_Barrel s :
  named "Barrel" s = hasType "barrel-cylinder" s || hasType "barrel-circle" s.
Proof.
  unfold named, hasType, SHAPE_NAMES.
  repeat match goal with |- context [String.eqb ?a ?b] =>
           destruct (String.eqb_spec a b) end;
    simpl; try reflexivity; try congruence.
Qed.

Lemma count_Unknown (l : list Shape) :
  default 0%nat (countShapes l !! "Unknown"%string) = countIf unknown l.
Proof.
  rewrite countShapes_lookup, count_displayName.
  change (String.eqb "Unknown" "Unknown") with true.
  rewrite (countIf_ext (named "Unknown") (fun _ => false) l), countIf_false.
  - rewrite (countIf_ext (inheritedNamed "Unknown") (fun _ => false) l), countIf_false.
    + rewrite Nat.add_0_r. cbn [Nat.add].
      destruct (countIf unknown l); reflexivity.
    + intros s. unfold inheritedNamed.
      rewrite (bool_decide_eq_false_2 (_ = Some "Unknown"%string)); [apply andb_false_r |].
      intros H. exact (Object_prototype_not_Unknown _ _ H eq_refl).
  - intros s. unfold named. apply bool_decide_eq_false_2.
    intros H. exact (SHAPE_NAMES_not_Unknown _ _ H eq_refl).
Qed.

End SupplyList.

(** C9.  The claim fails for a shape whose type is a property name that
    [SHAPE_NAMES] inherits from [Object.prototype], such as ['toString']:
    the type is not in [SHAPE_NAMES], yet the lookup
    [SHAPE_NAMES[shapeType]] finds the inherited value, which is truthy,
    so the shape is counted under the string of that value and not under
    ['Unknown'].  The count for ['Unknown'] is then less than the number
    of shapes whose type is not in [SHAPE_NAMES]. *)
Theorem countShapes_misses_inherited_names (l : list Shape) (s : Shape)
    (Hin : In s l) (Hkey : inheritedKey (dataset_shapeType s) = true) :
  SHAPE_NAMES (dataset_shapeType s) = None /\
  SupplyListManager.displayName (dataset_shapeType s) <> "Unknown"%string /\
  is_Some (SupplyListManager.countShapes l
             !! SupplyListManager.displayName (dataset_shapeType s)) /\
  (default 0%nat (SupplyListManager.countShapes l !! "Unknown"%string)
   < countIf unnamed l)%nat.
Proof.
  pose proof (inheritedKey_unnamed _ Hkey) as Hnone.
  split; [exact Hnone |]. split; [| split].
  - unfold SupplyListManager.displayName. rewrite Hnone.
    unfold inheritedKey in Hkey.
    destruct (Object_prototype (dataset_shapeType s)) as [value |] eqn:E;
      [| discriminate].
    exact (Object_prototype_not_Unknown _ _ E).
  - rewrite countShapes_lookup.
    assert (Hpos : (0 < countIf (hasDisplayName
                                   (SupplyListManager.displayName (dataset_shapeType s)))
                          l)%nat).
    { apply (Nat.le_lt_trans _ (countIf (fun _ => false) l)).
      - rewrite countIf_false. apply Nat.le_refl.
      - apply (countIf_lt _ _ s); [discriminate | exact Hin | reflexivity |].
        unfold hasDisplayName. apply String.eqb_refl. }
    destruct (countIf _ l); [lia | eexists; reflexivity].
  - rewrite count_Unknown.
    apply (countIf_lt _ _ s); [| exact Hin | |].
    + intros s'. unfold unknown. intros H. apply andb_true_iff in H as [H _]. exact H.
    + unfold unknown. rewrite Hkey. apply andb_false_r.
    + unfold unnamed. apply bool_decide_eq_true_2. exact Hnone.
Qed.

Lemma countShapes_misses_inherited_names_witness :
  (default 0%nat (SupplyListManager.countShapes [shapeOfType "toString"]
                    !! "Unknown"%string)
   < countIf unnamed [shapeOfType "toString"])%nat /\
  SupplyListManager.countShapes [shapeOfType "toString"] !! "Unknown"%string = None /\
  countIf unnamed [shapeOfType "toString"] = 1%nat /\
  SupplyListManager.countShapes [shapeOfType "toString"]
    !! "function toString() { [native code] }"%string = Some 1%nat.
Proof.
  split.
  - apply (countShapes_misses_inherited_names
             [shapeOfType "toString"] (shapeOfType "toString"));
      [left; reflexivity | reflexivity].
  - repeat split; vm_compute; reflexivity.
Defined.

(** X24.  For every list of placed shapes and every name, the count
    that [countShapes] returns for the name is the number of shapes whose
    type [SHAPE_NAMES] maps to that name, plus, for the name ['Unknown'],
    the number of shapes whose type is neither in [SHAPE_NAMES] nor a
    property name of [Object.prototype], plus the number of shapes whose
    type is such a property name with a value that prints as the name (a
    name with count 0 has no entry).  The count for ['Barrel'] is the
    number of ['barrel-cylinder'] shapes plus the number of
    ['barrel-circle'] shapes.  When no shape has a type that is a
    property name of [Object.prototype], the count for ['Unknown'] is the
    number of shapes whose type is not in [SHAPE_NAMES]. *)
Theorem countShapes_by_display_name (l : list Shape) (name : string) :
  let n := (countIf (named name) l
            + (if String.eqb name "Unknown" then countIf unknown l else 0)
            + countIf (inheritedNamed name) l)%nat in
  SupplyListManager.countShapes l !! name = (if Nat.eqb n 0 then None else Some n) /\
  default 0%nat (SupplyListManager.countShapes l !! name) = n /\
  default 0%nat (SupplyListManager.countShapes l !! "Barrel"%string)
    = (countIf (hasType "barrel-cylinder") l + countIf (hasType "barrel-circle") l)%nat /\
  default 0%nat (SupplyListManager.countShapes l !! "Unknown"%string) = countIf unknown l /\
  (Forall (fun s => inheritedKey (dataset_shapeType s) = false) l ->
   default 0%nat (SupplyListManager.countShapes l !! "Unknown"%string) = countIf unnamed l /\
   default 0%nat (SupplyListManager.countShapes l !! name)
     = (countIf (named name) l
        + (if String.eqb name "Unknown" then countIf unnamed l else 0))%nat).
Proof.
  intros n.
  assert (Hlookup : forall name',
    default 0%nat (SupplyListManager.countShapes l !! name')
    = (countIf (named name') l
       + (if String.eqb name' "Unknown" then countIf unknown l else 0)
       + countIf (inheritedNamed name') l)%nat).
  { intros name'. rewrite countShapes_lookup, count_displayName.
    match goal with |- context [Nat.eqb ?c 0] => destruct c eqn:E end; reflexivity. }
  split; [rewrite countShapes_lookup, count_displayName; reflexivity |].
  split; [apply Hlookup |]. split; [| split; [apply count_Unknown |]].
  - rewrite Hlookup. change (String.eqb "Barrel" "Unknown") with false.
    rewrite (countIf_ext (inheritedNamed "Barrel") (fun _ => false) l), countIf_false.
    + rewrite !Nat.add_0_r.
      rewrite (countIf_ext _ _ l named_Barrel).
      apply countIf_disjoint.
      intros s. unfold hasType.
      destruct (String.eqb_spec (dataset_shapeType s) "barrel-cylinder") as [-> |];
        reflexivity.
    + intros s. unfold inheritedNamed.
      rewrite (bool_decide_eq_false_2 (_ = Some "Barrel"%string)); [apply andb_false_r |].
      intros H. apply Object_prototype_value in H as [H | [rest H]]; discriminate.
  - intros Hplain.
    assert (Hunknown : countIf unknown l = countIf unnamed l).
    { clear Hlookup n. induction Hplain as [| s l Hs _ IH]; [reflexivity |].
      rewrite !countIf_cons, IH. unfold unknown. rewrite Hs, andb_true_r. reflexivity. }
    assert (Hnone : countIf (inheritedNamed name) l = 0%nat).
    { clear Hlookup n Hunknown. induction Hplain as [| s l Hs _ IH]; [reflexivity |].
      rewrite countIf_cons, IH. unfold inheritedNamed, inheritedKey in *.
      destruct (Object_prototype (dataset_shapeType s)); [discriminate |].
      rewrite (bool_decide_eq_false_2 (None = Some name)) by discriminate.
      rewrite andb_false_r. reflexivity. }
    split; [rewrite count_Unknown; exact Hunknown |].
    rewrite Hlookup, Hnone, Hunknown. apply Nat.add_0_r.
Qed.

(** ** Print: a failed capture *)

Section Capture.

Import PrintManager.


End Capture.



(** ** Rotate and flip *)

Section Transform.

Lemma strip_prefix_Some (p s rest : string) :
  strip_prefix p s = Some rest -> s = (p ++ rest)%string.
Proof.
  revert s. induction p as [| a p IH]; intros s; simpl.
  - intros [= ->]. reflexivity.
  - destruct s as [| b s]; [discriminate |].
    destruct (Ascii.eqb_spec a b) as [-> | _]; [| discriminate].
    intros H. rewrite (IH _ H). reflexivity.
Qed.

Lemma has_backslash_app (a b : string) :
  has_backslash (a ++ b) = has_backslash a || has_backslash b.
Proof.
  induction a as [| c a IH]; simpl; [reflexivity |].
  rewrite IH. apply orb_assoc.
Qed.

Lemma matchHere_backslash (name s g : string) :
  RegExp.matchHere name s = Some g -> has_backslash s = true.
Proof.
  unfold RegExp.matchHere.
  destruct (strip_prefix (name ++ String backslash EmptyString) s) as [rest |] eqn:E;
    [| discriminate].
  intros _. apply strip_prefix_Some in E. rewrite E, !has_backslash_app. simpl.
  rewrite orb_true_r. reflexivity.
Qed.

(** On a string without a backslash neither regular expression of [flip]
    matches. *)
Lemma match_no_backslash (name s : string) :
  has_backslash s = false -> RegExp.match_ name s = None.
Proof.
  induction s as [| c s IH]; intros H.
  - simpl. destruct (RegExp.matchHere name "") eqn:E; [| reflexivity].
    apply matchHere_backslash in E. discriminate.
  - simpl RegExp.match_.
    destruct (RegExp.matchHere name (String c s)) eqn:E.
    + apply matchHere_backslash in E. congruence.
    + apply IH. simpl in H. apply orb_false_iff in H. apply H.
Qed.

Lemma flipTransform_no_backslash (js : Builtins) (direction t : string) :
  has_backslash t = false ->
  flipTransform js direction t =
    if String.eqb direction "horizontal"
    then ((-1)%Q, 1%Q, "rotate(0deg) scale(-1, 1)"%string)
    else if String.eqb direction "vertical"
    then (1%Q, (-1)%Q, "rotate(0deg) scale(1, -1)"%string)
    else (1%Q, 1%Q, "rotate(0deg) scale(1, 1)"%string).
Proof.
  intros H. unfold flipTransform. rewrite !match_no_backslash by exact H.
  destruct (String.eqb direction "horizontal"); [reflexivity |].
  destruct (String.eqb direction "vertical"); reflexivity.
Qed.

Lemma rotate_state (s : Shape) :
  rotation_state (ShapeController.rotate s) = Z.rem (rotation_state s + 90) 360 /\
  svg_style_transform (ShapeController.rotate s) =
    ("rotate(" ++ Z_toString (Z.rem (rotation_state s + 90) 360) ++ "deg)")%string.
Proof. split; reflexivity. Qed.

Lemma rotate_same (s : Shape) :
  ContextMenuManager.getShapeController.rotate s = ShapeController.rotate s.
Proof. reflexivity. Qed.

Lemma rotate_inv (s : Shape) : shape_inv s -> shape_inv (ShapeController.rotate s).
Proof.
  intros [Hq _]. unfold shape_inv, quarter_turn.
  destruct (rotate_state s) as [-> ->].
  unfold quarter_turn in Hq. simpl in Hq.
  destruct Hq as [<- | [<- | [<- | [<- | []]]]]; split; simpl; auto.
Qed.

Lemma flip_inv (js : Builtins) (direction : string) (s : Shape) :
  shape_inv s -> shape_inv (ContextMenuManager.getShapeController.flip js direction s).
Proof.
  intros [Hq Hb]. unfold ContextMenuManager.getShapeController.flip.
  rewrite (flipTransform_no_backslash js direction _ Hb).
  split; [destruct (String.eqb direction "horizontal");
          [| destruct (String.eqb direction "vertical")]; exact Hq |].
  destruct (String.eqb direction "horizontal");
    [| destruct (String.eqb direction "vertical")]; reflexivity.
Qed.

Lemma controller_flip_inv (js : Builtins) (direction : string) (s : Shape) :
  shape_inv s -> shape_inv (ShapeController.flip js direction s).
Proof.
  intros [Hq Hb]. unfold ShapeController.flip.
  rewrite (flipTransform_no_backslash js direction _ Hb).
  destruct (String.eqb direction "horizontal");
    [| destruct (String.eqb direction "vertical")]; split; solve [exact Hq | reflexivity].
Qed.

End Transform.

(** ** Invariants of the placed shapes *)

Ltac keeps_tac :=
  intros ?;
  unfold ShapeController.handleMoveStart, ShapeController.handleMove;
  repeat match goal with
         | |- context [match ?x with _ => _ end] => destruct x
         end;
  split; reflexivity.

Section StepInvariant.

Variable P : Shape -> Prop.
Variable js : Builtins.

Hypothesis P_frame :
  forall s s',
    dataset_rotation s' = dataset_rotation s ->
    svg_style_transform s' = svg_style_transform s ->
    P s -> P s'.
Hypothesis P_new :
  forall s, dataset_rotation s = None -> svg_style_transform s = ""%string -> P s.
Hypothesis P_rotate : forall s, P s -> P (ShapeController.rotate s).
Hypothesis P_flip :
  forall direction s,
    P s -> P (ContextMenuManager.getShapeController.flip js direction s).

Lemma keeps_P (f : Shape -> Shape) :
  keeps_rotation_and_transform f -> forall s, P s -> P (f s).
Proof. intros Hf s Hs. destruct (Hf s) as [Hr Ht]. exact (P_frame _ _ Hr Ht Hs). Qed.

Lemma update_node_Forall (n : nat) (f : Shape -> Shape) (l : list Shape) :
  (forall s, P s -> P (f s)) -> Forall P l -> Forall P (update_node n f l).
Proof.
  intros Hf Hl. unfold update_node. induction Hl as [| s l Hs Hl IH]; simpl.
  - constructor.
  - constructor; [| exact IH]. destruct (Nat.eqb (node s) n); auto.
Qed.

Lemma map_Forall (f : Shape -> Shape) (l : list Shape) :
  (forall s, P s -> P (f s)) -> Forall P l -> Forall P (List.map f l).
Proof.
  intros Hf Hl. induction Hl as [| s l Hs Hl IH]; simpl; constructor; auto.
Qed.

Lemma remove_node_Forall (n : nat) (l : list Shape) :
  Forall P l -> Forall P (remove_node n l).
Proof.
  intros Hl. unfold remove_node. induction Hl as [| s l Hs Hl IH]; simpl.
  - constructor.
  - destruct (negb (Nat.eqb (node s) n)); [constructor |]; assumption.
Qed.

Lemma createShape_Forall id shapeType x y container app :
  Forall P (shapes (doc app)) ->
  Forall P (shapes (doc (DragDropManager.createShape id shapeType x y container app))).
Proof.
  intros Hl. unfold DragDropManager.createShape.
  destruct (ShapeFactory.throws (doc app) shapeType); [exact Hl |].
  destruct (ShapeFactory.create (doc app) (nextNode app) id shapeType x y container)
    as [s |] eqn:E; [| exact Hl].
  rewrite emit_doc. simpl. apply Forall_app. split; [exact Hl |].
  constructor; [| constructor].
  unfold ShapeFactory.create in E.
  destruct (ShapeFactory.getDefinition (doc app) shapeType); [| discriminate].
  injection E as <-. apply P_new; reflexivity.
Qed.

Lemma handleTapToAdd_Forall item sumX sumY id app :
  Forall P (shapes (doc app)) ->
  Forall P (shapes (doc (DragDropManager.handleTapToAdd item sumX sumY id app))).
Proof.
  intros Hl. unfold DragDropManager.handleTapToAdd.
  destruct (buildArea (doc app)); [| exact Hl].
  destruct (falsy (dataset_shape item)); [exact Hl |].
  destruct (DragDropManager.tapPosition sumX sumY).
  apply createShape_Forall, Hl.
Qed.

Lemma handleTouchEnd_Forall touch sumX sumY id st app :
  Forall P (shapes (doc app)) ->
  Forall P (shapes (doc (snd (DragDropManager.handleTouchEnd touch sumX sumY id st app)))).
Proof.
  intros Hl. unfold DragDropManager.handleTouchEnd.
  destruct (DragDropManager.touchDraggedElement st) as [element |]; [| exact Hl].
  destruct (DragDropManager.isDragging st).
  - destruct (buildArea (doc app)) as [area |]; [| exact Hl].
    destruct (DragDropManager.isOverBuildArea touch (boundingClientRect area));
      [| exact Hl].
    destruct (DragDropManager.dropPosition _ _ touch).
    destruct (ShapeFactory.throws _ _); [exact Hl |].
    apply createShape_Forall, Hl.
  - destruct (DragDropManager.tapThrows element app); [exact Hl |].
    apply (handleTapToAdd_Forall element sumX sumY id app Hl).
Qed.

Lemma handleDrop_Forall data point id app :
  Forall P (shapes (doc app)) ->
  Forall P (shapes (doc (DragDropManager.handleDrop data point id app))).
Proof.
  intros Hl. unfold DragDropManager.handleDrop.
  destruct (buildArea (doc app)); [| exact Hl].
  destruct (DragDropManager.dropPosition _ _ point).
  apply createShape_Forall, Hl.
Qed.

Lemma handleMoveEnd_Forall n l :
  Forall P l -> Forall P (ShapeController.handleMoveEnd n l).
Proof.
  intros Hl. unfold ShapeController.handleMoveEnd.
  destruct (List.find _ l) as [s |]; [| exact Hl].
  destruct (controller s) as [this |]; [| exact Hl].
  destruct (isDragging this); [| exact Hl].
  apply update_node_Forall; [apply keeps_P; keeps_tac |].
  match goal with |- context [if ?b then _ else _] => destruct b end.
  - unfold ShapeController.handleClick.
    apply update_node_Forall; [apply keeps_P; keeps_tac |].
    apply map_Forall; [apply keeps_P; keeps_tac |].
    apply update_node_Forall; [apply keeps_P; keeps_tac | exact Hl].
  - apply update_node_Forall; [apply keeps_P; keeps_tac | exact Hl].
Qed.

Lemma handleAction_Forall button app :
  Forall P (shapes (doc app)) ->
  Forall P (shapes (doc (ContextMenuManager.handleAction js button app))).
Proof.
  intros Hl. unfold ContextMenuManager.handleAction.
  destruct button as [action |]; [| exact Hl].
  destruct (currentShape app) as [n |]; [| exact Hl].
  change (doc (ContextMenuManager.hide ?x)) with (doc x).
  destruct (String.eqb action "rotate").
  { simpl. apply update_node_Forall; [apply P_rotate | exact Hl]. }
  destruct (String.eqb action "flip-horizontal").
  { simpl. apply update_node_Forall; [apply P_flip | exact Hl]. }
  destruct (String.eqb action "flip-vertical").
  { simpl. apply update_node_Forall; [apply P_flip | exact Hl]. }
  destruct (String.eqb action "delete"); [| exact Hl].
  unfold ContextMenuManager.getShapeController.destroy. rewrite emit_doc.
  simpl. apply remove_node_Forall, Hl.
Qed.

Lemma clearAllShapes_shapes app :
  shapes (doc (KeyboardManager.clearAllShapes app)) = shapes (doc app) \/
  shapes (doc (KeyboardManager.clearAllShapes app)) = [].
Proof.
  unfold KeyboardManager.clearAllShapes.
  destruct (buildArea (doc app)); [right; rewrite emit_doc; reflexivity | left; reflexivity].
Qed.

Lemma deleteSelectedShape_shapes app :
  exists n,
    shapes (doc (KeyboardManager.deleteSelectedShape app)) = shapes (doc app) \/
    shapes (doc (KeyboardManager.deleteSelectedShape app))
      = remove_node n (shapes (doc app)).
Proof.
  unfold KeyboardManager.deleteSelectedShape.
  destruct (List.find selected (shapes (doc app))) as [s |].
  - exists (node s). right. rewrite emit_doc. reflexivity.
  - exists 0%nat. left. reflexivity.
Qed.

Lemma handleKeydown_Forall key app :
  Forall P (shapes (doc app)) ->
  Forall P (shapes (doc (KeyboardManager.handleKeydown key app))).
Proof.
  intros Hl. unfold KeyboardManager.handleKeydown.
  assert (Hclear : Forall P (shapes (doc (KeyboardManager.clearAllShapes app))))
    by (destruct (clearAllShapes_shapes app) as [-> | ->]; [exact Hl | constructor]).
  assert (Hdelete : Forall P (shapes (doc (KeyboardManager.deleteSelectedShape app))))
    by (destruct (deleteSelectedShape_shapes app) as [n [-> | ->]];
        [exact Hl | apply remove_node_Forall, Hl]).
  repeat match goal with |- context [if ?b then _ else _] => destruct b end;
    assumption.
Qed.

Lemma handlePrint_doc innerWidth env w :
  doc (PrintManager.app (snd (PrintManager.handlePrint innerWidth env w)))
    = doc (PrintManager.app w).
Proof.
  destruct w as [a cs]. destruct env as [[] [] [] []];
    unfold PrintManager.handlePrint; destruct (Utils.isMobile innerWidth);
    reflexivity.
Qed.

(** Every action keeps [P] on every placed shape. *)
Lemma step_Forall (a : Action) (p : Page) :
  Forall P (placed p) -> Forall P (placed (step js a p)).
Proof.
  intros Hl. unfold placed in *. destruct a; simpl.
  - apply handleTapToAdd_Forall, Hl.
  - exact Hl.
  - exact Hl.
  - pose proof (handleTouchEnd_Forall touch sumX sumY id (dragDrop p) (application p) Hl) as H.
    destruct (DragDropManager.handleTouchEnd touch sumX sumY id (dragDrop p) (application p)).
    exact H.
  - apply handleDrop_Forall, Hl.
  - apply update_node_Forall; [apply keeps_P; keeps_tac | exact Hl].
  - destruct (buildArea (doc (application p))); [| exact Hl].
    simpl. apply update_node_Forall; [apply keeps_P; keeps_tac | exact Hl].
  - apply handleMoveEnd_Forall, Hl.
  - apply update_node_Forall; [| exact Hl].
    intros s Hs. destruct (controller s); [apply P_rotate |]; exact Hs.
  - exact Hl.
  - apply handleAction_Forall, Hl.
  - apply handleKeydown_Forall, Hl.
  - destruct (clearAllShapes_shapes (application p)) as [-> | ->];
      [exact Hl | constructor].
  - rewrite handlePrint_doc. exact Hl.
  - exact Hl.
  - exact Hl.
Qed.

Lemma run_Forall (actions : list Action) (p : Page) :
  Forall P (placed p) -> Forall P (placed (run js actions p)).
Proof.
  revert p. induction actions as [| a actions IH]; intros p Hl; [exact Hl |].
  simpl. apply IH, step_Forall, Hl.
Qed.

End StepInvariant.

(** ** Reachable pages *)

Lemma reachable_shape_inv (js : Builtins) (items : list PaletteItem)
    (area : option Container) (actions : list Action) :
  Forall shape_inv (placed (run js actions (loaded items area))).
Proof.
  apply run_Forall.
  - intros s s' Hr Ht [Hq Hb]. unfold shape_inv, quarter_turn, rotation_state in *.
    rewrite Hr, Ht. split; assumption.
  - intros s Hr Ht. unfold shape_inv, quarter_turn, rotation_state.
    rewrite Hr, Ht. split; [left |]; reflexivity.
  - apply rotate_inv.
  - intros direction s. apply flip_inv.
  - constructor.
Qed.

Lemma rotate_four_times (s : Shape) :
  quarter_turn s ->
  rotation_state (four_times ShapeController.rotate s) = rotation_state s /\
  svg_style_transform (four_times ShapeController.rotate s)
    = ("rotate(" ++ Z_toString (rotation_state s) ++ "deg)")%string.
Proof.
  intros Hq. unfold four_times.
  destruct (rotate_state (ShapeController.rotate
                            (ShapeController.rotate (ShapeController.rotate s))))
    as [-> ->].
  destruct (rotate_state (ShapeController.rotate (ShapeController.rotate s)))
    as [-> _].
  destruct (rotate_state (ShapeController.rotate s)) as [-> _].
  destruct (rotate_state s) as [-> _].
  unfold quarter_turn in Hq. simpl in Hq.
  destruct Hq as [<- | [<- | [<- | [<- | []]]]]; split; reflexivity.
Qed.

(** C7.  Every shape placed on a page reached from the loaded page has a
    rotation state ([dataset.rotation], 0 when unset) in
    [{0, 90, 180, 270}]; a rotate operation (either copy of [rotate]) maps
    the rotation state [r] to [(r + 90) mod 360], again in that set, and
    writes it to the transform; and four consecutive rotate operations
    restore the rotation state. *)
Theorem rotation_is_quarter_turn
    (js : Builtins) (items : list PaletteItem) (area : option Container)
    (actions : list Action) (s : Shape)
    (Hplaced : In s (placed (run js actions (loaded items area)))) :
  quarter_turn s /\
  ContextMenuManager.getShapeController.rotate s = ShapeController.rotate s /\
  rotation_state (ShapeController.rotate s) = (rotation_state s + 90) mod 360 /\
  quarter_turn (ShapeController.rotate s) /\
  svg_style_transform (ShapeController.rotate s)
    = ("rotate(" ++ Z_toString ((rotation_state s + 90) mod 360) ++ "deg)")%string /\
  rotation_state (four_times ShapeController.rotate s) = rotation_state s.
Proof.
  pose proof (reachable_shape_inv js items area actions) as Hall.
  rewrite List.Forall_forall in Hall. specialize (Hall s Hplaced).
  destruct Hall as [Hq Hb].
  assert (Hrem : Z.rem (rotation_state s + 90) 360 = (rotation_state s + 90) mod 360).
  { apply Z.rem_mod_nonneg; [| lia].
    unfold quarter_turn in Hq. simpl in Hq. lia. }
  split; [exact Hq |].
  split; [reflexivity |].
  destruct (rotate_state s) as [Hr Ht]. rewrite Hrem in Hr, Ht.
  split; [exact Hr |].
  split; [exact (proj1 (rotate_inv s (conj Hq Hb))) |].
  split; [exact Ht |].
  exact (proj1 (rotate_four_times s Hq)).
Qed.

Lemma rotation_is_quarter_turn_witness :
  Forall (fun s => rotation_state s = 90 /\
                   rotation_state (four_times ShapeController.rotate s) = 90)
    (placed (exampleRotated noBuiltins)).
Proof.
  pose proof (fun s H =>
    rotation_is_quarter_turn noBuiltins examplePalette (Some (exampleArea 400 600))
      [exampleDrop; ShapeContextMenu 0] s H) as T.
  change (run noBuiltins [exampleDrop; ShapeContextMenu 0]
            (loaded examplePalette (Some (exampleArea 400 600))))
    with (exampleRotated noBuiltins) in T.
  destruct (placed (exampleRotated noBuiltins)) as [| s [| s' l]] eqn:E;
    try (vm_compute in E; discriminate).
  specialize (T s (or_introl eq_refl)).
  destruct T as (_ & _ & _ & _ & _ & Hfour).
  assert (Hs : rotation_state s = 90) by (vm_compute in E; injection E as <-; reflexivity).
  constructor; [| constructor].
  split; [exact Hs | rewrite Hfour; exact Hs].
Defined.

(** Both regular expressions of [flip] are written with doubled
    backslashes, so they ask for a backslash after [rotate]
    and [scale] and never match a transform this page wrote; [flip]
    therefore starts from rotation ['0deg'] and scale [(1, 1)] every time.
    On every reachable shape a horizontal flip writes
    ['rotate(0deg) scale(-1, 1)'] and a vertical flip
    ['rotate(0deg) scale(1, -1)'], whatever the transform was. *)
Lemma flip_transform_reachable
    (js : Builtins) (items : list PaletteItem) (area : option Container)
    (actions : list Action) (s : Shape) :
  In s (placed (run js actions (loaded items area))) ->
  svg_style_transform (ContextMenuManager.getShapeController.flip js "horizontal" s)
    = "rotate(0deg) scale(-1, 1)"%string /\
  svg_style_transform (ContextMenuManager.getShapeController.flip js "vertical" s)
    = "rotate(0deg) scale(1, -1)"%string /\
  svg_style_transform (ShapeController.flip js "horizontal" s)
    = "rotate(0deg) scale(-1, 1)"%string /\
  svg_style_transform (ShapeController.flip js "vertical" s)
    = "rotate(0deg) scale(1, -1)"%string.
Proof.
  intros Hplaced.
  pose proof (reachable_shape_inv js items area actions) as Hall.
  rewrite List.Forall_forall in Hall. destruct (Hall s Hplaced) as [_ Hb].
  unfold ContextMenuManager.getShapeController.flip, ShapeController.flip.
  rewrite !(flipTransform_no_backslash js _ _ Hb).
  repeat split.
Qed.

(** C8, the code at the failing input.  A square is placed and rotated
    once, so its transform is ['rotate(90deg)'].  A horizontal flip from
    the context menu leaves ['rotate(0deg) scale(-1, 1)']: the rotation
    component is lost while [dataset.rotation] still says 90.  After a
    vertical flip the scale is [(1, -1)]; two horizontal flips then leave
    [(-1, 1)], not the scale before the first of them. *)
Theorem flip_forgets_rotation_and_scale (js : Builtins) :
  let flipH := [ShowContextMenu 0; MenuClick (Some "flip-horizontal"%string)] in
  let flipV := [ShowContextMenu 0; MenuClick (Some "flip-vertical"%string)] in
  List.map svg_style_transform (placed (exampleRotated js))
    = ["rotate(90deg)"%string] /\
  List.map svg_style_transform (placed (run js flipH (exampleRotated js)))
    = ["rotate(0deg) scale(-1, 1)"%string] /\
  List.map dataset_rotation (placed (run js flipH (exampleRotated js)))
    = [Some 90] /\
  List.map svg_style_transform (placed (run js flipV (exampleRotated js)))
    = ["rotate(0deg) scale(1, -1)"%string] /\
  List.map svg_style_transform
    (placed (run js (flipH ++ flipH) (run js flipV (exampleRotated js))))
    = ["rotate(0deg) scale(-1, 1)"%string] /\
  List.map (fun s => svg_style_transform
                       (ShapeController.flip js "horizontal"
                          (ShapeController.flip js "horizontal" s)))
    (placed (run js flipV (exampleRotated js)))
    = ["rotate(0deg) scale(-1, 1)"%string].
Proof.
  repeat split.
Qed.

(** ** Frame and lifecycle *)

Section Frame.

Variable js : Builtins.

Lemma rotate_frame (s : Shape) : same_but_rotation_flip s (ShapeController.rotate s).
Proof. repeat split. Qed.

Lemma flip_frame (direction : string) (s : Shape) :
  same_but_rotation_flip s (ContextMenuManager.getShapeController.flip js direction s).
Proof.
  unfold ContextMenuManager.getShapeController.flip.
  destruct (flipTransform js direction (svg_style_transform s)) as [[sx sy] t].
  repeat split.
Qed.

Lemma controller_flip_frame (direction : string) (s : Shape) :
  same_but_rotation_flip s (ShapeController.flip js direction s).
Proof.
  unfold ShapeController.flip.
  destruct (flipTransform js direction (svg_style_transform s)) as [[sx sy] t].
  destruct (String.eqb direction "horizontal");
    [| destruct (String.eqb direction "vertical")]; repeat split.
Qed.

Lemma same_but_rotation_flip_refl (s : Shape) : same_but_rotation_flip s s.
Proof. repeat split. Qed.

(** [update_node] rewrites the addressed element and nothing else. *)
Lemma update_node_Forall2 (n : nat) (f : Shape -> Shape) (l : list Shape) :
  (forall s, same_but_rotation_flip s (f s)) ->
  Forall2 (fun s s' => same_but_rotation_flip s s' /\ (Some n <> Some (node s) -> s' = s))
    l (update_node n f l).
Proof.
  intros Hf. unfold update_node. induction l as [| s l IH]; simpl; constructor.
  - destruct (Nat.eqb_spec (node s) n) as [E | E].
    + split; [apply Hf | intros H; congruence].
    + split; [apply same_but_rotation_flip_refl | reflexivity].
  - exact IH.
Qed.

Lemma Forall2_same (R : Shape -> Shape -> Prop) (l : list Shape) :
  (forall s, R s s) -> Forall2 R l l.
Proof. intros H. induction l; constructor; auto. Qed.

Lemma rotate_flip_step_frame (a : Action) (p : Page) :
  is_rotate_or_flip a = true ->
  Forall2
    (fun s s' => same_but_rotation_flip s s' /\ (target a p <> Some (node s) -> s' = s))
    (placed p) (placed (step js a p)).
Proof.
  unfold placed. destruct a; try discriminate; simpl.
  - intros _. apply update_node_Forall2.
    intros s. destruct (controller s);
      [apply rotate_frame | apply same_but_rotation_flip_refl].
  - destruct button as [action |]; [| discriminate]. intros Ha.
    unfold ContextMenuManager.handleAction.
    destruct (currentShape (application p)) as [n |];
      [| apply Forall2_same; intros s; split;
         [apply same_but_rotation_flip_refl | reflexivity]].
    change (doc (ContextMenuManager.hide ?x)) with (doc x).
    destruct (String.eqb action "rotate").
    { simpl. apply update_node_Forall2, rotate_frame. }
    destruct (String.eqb action "flip-horizontal").
    { simpl. apply update_node_Forall2, flip_frame. }
    destruct (String.eqb action "flip-vertical").
    { simpl. apply update_node_Forall2, flip_frame. }
    discriminate.
Qed.

End Frame.

Section Lifecycle.

Variable js : Builtins.

Ltac keeps_node_tac :=
  intros ?;
  unfold ShapeController.handleMoveStart, ShapeController.handleMove,
    ContextMenuManager.getShapeController.flip;
  repeat match goal with
         | |- context [match ?x with _ => _ end] => destruct x
         end;
  reflexivity.

Lemma update_node_nodes (n : nat) (f : Shape -> Shape) (l : list Shape) :
  keeps_node f -> List.map node (update_node n f l) = List.map node l.
Proof.
  intros Hf. unfold update_node. induction l as [| s l IH]; simpl; [reflexivity |].
  rewrite IH. destruct (Nat.eqb (node s) n); [rewrite Hf |]; reflexivity.
Qed.

Lemma map_nodes (f : Shape -> Shape) (l : list Shape) :
  keeps_node f -> List.map node (List.map f l) = List.map node l.
Proof.
  intros Hf. induction l as [| s l IH]; simpl; [reflexivity |].
  rewrite IH, Hf. reflexivity.
Qed.

Lemma remove_node_sublist (n : nat) (l : list Shape) :
  sublist (List.map node (remove_node n l)) (List.map node l).
Proof.
  unfold remove_node. induction l as [| s l IH]; simpl; [constructor |].
  destruct (negb (Nat.eqb (node s) n)); simpl; constructor; exact IH.
Qed.

Lemma handleMoveEnd_nodes (n : nat) (l : list Shape) :
  List.map node (ShapeController.handleMoveEnd n l) = List.map node l.
Proof.
  unfold ShapeController.handleMoveEnd.
  destruct (List.find _ l) as [s |]; [| reflexivity].
  destruct (controller s) as [this |]; [| reflexivity].
  destruct (isDragging this); [| reflexivity].
  rewrite update_node_nodes by keeps_node_tac.
  match goal with |- context [if ?b then _ else _] => destruct b end.
  - unfold ShapeController.handleClick.
    rewrite update_node_nodes by keeps_node_tac.
    rewrite map_nodes by keeps_node_tac.
    apply update_node_nodes. keeps_node_tac.
  - apply update_node_nodes. keeps_node_tac.
Qed.

Lemma createShape_nodes id shapeType x y container app :
  exists added,
    List.map node (shapes (doc (DragDropManager.createShape id shapeType x y container app)))
      = List.map node (shapes (doc app)) ++ added.
Proof.
  unfold DragDropManager.createShape.
  destruct (ShapeFactory.throws (doc app) shapeType);
    [exists []; rewrite app_nil_r; reflexivity |].
  destruct (ShapeFactory.create (doc app) (nextNode app) id shapeType x y container)
    as [s |].
  - rewrite emit_doc. simpl. rewrite map_app. eexists. reflexivity.
  - exists []. rewrite app_nil_r. reflexivity.
Qed.

Lemma handleTapToAdd_nodes item sumX sumY id app :
  exists added,
    List.map node (shapes (doc (DragDropManager.handleTapToAdd item sumX sumY id app)))
      = List.map node (shapes (doc app)) ++ added.
Proof.
  unfold DragDropManager.handleTapToAdd.
  destruct (buildArea (doc app)); [| exists []; rewrite app_nil_r; reflexivity].
  destruct (falsy (dataset_shape item)); [exists []; rewrite app_nil_r; reflexivity |].
  destruct (DragDropManager.tapPosition sumX sumY).
  apply createShape_nodes.
Qed.

Lemma handleTouchEnd_nodes touch sumX sumY id st app :
  exists added,
    List.map node
      (shapes (doc (snd (DragDropManager.handleTouchEnd touch sumX sumY id st app))))
      = List.map node (shapes (doc app)) ++ added.
Proof.
  unfold DragDropManager.handleTouchEnd.
  destruct (DragDropManager.touchDraggedElement st) as [element |];
    [| exists []; rewrite app_nil_r; reflexivity].
  destruct (DragDropManager.isDragging st).
  - destruct (buildArea (doc app)) as [area |];
      [| exists []; rewrite app_nil_r; reflexivity].
    destruct (DragDropManager.isOverBuildArea touch (boundingClientRect area));
      [| exists []; rewrite app_nil_r; reflexivity].
    destruct (DragDropManager.dropPosition _ _ touch).
    destruct (ShapeFactory.throws _ _); [exists []; rewrite app_nil_r; reflexivity |].
    apply createShape_nodes.
  - destruct (DragDropManager.tapThrows element app);
      [exists []; rewrite app_nil_r; reflexivity |].
    apply (handleTapToAdd_nodes element sumX sumY id app).
Qed.

Lemma handleDrop_nodes data point id app :
  exists added,
    List.map node (shapes (doc (DragDropManager.handleDrop data point id app)))
      = List.map node (shapes (doc app)) ++ added.
Proof.
  unfold DragDropManager.handleDrop.
  destruct (buildArea (doc app)); [| exists []; rewrite app_nil_r; reflexivity].
  destruct (DragDropManager.dropPosition _ _ point).
  apply createShape_nodes.
Qed.

Lemma handleAction_nodes button app :
  List.map node (shapes (doc (ContextMenuManager.handleAction js button app)))
    = List.map node (shapes (doc app)) \/
  (exists action, button = Some action /\ String.eqb action "delete" = true) /\
  sublist (List.map node (shapes (doc (ContextMenuManager.handleAction js button app))))
    (List.map node (shapes (doc app))).
Proof.
  unfold ContextMenuManager.handleAction.
  destruct button as [action |]; [| left; reflexivity].
  destruct (currentShape app) as [n |]; [| left; reflexivity].
  change (doc (ContextMenuManager.hide ?x)) with (doc x).
  destruct (String.eqb action "rotate").
  { left. simpl. apply update_node_nodes. keeps_node_tac. }
  destruct (String.eqb action "flip-horizontal").
  { left. simpl. apply update_node_nodes. keeps_node_tac. }
  destruct (String.eqb action "flip-vertical").
  { left. simpl. apply update_node_nodes. keeps_node_tac. }
  destruct (String.eqb action "delete") eqn:E; [| left; reflexivity].
  right. split; [exists action; split; [reflexivity | exact E] |].
  unfold ContextMenuManager.getShapeController.destroy. rewrite emit_doc.
  simpl. apply remove_node_sublist.
Qed.

Lemma clearAllShapes_sublist app :
  sublist (List.map node (shapes (doc (KeyboardManager.clearAllShapes app))))
    (List.map node (shapes (doc app))).
Proof.
  destruct (clearAllShapes_shapes app) as [-> | ->]; [reflexivity |].
  apply sublist_nil_l.
Qed.

Lemma deleteSelectedShape_sublist app :
  sublist (List.map node (shapes (doc (KeyboardManager.deleteSelectedShape app))))
    (List.map node (shapes (doc app))).
Proof.
  destruct (deleteSelectedShape_shapes app) as [n [-> | ->]]; [reflexivity |].
  apply remove_node_sublist.
Qed.

(** What one action does to the list of placed nodes: nothing, or it adds
    at the end and is a place action, or it removes and is a delete or a
    clear-all. *)
Lemma step_nodes (a : Action) (p : Page) :
  nodes (step js a p) = nodes p \/
  (is_place a = true /\ exists added, nodes (step js a p) = nodes p ++ added) \/
  (is_delete_or_clear a = true /\ sublist (nodes (step js a p)) (nodes p)).
Proof.
  unfold nodes. destruct a; simpl.
  - right. left. split; [reflexivity | apply handleTapToAdd_nodes].
  - left. reflexivity.
  - left. reflexivity.
  - right. left. split; [reflexivity |].
    pose proof (handleTouchEnd_nodes touch sumX sumY id (dragDrop p) (application p)) as H.
    destruct (DragDropManager.handleTouchEnd touch sumX sumY id (dragDrop p) (application p)).
    exact H.
  - right. left. split; [reflexivity | apply handleDrop_nodes].
  - left. apply update_node_nodes. keeps_node_tac.
  - left. destruct (buildArea (doc (application p))); [| reflexivity].
    simpl. apply update_node_nodes. keeps_node_tac.
  - left. apply handleMoveEnd_nodes.
  - left. apply update_node_nodes. keeps_node_tac.
  - left. reflexivity.
  - destruct (handleAction_nodes button (application p))
      as [H | [(action & -> & E) H]]; [left; exact H |].
    right. right. split; [exact E | exact H].
  - unfold KeyboardManager.handleKeydown.
    destruct (String.eqb key "Escape").
    { right. right. split; [reflexivity | apply clearAllShapes_sublist]. }
    destruct (String.eqb key "Delete").
    { right. right. split; [reflexivity | apply deleteSelectedShape_sublist]. }
    destruct (String.eqb key "Backspace").
    { right. right. split; [reflexivity | apply deleteSelectedShape_sublist]. }
    left. reflexivity.
  - right. right. split; [reflexivity | apply clearAllShapes_sublist].
  - left. rewrite handlePrint_doc. reflexivity.
  - left. reflexivity.
  - left. reflexivity.
Qed.

End Lifecycle.

Lemma Forall2_nodes (R : Shape -> Shape -> Prop) (l l' : list Shape) :
  (forall s s', R s s' -> node s' = node s) ->
  Forall2 R l l' -> List.map node l' = List.map node l.
Proof.
  intros HR H. induction H as [| s s' l l' Hs _ IH]; simpl; [reflexivity |].
  rewrite IH, (HR _ _ Hs). reflexivity.
Qed.

(** C6.  A rotate or flip action (the [contextmenu] listener of a shape,
    or the rotate, flip-horizontal and flip-vertical entries of the
    context menu) leaves the list of placed shapes as it is, element for
    element: every shape keeps its node, id, type, position ([left],
    [top]), cursor, z-index, selection, content and controller, so only
    the rotation and flip attributes and the inline style of the [svg]
    child can change, and every shape other than the addressed one is
    unchanged altogether.  Both copies of [rotate] and of [flip] change
    nothing else on the shape they are applied to.  Over all actions, one
    that is not a place action adds no shape, and one that is not a
    delete or a clear-all removes none. *)
Theorem rotate_flip_change_only_target (js : Builtins) (a : Action) (p : Page)
    (Hrf : is_rotate_or_flip a = true) :
  nodes (step js a p) = nodes p /\
  Forall2
    (fun s s' => same_but_rotation_flip s s' /\ (target a p <> Some (node s) -> s' = s))
    (placed p) (placed (step js a p)) /\
  (forall direction s,
     same_but_rotation_flip s (ShapeController.rotate s) /\
     same_but_rotation_flip s (ContextMenuManager.getShapeController.rotate s) /\
     same_but_rotation_flip s (ShapeController.flip js direction s) /\
     same_but_rotation_flip s (ContextMenuManager.getShapeController.flip js direction s)) /\
  (forall b q,
     (is_place b = false -> sublist (nodes (step js b q)) (nodes q)) /\
     (is_delete_or_clear b = false ->
      exists added, nodes (step js b q) = nodes q ++ added)).
Proof.
  pose proof (rotate_flip_step_frame js a p Hrf) as Hframe.
  split.
  - unfold nodes. apply (Forall2_nodes _ _ _ (fun s s' H => proj1 (proj1 H)) Hframe).
  - split; [exact Hframe |]. split.
    + intros direction s.
      split; [apply rotate_frame |]. split; [apply rotate_frame |].
      split; [apply controller_flip_frame | apply flip_frame].
    + intros b q.
      destruct (step_nodes js b q) as [H | [[Hb [added H]] | [Hb H]]]; rewrite ?H.
      * split; intros _; [reflexivity | exists []; rewrite app_nil_r; reflexivity].
      * split; [congruence | intros _; exists added; reflexivity].
      * split; [intros _; exact H | congruence].
Qed.

Lemma rotate_flip_change_only_target_witness :
  nodes (step noBuiltins (ShapeContextMenu 0) (exampleRotated noBuiltins))
    = nodes (exampleRotated noBuiltins).
Proof.
  exact (proj1 (rotate_flip_change_only_target noBuiltins (ShapeContextMenu 0)
                  (exampleRotated noBuiltins) eq_refl)).
Defined.


(** * Further properties of the code *)

(** ** Grid snapping: cells and order *)

(** X1.  [Utils.snapToGrid v] is [20 * k] exactly when [v] lies in the
    half-open cell [[20 k - 10, 20 k + 10)]: a value half-way between two
    grid lines snaps to the upper one, also below zero. *)
Theorem snapToGrid_cell_iff (v : Q) (k : Z) :
  Utils.snapToGrid v = k * 20 <->
  (inject_Z (k * 20) - 10 <= v /\ v < inject_Z (k * 20) + 10)%Q.
Proof.
  split.
  - intros H. rewrite <- H. apply snapToGrid_cell.
  - intros [Hlo Hhi]. apply snapToGrid_unique; assumption.
Qed.

(** X2.  Snapping commutes with a shift by whole grid steps and keeps
    the order of coordinates. *)
Theorem snapToGrid_shift_order (a b : Q) (k : Z) (Hab : (a <= b)%Q) :
  Utils.snapToGrid a <= Utils.snapToGrid b /\
  Utils.snapToGrid (a + inject_Z (k * 20)) = Utils.snapToGrid a + k * 20.
Proof.
  split; [apply snapToGrid_mono, Hab |].
  destruct (snapToGrid_divide a) as [j Hj]. unfold CONFIG.GRID_SIZE in Hj.
  destruct (snapToGrid_cell a) as [Hlo Hhi]. rewrite Hj in *.
  replace (j * 20 + k * 20) with ((j + k) * 20) by ring.
  apply snapToGrid_unique.
  - replace ((j + k) * 20) with (j * 20 + k * 20) by ring.
    rewrite inject_Z_plus. lra.
  - replace ((j + k) * 20) with (j * 20 + k * 20) by ring.
    rewrite inject_Z_plus. lra.
Qed.

Lemma snapToGrid_shift_order_witness :
  Utils.snapToGrid 10 <= Utils.snapToGrid 29 /\
  Utils.snapToGrid (10 + inject_Z (-3 * 20)) = Utils.snapToGrid 10 + -3 * 20.
Proof.
  apply (snapToGrid_shift_order 10 29 (-3)). vm_compute. discriminate.
Defined.

(** ** [ShapeFactory.create]: where the shape ends up *)





(** ** The [EventEmitter] class *)

Section Emitter.

Import EventEmitter.

Lemma emit_insert (event event' : string) (callbacks : list nat)
    (events : gmap string (list nat)) :
  emit event' (<[event := callbacks]> events) =
    if String.eqb event' event then Some callbacks else emit event' events.
Proof.
  unfold emit.
  destruct (String.eqb_spec event' event) as [-> | Hne].
  - rewrite lookup_insert_eq. reflexivity.
  - rewrite lookup_insert_ne by congruence. reflexivity.
Qed.

Lemma on_emit (event : string) (callback : nat) (events : gmap string (list nat)) :
  inheritedKey event = false ->
  exists before,
    emit event events = Some before /\
    on event callback events = Some (<[event := before ++ [callback]]> events).
Proof.
  intros Hevent. unfold emit, on.
  destruct (events !! event) as [callbacks |].
  - exists callbacks. split; reflexivity.
  - rewrite Hevent. exists []. split; reflexivity.
Qed.

Lemma off_emit (event event' : string) (callback : nat)
    (events : gmap string (list nat)) :
  inheritedKey event = false ->
  exists events1,
    off event callback events = Some events1 /\
    emit event' events1 =
      (fun called =>
         if String.eqb event' event
         then List.filter (fun cb => negb (Nat.eqb cb callback)) called
         else called) <$> emit event' events.
Proof.
  intros Hevent. unfold off.
  destruct (events !! event) as [callbacks |] eqn:E.
  - eexists. split; [reflexivity |]. rewrite emit_insert.
    destruct (String.eqb_spec event' event) as [-> | Hne].
    + unfold emit. rewrite E. reflexivity.
    + destruct (emit event' events); reflexivity.
  - rewrite Hevent. eexists. split; [reflexivity |].
    destruct (String.eqb_spec event' event) as [-> | Hne].
    + unfold emit. rewrite E, Hevent. reflexivity.
    + destruct (emit event' events); reflexivity.
Qed.

Lemma filter_not_in (callback : nat) (l : list nat) :
  ~ In callback l ->
  List.filter (fun cb => negb (Nat.eqb cb callback)) l = l.
Proof.
  induction l as [| c l IH]; intros Hnot; [reflexivity |].
  simpl. destruct (Nat.eqb_spec c callback) as [-> | Hne].
  - exfalso. apply Hnot. left. reflexivity.
  - simpl. rewrite IH; [reflexivity |]. intros H. apply Hnot. right. exact H.
Qed.

Lemma inherited_TypeError (name : string) (callback : nat)
    (events : gmap string (list nat)) :
  inheritedKey name = true -> events !! name = None ->
  on name callback events = None /\ emit name events = None /\
  off name callback events = None.
Proof.
  intros Hname Hown. unfold on, emit, off. rewrite Hown, Hname. auto.
Qed.

End Emitter.

(** X5.  For an event name that is not a property name of
    [Object.prototype], [on] registers at the end: after
    [on(event, callback)] an [emit] of that event calls the listeners it
    called before, in the same order, and then [callback]; a callback
    registered twice is called twice; the listeners of every other event
    are as before.  For a property name of [Object.prototype] that no own
    property hides, such as ['toString'], each of [on], [emit] and [off]
    throws a [TypeError]. *)
Theorem EventEmitter_on_appends
    (event event' : string) (callback : nat) (events : gmap string (list nat))
    (Hevent : inheritedKey event = false) :
  (exists events1 events2 before,
     EventEmitter.on event callback events = Some events1 /\
     EventEmitter.on event callback events1 = Some events2 /\
     EventEmitter.emit event events = Some before /\
     EventEmitter.emit event events1 = Some (before ++ [callback]) /\
     EventEmitter.emit event events2 = Some (before ++ [callback; callback]) /\
     EventEmitter.emit event' events1 =
       (fun called => called ++ (if String.eqb event' event then [callback] else []))
         <$> EventEmitter.emit event' events) /\
  EventEmitter.emit event' ∅ = (if inheritedKey event' then None else Some []) /\
  (forall name,
     inheritedKey name = true -> events !! name = None ->
     EventEmitter.on name callback events = None /\
     EventEmitter.emit name events = None /\
     EventEmitter.off name callback events = None).
Proof.
  split; [| split; [reflexivity | intros name; apply inherited_TypeError]].
  destruct (on_emit event callback events Hevent) as (before & Hbefore & Hon).
  destruct (on_emit event callback (<[event := before ++ [callback]]> events) Hevent)
    as (before' & Hbefore' & Hon').
  rewrite emit_insert, String.eqb_refl in Hbefore'. injection Hbefore' as <-.
  eexists _, _, before.
  split; [exact Hon |]. split; [exact Hon' |]. split; [exact Hbefore |].
  split; [rewrite emit_insert, String.eqb_refl; reflexivity |].
  split; [rewrite emit_insert, String.eqb_refl, <- app_assoc; reflexivity |].
  rewrite emit_insert.
  destruct (String.eqb_spec event' event) as [-> | Hne].
  - rewrite Hbefore. reflexivity.
  - destruct (EventEmitter.emit event' events); simpl; [rewrite app_nil_r |]; reflexivity.
Qed.

Lemma EventEmitter_on_appends_witness :
  exists events1,
    EventEmitter.on "shapeAdded" 7 ∅ = Some events1 /\
    EventEmitter.emit "shapeAdded" events1 = Some [7%nat] /\
    EventEmitter.on "toString" 7 ∅ = None.
Proof.
  destruct (EventEmitter_on_appends "shapeAdded" "shapeRemoved" 7 ∅ eq_refl)
    as ((events1 & _ & before & Hon & _ & Hbefore & Hemit & _) & _ & Herr).
  injection Hbefore as <-.
  exists events1. split; [exact Hon |]. split; [exact Hemit |].
  apply (Herr "toString"%string); reflexivity.
Defined.

(** X6.  For an event name that is not a property name of
    [Object.prototype], [off(event, callback)] removes every registration
    of [callback] for that event and nothing else: an [emit] afterwards
    calls the other listeners in their order and never [callback], the
    listeners of other events are untouched, and removing a listener that
    was just added to an event it was not registered for restores what
    [emit] calls. *)
Theorem EventEmitter_off_removes
    (event event' : string) (callback : nat) (events : gmap string (list nat))
    (Hevent : inheritedKey event = false) :
  (exists events1,
     EventEmitter.off event callback events = Some events1 /\
     EventEmitter.emit event' events1 =
       (fun called =>
          if String.eqb event' event
          then List.filter (fun cb => negb (Nat.eqb cb callback)) called
          else called) <$> EventEmitter.emit event' events /\
     exists called,
       EventEmitter.emit event events1 = Some called /\ ~ In callback called) /\
  (exists added removed before,
     EventEmitter.on event callback events = Some added /\
     EventEmitter.off event callback added = Some removed /\
     EventEmitter.emit event events = Some before /\
     (In callback before \/
      EventEmitter.emit event' removed = EventEmitter.emit event' events)).
Proof.
  split.
  - destruct (off_emit event event' callback events Hevent) as (events1 & Hoff & Hemit).
    exists events1. split; [exact Hoff |]. split; [exact Hemit |].
    destruct (off_emit event event callback events Hevent) as (events1' & Hoff' & Hemit').
    rewrite Hoff in Hoff'. injection Hoff' as <-.
    rewrite String.eqb_refl in Hemit'.
    destruct (on_emit event callback events Hevent) as (before & Hbefore & _).
    rewrite Hbefore in Hemit'. eexists. split; [exact Hemit' |].
    intros H. apply filter_In in H as [_ H]. rewrite Nat.eqb_refl in H. discriminate.
  - destruct (on_emit event callback events Hevent) as (before & Hbefore & Hon).
    destruct (off_emit event event' callback (<[event := before ++ [callback]]> events)
                Hevent) as (removed & Hoff & Hemit).
    exists (<[event := before ++ [callback]]> events), removed, before.
    split; [exact Hon |]. split; [exact Hoff |]. split; [exact Hbefore |].
    destruct (in_dec Nat.eq_dec callback before) as [Hin | Hnot]; [left; exact Hin | right].
    rewrite Hemit, emit_insert.
    destruct (String.eqb_spec event' event) as [-> | Hne].
    + rewrite Hbefore. cbn [fmap option_fmap option_map]. f_equal.
      rewrite List.filter_app. simpl. rewrite Nat.eqb_refl. simpl.
      rewrite app_nil_r. apply filter_not_in, Hnot.
    + destruct (EventEmitter.emit event' events); reflexivity.
Qed.

Lemma EventEmitter_off_removes_witness :
  exists events1,
    EventEmitter.off "shapeAdded" 7 (<["shapeAdded"%string := [7; 8; 7]%nat]> ∅)
      = Some events1 /\
    EventEmitter.emit "shapeAdded" events1 = Some [8%nat].
Proof.
  destruct (EventEmitter_off_removes "shapeAdded" "shapeAdded" 7
              (<["shapeAdded"%string := [7; 8; 7]%nat]> ∅) eq_refl)
    as ((events1 & Hoff & Hemit & _) & _).
  exists events1. split; [exact Hoff | exact Hemit].
Defined.

(** ** The context menu stays on screen *)

(** X7.  When the menu is laid out at the requested point, the position
    that [ContextMenuManager.show] stores keeps the menu's right and
    bottom edges inside the viewport, with a margin of 10 where it had
    to move; a menu that fits is left where it was requested. *)
Theorem adjustForScreenBounds_inside
    (x y : Q) (rect : Rect) (viewportWidth viewportHeight : Q)
    (Hleft : (rect_left rect == x)%Q) (Htop : (rect_top rect == y)%Q) :
  let newX := fst (adjustForScreenBounds x y rect viewportWidth viewportHeight) in
  let newY := snd (adjustForScreenBounds x y rect viewportWidth viewportHeight) in
  (newX + rect_width rect <= viewportWidth)%Q /\
  (newY + rect_height rect <= viewportHeight)%Q /\
  ((x + rect_width rect <= viewportWidth)%Q -> newX = x) /\
  ((y + rect_height rect <= viewportHeight)%Q -> newY = y) /\
  ((viewportWidth < x + rect_width rect)%Q ->
   (newX + rect_width rect == viewportWidth - 10)%Q) /\
  ((viewportHeight < y + rect_height rect)%Q ->
   (newY + rect_height rect == viewportHeight - 10)%Q).
Proof.
  unfold adjustForScreenBounds, rect_right, rect_bottom. cbn [fst snd].
  destruct (num_gt (rect_left rect + rect_width rect) viewportWidth) eqn:Ex;
  destruct (num_gt (rect_top rect + rect_height rect) viewportHeight) eqn:Ey;
    try (apply num_gt_lt in Ex); try (apply num_gt_lt in Ey);
    try (assert (Ex' : (rect_left rect + rect_width rect <= viewportWidth)%Q)
           by (apply Qnot_lt_le; intros H; apply num_gt_lt in H; congruence));
    try (assert (Ey' : (rect_top rect + rect_height rect <= viewportHeight)%Q)
           by (apply Qnot_lt_le; intros H; apply num_gt_lt in H; congruence));
    repeat split; intros; try reflexivity; try lra.
Qed.

Lemma adjustForScreenBounds_inside_witness :
  (fst (adjustForScreenBounds 300 100
          {| rect_left := 300; rect_top := 100; rect_width := 150; rect_height := 180 |}
          375 667)
   + 150 <= 375)%Q.
Proof.
  exact (proj1 (adjustForScreenBounds_inside 300 100
                  {| rect_left := 300; rect_top := 100;
                     rect_width := 150; rect_height := 180 |}
                  375 667 (Qeq_refl _) (Qeq_refl _))).
Defined.

(** ** Print: the capture that goes through, and saving the image *)

(** X8.  [captureAsImage] never throws.  It shows the fallback alert
    and writes the console line exactly when the capture fails, and it
    reaches [canvas.toBlob], once, exactly when the capture goes
    through; [html2canvas] is called at most once either way. *)
Theorem captureAsImage_alert_iff_failure (env : CaptureEnv) (w : PrintManager.World) :
  let result := PrintManager.captureAsImage env w in
  (capture_ok env = false <-> capture_fails env) /\
  fst result = PrintManager.Normal tt /\
  alerts (PrintManager.app (snd result))
    = alerts (PrintManager.app w)
      ++ (if capture_ok env then [] else [PrintManager.fallbackMessage]) /\
  console (PrintManager.app (snd result))
    = console (PrintManager.app w)
      ++ (if capture_ok env then [] else ["Error capturing card:"%string]) /\
  exists made,
    PrintManager.calls (snd result) = PrintManager.calls w ++ made /\
    callCount "canvas.toBlob" made = (if capture_ok env then 1 else 0)%nat /\
    (callCount "html2canvas" made <= 1)%nat /\
    (callCount "Utils.loadScript" made
     = if html2canvas_defined env then 0 else 1)%nat.
Proof.
  destruct w as [a cs]. destruct env as [defined loads defines resolves].
  split.
  - unfold capture_ok, capture_fails. simpl.
    destruct defined, loads, defines, resolves; simpl; split; intros H;
      try reflexivity; try discriminate; auto;
      destruct H as [[? ?] | [[? ?] | ?]]; discriminate.
  - destruct defined, loads, defines, resolves;
      cbv [PrintManager.captureAsImage PrintManager.try_catch PrintManager.html2canvas
           PrintManager.loadScript PrintManager.showFallbackInstructions
           mbind PrintManager.M_bind PrintManager.bind PrintManager.call
           PrintManager.ret PrintManager.throw PrintManager.on_app negb
           html2canvas_defined loadScript_resolves script_defines_html2canvas
           html2canvas_resolves PrintManager.app PrintManager.calls capture_ok
           andb orb fst snd];
      rewrite <- ?app_assoc, ?app_nil_r;
      (split; [reflexivity |]); (split; [reflexivity |]); (split; [reflexivity |]);
      eexists; (split; [reflexivity |]); repeat split;
      first [reflexivity | vm_compute; lia].
Qed.

(** X9.  [saveImage] delivers the image at most once.  With a [Blob] it
    never throws and delivers exactly once: it clicks the download link
    exactly when the image was not shared, that is unless sharing is
    supported, the file can be shared and the share resolves; a share
    that is rejected is followed by the download.  With [null] for the
    blob, the image is shared when the share goes through, and otherwise
    [URL.createObjectURL] throws a [TypeError] that leaves [saveImage]
    before the link is clicked.  [navigator.share] is called at most
    once. *)
Theorem saveImage_share_or_download
    (blob : option Blob) (env : ShareEnv) (w : PrintManager.World) :
  exists made,
    ImageSaver.saveImage blob env w
      = ((if share_ok env || bool_decide (is_Some blob)
          then PrintManager.Normal tt
          else PrintManager.Throw "TypeError: createObjectURL"),
         {| PrintManager.app := PrintManager.app w;
            PrintManager.calls := PrintManager.calls w ++ made |}) /\
    callCount "link.click" made
      = (if share_ok env then 0 else if bool_decide (is_Some blob) then 1 else 0)%nat /\
    callCount "navigator.share" made
      = (if share_supported env && File_constructs env
            && bool_decide (canShare_files env = Some true)
         then 1 else 0)%nat /\
    callCount "URL.createObjectURL" made = (if share_ok env then 0 else 1)%nat /\
    callCount "URL.revokeObjectURL" made = callCount "link.click" made.
Proof.
  destruct w as [a cs]. destruct blob as [b |];
    destruct env as [supported constructs [[|] |] resolves];
    destruct supported, constructs, resolves;
    cbv [ImageSaver.saveImage ImageSaver.tryShare ImageSaver.createObjectURL
         PrintManager.try_catch mbind
         PrintManager.M_bind PrintManager.bind PrintManager.call PrintManager.ret
         PrintManager.throw share_supported File_constructs canShare_files
         share_resolves PrintManager.app PrintManager.calls];
    rewrite <- ?app_assoc, ?app_nil_r;
    eexists; (split; [reflexivity |]); repeat split; reflexivity.
Qed.

(** ** Touch drag and mouse drag place alike *)

(** X10.  A touch gesture from a palette item that moved beyond the
    threshold and ends over the build area places exactly what a mouse
    drag of the same item dropped at the same point places: both go
    through [createShape] with the item's type and the same snapped
    position.  The touch state is reset, unless [createShape] throws
    (the selector built from the item's type does not parse): then the
    application is as before on both paths and the touch state stays as
    the gesture left it. *)
Theorem touch_drop_same_as_mouse_drop
    (st0 : DragDropManager.State) (item : PaletteItem) (start : Touch)
    (moves : list Touch) (touch : Touch) (sumX sumY : Q) (id : string)
    (app : App) (area : Container)
    (Harea : buildArea (doc app) = Some area)
    (Hfar : existsb (DragDropManager.beyondThreshold (clientX start, clientY start)) moves
            = true)
    (Hover : DragDropManager.isOverBuildArea touch (boundingClientRect area) = true) :
  DragDropManager.handleTouchEnd touch sumX sumY id (touchGesture st0 item start moves) app
    = ((if ShapeFactory.throws (doc app) (handleDragStart item)
        then touchGesture st0 item start moves
        else DragDropManager.init),
       DragDropManager.handleDrop (handleDragStart item) touch id app).
Proof.
  destruct (touchGesture_fields st0 item start moves) as [Hel Hdrag].
  unfold DragDropManager.handleTouchEnd, DragDropManager.handleDrop, handleDragStart.
  rewrite Hel, Hdrag, Hfar, Harea. cbv zeta. rewrite Hover.
  destruct (DragDropManager.dropPosition _ _ touch).
  destruct (ShapeFactory.throws (doc app) (String_of (dataset_shape item))) eqn:E;
    [| reflexivity].
  rewrite (createShape_throws _ _ _ _ _ _ E). reflexivity.
Qed.

Lemma touch_drop_same_as_mouse_drop_witness :
  DragDropManager.handleTouchEnd {| clientX := 200; clientY := 300 |} 0 0 "shape-1"
    (touchGesture DragDropManager.init
       {| dataset_shape := Some "beam"%string; shape_svg := Some "<rect/>"%string |}
       {| clientX := 20; clientY := 700 |}
       [{| clientX := 22; clientY := 690 |}; {| clientX := 200; clientY := 300 |}])
    (exampleApp 400 600)
  = (DragDropManager.init,
     DragDropManager.handleDrop "beam" {| clientX := 200; clientY := 300 |} "shape-1"
       (exampleApp 400 600)).
Proof.
  rewrite (touch_drop_same_as_mouse_drop DragDropManager.init
             {| dataset_shape := Some "beam"%string; shape_svg := Some "<rect/>"%string |}
             {| clientX := 20; clientY := 700 |}
             [{| clientX := 22; clientY := 690 |}; {| clientX := 200; clientY := 300 |}]
             {| clientX := 200; clientY := 300 |} 0 0 "shape-1"
             (exampleApp 400 600) (exampleArea 400 600));
    reflexivity.
Defined.

(** ** The difficulty buttons *)

Section Difficulty.

Import DifficultyManager.

Lemma click_buttons (i : nat) (l : list Button) (j : nat) :
  alter (setActive true) i (List.map (setActive false) l) !! j
    = (fun btn => {| difficulty := difficulty btn; active := Nat.eqb j i |}) <$> l !! j.
Proof.
  change (List.map (setActive false) l) with (setActive false <$> l).
  destruct (Nat.eqb_spec j i) as [-> | Hne].
  - rewrite list_lookup_alter_eq, list_lookup_fmap.
    destruct (l !! i); reflexivity.
  - rewrite list_lookup_alter_ne by congruence. rewrite list_lookup_fmap.
    destruct (l !! j); reflexivity.
Qed.

Lemma click_hammers (i : nat) (st : State) :
  is_Some (description st) ->
  hammers st = turns (currentLevel st) ->
  is_Some (description (click i st)) /\
  hammers (click i st) = turns (currentLevel (click i st)).
Proof.
  intros [text Hd] Hh. unfold click.
  destruct (buttons st !! i); [| rewrite Hd; split; [eauto | exact Hh]].
  rewrite Hd. simpl. split; [eauto | reflexivity].
Qed.

End Difficulty.

(** X11.  With the description element present, a click on difficulty
    button [i] makes it the only active button, leaves the levels of the
    buttons alone, sets the current level to the button's level, shows
    the description of that level (none outside 1..3) and draws as many
    hammers as the level (none for a level that is not a number or not
    positive).  After any sequence of clicks since construction the
    hammers drawn are those of the current level. *)
Theorem difficulty_click_shows_level
    (i : nat) (btn : DifficultyManager.Button) (st : DifficultyManager.State)
    (text : option string)
    (Hbtn : DifficultyManager.buttons st !! i = Some btn)
    (Hdesc : DifficultyManager.description st = Some text) :
  let st' := DifficultyManager.click i st in
  (forall j,
     DifficultyManager.buttons st' !! j
       = (fun b => {| DifficultyManager.difficulty := DifficultyManager.difficulty b;
                      DifficultyManager.active := Nat.eqb j i |})
         <$> DifficultyManager.buttons st !! j) /\
  DifficultyManager.currentLevel st' = DifficultyManager.difficulty btn /\
  DifficultyManager.description st'
    = Some (DifficultyManager.descriptions (DifficultyManager.difficulty btn)) /\
  DifficultyManager.hammers st'
    = match DifficultyManager.difficulty btn with
      | Some level => Z.to_nat level
      | None => 0%nat
      end /\
  (forall btns clicks,
     let final :=
       foldl (fun st k => DifficultyManager.click k st)
         (DifficultyManager.new btns (Some text)) clicks in
     DifficultyManager.hammers final
       = DifficultyManager.turns (DifficultyManager.currentLevel final)) /\
  DifficultyManager.hammers (DifficultyManager.new (DifficultyManager.buttons st)
                               (Some text)) = 1%nat.
Proof.
  intros st'. subst st'. unfold DifficultyManager.click. rewrite Hbtn, Hdesc. simpl.
  split; [intros j; apply click_buttons |].
  repeat (split; [reflexivity |]).
  split; [| reflexivity].
  intros btns clicks.
  assert (H : forall st0,
    is_Some (DifficultyManager.description st0) ->
    DifficultyManager.hammers st0
      = DifficultyManager.turns (DifficultyManager.currentLevel st0) ->
    DifficultyManager.hammers (foldl (fun st k => DifficultyManager.click k st) st0 clicks)
      = DifficultyManager.turns
          (DifficultyManager.currentLevel
             (foldl (fun st k => DifficultyManager.click k st) st0 clicks))).
  { induction clicks as [| k clicks IH]; intros st0 Hd Hh; [exact Hh |].
    simpl. destruct (click_hammers k st0 Hd Hh) as [Hd' Hh']. apply IH; assumption. }
  apply H; [simpl; eauto | reflexivity].
Qed.

Lemma difficulty_click_shows_level_witness :
  DifficultyManager.hammers
    (DifficultyManager.click 2
       (DifficultyManager.new
          [ {| DifficultyManager.difficulty := Some 1; DifficultyManager.active := true |};
            {| DifficultyManager.difficulty := Some 2; DifficultyManager.active := false |};
            {| DifficultyManager.difficulty := Some 3; DifficultyManager.active := false |} ]
          (Some (Some "Easy: Use any shapes, no limits"%string))))
  = 3%nat.
Proof.
  exact (proj1 (proj2 (proj2 (proj2
    (difficulty_click_shows_level 2
       {| DifficultyManager.difficulty := Some 3; DifficultyManager.active := false |}
       (DifficultyManager.new
          [ {| DifficultyManager.difficulty := Some 1; DifficultyManager.active := true |};
            {| DifficultyManager.difficulty := Some 2; DifficultyManager.active := false |};
            {| DifficultyManager.difficulty := Some 3; DifficultyManager.active := false |} ]
          (Some (Some "Easy: Use any shapes, no limits"%string)))
       (Some "Easy: Use any shapes, no limits"%string) eq_refl eq_refl))))).
Defined.

(** ** The collapsible panel *)

Section MobileUI.

Import MobileUIManager.

Lemma handle_consistent (e : Event) (st : State) :
  consistent st /\ listening st = true ->
  consistent (handle e st) /\ listening (handle e st) = true.
Proof.
  intros [[Hb Hc] Hl]. destruct e as [w |]; simpl.
  - unfold handleResize, collapseByDefault, expandByDefault, setBoth.
    rewrite Hb, Hc. destruct (Utils.isMobile w); repeat split; assumption.
  - rewrite Hl. unfold toggle. rewrite Hb, Hc. repeat split; assumption.
Qed.

Lemma new_consistent (w : Z) (b c : bool) :
  consistent (new w (Some b) (Some c)) /\ listening (new w (Some b) (Some c)) = true.
Proof.
  unfold new, handleResize, collapseByDefault, expandByDefault, setBoth. simpl.
  destruct (Utils.isMobile w); repeat split.
Qed.

Lemma run_consistent (events : list Event) (st : State) :
  consistent st /\ listening st = true ->
  consistent (foldl (fun st e => handle e st) st events) /\
  listening (foldl (fun st e => handle e st) st events) = true.
Proof.
  revert st. induction events as [| e events IH]; intros st H; [exact H |].
  simpl. apply IH, handle_consistent, H.
Qed.

End MobileUI.

(** X12.  When both elements of the collapsible panel exist, after
    construction and any sequence of window resizes and clicks on the
    collapse button the two elements carry the class [collapsed]
    exactly when [isCollapsed] holds; [toggle] then does not throw, two
    toggles restore the state, and a resize sets [isCollapsed] to
    whether the window is at most [MOBILE_BREAKPOINT] wide, whatever the
    user had toggled. *)
Theorem mobile_panel_in_step
    (innerWidth : Z) (b c : bool) (events : list MobileUIManager.Event)
    (innerWidth' : Z) :
  let st :=
    foldl (fun st e => MobileUIManager.handle e st)
      (MobileUIManager.new innerWidth (Some b) (Some c)) events in
  MobileUIManager.consistent st /\
  snd (MobileUIManager.toggle st) = false /\
  MobileUIManager.isCollapsed (fst (MobileUIManager.toggle st))
    = negb (MobileUIManager.isCollapsed st) /\
  fst (MobileUIManager.toggle (fst (MobileUIManager.toggle st))) = st /\
  MobileUIManager.isCollapsed (MobileUIManager.handle (MobileUIManager.Resize innerWidth') st)
    = Utils.isMobile innerWidth' /\
  MobileUIManager.consistent
    (MobileUIManager.handle (MobileUIManager.Resize innerWidth') st).
Proof.
  intros st.
  destruct (run_consistent events _ (new_consistent innerWidth b c)) as [[Hb Hc] Hl].
  fold st in Hb, Hc, Hl. clearbody st.
  destruct st as [collapsed cb ct li]. simpl in Hb, Hc, Hl. subst cb ct li.
  unfold MobileUIManager.consistent, MobileUIManager.toggle, MobileUIManager.handle,
    MobileUIManager.handleResize, MobileUIManager.collapseByDefault,
    MobileUIManager.expandByDefault, MobileUIManager.setBoth.
  simpl. rewrite Bool.negb_involutive.
  destruct (Utils.isMobile innerWidth'); repeat split; reflexivity.
Qed.

(** X13.  When one of the two elements of the collapsible panel is
    missing, no click listener is registered and nothing the manager
    handles changes its state: [isCollapsed] stays [false] through every
    resize and click. *)
Theorem mobile_panel_missing_element
    (innerWidth : Z) (btn cnt : option bool) (events : list MobileUIManager.Event)
    (Hmissing : btn = None \/ cnt = None) :
  foldl (fun st e => MobileUIManager.handle e st)
    (MobileUIManager.new innerWidth btn cnt) events
  = {| MobileUIManager.isCollapsed := false;
       MobileUIManager.collapseBtn := btn;
       MobileUIManager.content := cnt;
       MobileUIManager.listening := false |}.
Proof.
  assert (Hnew : MobileUIManager.new innerWidth btn cnt
                 = {| MobileUIManager.isCollapsed := false;
                      MobileUIManager.collapseBtn := btn;
                      MobileUIManager.content := cnt;
                      MobileUIManager.listening := false |}).
  { unfold MobileUIManager.new, MobileUIManager.handleResize,
      MobileUIManager.collapseByDefault, MobileUIManager.expandByDefault,
      MobileUIManager.setBoth.
    destruct Hmissing as [-> | ->]; destruct (Utils.isMobile innerWidth);
      simpl; try reflexivity; destruct btn; reflexivity. }
  rewrite Hnew. clear Hnew.
  induction events as [| e events IH]; [reflexivity |].
  simpl. rewrite <- IH at 2. f_equal.
  destruct e as [w |]; [| reflexivity].
  unfold MobileUIManager.handle, MobileUIManager.handleResize,
    MobileUIManager.collapseByDefault, MobileUIManager.expandByDefault,
    MobileUIManager.setBoth.
  destruct Hmissing as [-> | ->]; destruct (Utils.isMobile w);
    simpl; try reflexivity; destruct btn; reflexivity.
Qed.

Lemma mobile_panel_missing_element_witness :
  MobileUIManager.isCollapsed
    (foldl (fun st e => MobileUIManager.handle e st)
       (MobileUIManager.new 400 (Some false) None)
       [MobileUIManager.Click; MobileUIManager.Resize 300])
  = false.
Proof.
  rewrite (mobile_panel_missing_element 400 (Some false) None
             [MobileUIManager.Click; MobileUIManager.Resize 300] (or_intror eq_refl)).
  reflexivity.
Defined.

(** ** Dragging a placed shape *)

Section Drag.

Variable container : Container.

Lemma handleMove_dragging (touch : bool) (start point : Touch) (x0 y0 : Z)
    (dragged : bool) (s : Shape) :
  controller s = Some (dragging touch start x0 y0 dragged) ->
  let far := DragDropManager.beyondThreshold (clientX start, clientY start) point in
  controller (ShapeController.handleMove container point s)
    = Some (dragging touch start x0 y0 (dragged || far)) /\
  dataset_shapeType (ShapeController.handleMove container point s) = dataset_shapeType s /\
  (style_left (ShapeController.handleMove container point s),
   style_top (ShapeController.handleMove container point s))
    = if far then draggedTo container (dataset_shapeType s) x0 y0 start point
      else (style_left s, style_top s).
Proof.
  intros Hc far. unfold ShapeController.handleMove. rewrite Hc.
  subst far. unfold DragDropManager.beyondThreshold.
  cbn [fst snd dragging isDragging hasDragged startEvent startX startY
       initialX initialY negb].
  destruct (num_gt (Qabs (clientX point - clientX start)) (inject_Z CONFIG.DRAG_THRESHOLD)
            || num_gt (Qabs (clientY point - clientY start))
                 (inject_Z CONFIG.DRAG_THRESHOLD)).
  - rewrite orb_true_r. repeat split.
  - rewrite orb_false_r. repeat split. exact Hc.
Qed.


End Drag.



(** ** Selecting a placed shape *)

Section Selection.

Lemma find_update_node (n : nat) (f : Shape -> Shape) (l : list Shape) :
  keeps_node f ->
  List.find (fun s => Nat.eqb (node s) n) (update_node n f l)
    = f <$> List.find (fun s => Nat.eqb (node s) n) l.
Proof.
  intros Hf. unfold update_node. induction l as [| s l IH]; [reflexivity |].
  simpl. destruct (Nat.eqb (node s) n) eqn:E.
  - rewrite Hf, E. reflexivity.
  - rewrite E. exact IH.
Qed.

Lemma map_update_node {A} (g : Shape -> A) (n : nat) (f : Shape -> Shape)
    (l : list Shape) :
  (forall s, g (f s) = g s) -> List.map g (update_node n f l) = List.map g l.
Proof.
  intros Hf. unfold update_node. rewrite List.map_map. apply List.map_ext.
  intros s. destruct (Nat.eqb (node s) n); [apply Hf | reflexivity].
Qed.

Lemma handleMoveStart_keeps touch point :
  keeps_node (ShapeController.handleMoveStart touch point).
Proof.
  intros s. unfold ShapeController.handleMoveStart. destruct (controller s); reflexivity.
Qed.

Lemma handleMove_keeps container point :
  keeps_node (ShapeController.handleMove container point).
Proof.
  intros s. unfold ShapeController.handleMove.
  repeat match goal with
         | |- context [match ?x with _ => _ end] => destruct x
         end; reflexivity.
Qed.

(** [handleMoveEnd] when the controller of the pressed shape is known. *)
Lemma handleMoveEnd_dragging (n : nat) (l : list Shape) (s : Shape)
    (touch : bool) (start : Touch) (x0 y0 : Z) (dragged : bool) :
  List.find (fun s => Nat.eqb (node s) n) l = Some s ->
  controller s = Some (dragging touch start x0 y0 dragged) ->
  List.map selected (ShapeController.handleMoveEnd n l)
    = (if dragged then List.map selected l
       else List.map (fun s => Nat.eqb (node s) n) l) /\
  List.map node (ShapeController.handleMoveEnd n l) = List.map node l /\
  List.map dataset_shapeType (ShapeController.handleMoveEnd n l)
    = List.map dataset_shapeType l /\
  List.map (fun s => (style_left s, style_top s)) (ShapeController.handleMoveEnd n l)
    = List.map (fun s => (style_left s, style_top s)) l.
Proof.
  intros Hfind Hc. unfold ShapeController.handleMoveEnd. rewrite Hfind, Hc.
  cbn [dragging isDragging hasDragged startEvent].
  destruct dragged; cbn [negb andb].
  - repeat rewrite map_update_node by reflexivity. repeat split; reflexivity.
  - rewrite bool_decide_eq_true_2 by eauto.
    unfold ShapeController.handleClick.
    split; [| repeat split;
              repeat first [rewrite map_update_node by reflexivity
                           | rewrite List.map_map; cbn [set_selected node
                               dataset_shapeType style_left style_top]];
              reflexivity].
    rewrite map_update_node by reflexivity.
    unfold update_node. rewrite !List.map_map. apply List.map_ext.
    intros x. destruct (Nat.eqb (node x) n) eqn:E; simpl; rewrite E; reflexivity.
Qed.

End Selection.

(** X15.  A press on a placed shape followed by a release, with no move
    beyond the drag threshold, is a click: afterwards the pressed shape
    is selected and no other shape is, and no shape has moved.  If a
    move beyond the threshold came in between, the release leaves the
    selection of every shape as it was before the press. *)
Theorem click_selects_only_the_pressed_shape
    (n : nat) (touch : bool) (point : Touch) (l : list Shape) (s : Shape)
    (this : Controller) (container : Container) (move : Touch)
    (Hfind : List.find (fun s => Nat.eqb (node s) n) l = Some s)
    (Hcontroller : controller s = Some this)
    (Hfar : DragDropManager.beyondThreshold (clientX point, clientY point) move = true) :
  let pressed := update_node n (ShapeController.handleMoveStart touch point) l in
  let clicked := ShapeController.handleMoveEnd n pressed in
  let dragged :=
    ShapeController.handleMoveEnd n
      (update_node n (ShapeController.handleMove container move) pressed) in
  List.map selected clicked = List.map (fun s => Nat.eqb (node s) n) l /\
  List.map (fun s => (style_left s, style_top s)) clicked
    = List.map (fun s => (style_left s, style_top s)) l /\
  List.map selected dragged = List.map selected l.
Proof.
  intros pressed clicked dragged.
  assert (Hpressed : List.find (fun s => Nat.eqb (node s) n) pressed
                     = Some (ShapeController.handleMoveStart touch point s)).
  { subst pressed. rewrite find_update_node by apply handleMoveStart_keeps.
    rewrite Hfind. reflexivity. }
  assert (Hstart : controller (ShapeController.handleMoveStart touch point s)
                   = Some (dragging touch point (style_left s) (style_top s) false))
    by (unfold ShapeController.handleMoveStart; rewrite Hcontroller; reflexivity).
  assert (Hsel : List.map selected pressed = List.map selected l).
  { subst pressed. apply map_update_node. intros x.
    unfold ShapeController.handleMoveStart. destruct (controller x); reflexivity. }
  assert (Hpos : List.map (fun s => (style_left s, style_top s)) pressed
                 = List.map (fun s => (style_left s, style_top s)) l).
  { subst pressed. apply map_update_node. intros x.
    unfold ShapeController.handleMoveStart. destruct (controller x); reflexivity. }
  assert (Hnodes : List.map node pressed = List.map node l).
  { subst pressed. apply map_update_node, handleMoveStart_keeps. }
  destruct (handleMoveEnd_dragging n pressed _ touch point _ _ false Hpressed Hstart)
    as (Hc1 & _ & _ & Hc4).
  split; [| split].
  - subst clicked. rewrite Hc1.
    rewrite <- (List.map_map node (fun k => Nat.eqb k n)), Hnodes, List.map_map.
    reflexivity.
  - subst clicked. rewrite Hc4. exact Hpos.
  - destruct (handleMove_dragging container touch point move _ _ false _ Hstart)
      as (Hmc & _ & _).
    cbv zeta in Hmc. rewrite Hfar in Hmc. simpl in Hmc.
    assert (Hmoved :
      List.find (fun s => Nat.eqb (node s) n)
        (update_node n (ShapeController.handleMove container move) pressed)
      = Some (ShapeController.handleMove container move
                (ShapeController.handleMoveStart touch point s))).
    { rewrite find_update_node by apply handleMove_keeps. rewrite Hpressed. reflexivity. }
    destruct (handleMoveEnd_dragging n _ _ touch point _ _ true Hmoved Hmc)
      as (Hd1 & _).
    subst dragged. rewrite Hd1, <- Hsel.
    apply map_update_node. intros x. unfold ShapeController.handleMove.
    repeat match goal with
           | |- context [match ?x with _ => _ end] => destruct x
           end; reflexivity.
Qed.

(** ** What the listeners keep: distinct nodes, one selection, the supply list *)

Section AppInvariant.

Variable js : Builtins.

Lemma countShapes_types_from (l l' : list Shape) (counts : gmap string nat) :
  List.map dataset_shapeType l' = List.map dataset_shapeType l ->
  foldl SupplyListManager.countShape counts l'
    = foldl SupplyListManager.countShape counts l.
Proof.
  revert l' counts. induction l as [| s l IH]; intros [| s' l'] counts H;
    try discriminate; [reflexivity |].
  simpl in H. injection H as Hs Hl. simpl.
  unfold SupplyListManager.countShape at 2 4. rewrite Hs. apply IH, Hl.
Qed.

Lemma selected_count_map (l l' : list Shape) :
  List.map selected l' = List.map selected l ->
  length (List.filter selected l') = length (List.filter selected l).
Proof.
  revert l'. induction l as [| s l IH]; intros [| s' l'] H; try discriminate;
    [reflexivity |].
  simpl in H. injection H as Hs Hl. simpl. rewrite Hs.
  destruct (selected s); simpl; rewrite (IH _ Hl); reflexivity.
Qed.

Lemma nodes_below_map (k : nat) (l l' : list Shape) :
  List.map node l' = List.map node l ->
  Forall (fun s => (node s < k)%nat) l -> Forall (fun s => (node s < k)%nat) l'.
Proof.
  revert l'. induction l as [| s l IH]; intros [| s' l'] H Hl; try discriminate;
    [constructor |].
  simpl in H. injection H as Hs Hr. inversion Hl as [| ? ? Hk Hl']; subst.
  constructor; [rewrite Hs; exact Hk | apply IH; assumption].
Qed.

Lemma app_inv_census (app app' : App) :
  same_census (shapes (doc app)) (shapes (doc app')) ->
  nextNode app' = nextNode app ->
  supplyList app' = supplyList app ->
  app_inv app -> app_inv app'.
Proof.
  intros (Hn & Hs & Ht) Hk Hsup (Hnd & Hlt & Hsel & Hsync).
  unfold app_inv. rewrite Hn, Hk, Hsup, (selected_count_map _ _ Hs).
  split; [exact Hnd |]. split; [apply (nodes_below_map _ _ _ Hn Hlt) |].
  split; [exact Hsel |].
  rewrite Hsync. symmetry. apply countShapes_types_from, Ht.
Qed.

Lemma update_node_census (n : nat) (f : Shape -> Shape) (l : list Shape) :
  (forall s, node (f s) = node s /\ selected (f s) = selected s /\
             dataset_shapeType (f s) = dataset_shapeType s) ->
  same_census l (update_node n f l).
Proof.
  intros Hf. unfold same_census.
  rewrite !map_update_node; [repeat split | | |]; intros s; apply Hf.
Qed.

Ltac census_tac :=
  intros ?;
  unfold ShapeController.handleMoveStart, ShapeController.handleMove,
    ShapeController.rotate, ContextMenuManager.getShapeController.rotate,
    ContextMenuManager.getShapeController.flip;
  repeat match goal with
         | |- context [match ?x with _ => _ end] => destruct x
         end;
  repeat split.

Lemma node_filter_NoDup (n : nat) (l : list Shape) :
  NoDup (List.map node l) ->
  (length (List.filter (fun s => Nat.eqb (node s) n) l) <= 1)%nat.
Proof.
  induction l as [| s l IH]; intros Hnd; [simpl; lia |].
  simpl in Hnd. inversion Hnd as [| ? ? Hnot Hnd']; subst. simpl.
  destruct (Nat.eqb_spec (node s) n) as [E | E]; [| apply IH, Hnd'].
  simpl. assert (Hnone : List.filter (fun s => Nat.eqb (node s) n) l = []).
  { clear IH Hnd Hnd'. induction l as [| x l IHl]; [reflexivity |].
    simpl. destruct (Nat.eqb_spec (node x) n) as [Ex | Ex].
    - exfalso. apply Hnot. apply list_elem_of_In. left. congruence.
    - apply IHl. intros H. apply Hnot. apply list_elem_of_In. right.
      apply list_elem_of_In. exact H. }
  rewrite Hnone. simpl. lia.
Qed.

Lemma filter_map_count (g : Shape -> bool) (l l' : list Shape) :
  List.map selected l' = List.map g l ->
  length (List.filter selected l') = length (List.filter g l).
Proof.
  revert l'. induction l as [| s l IH]; intros [| s' l'] H; try discriminate;
    [reflexivity |].
  simpl in H. injection H as Hs Hl. simpl. rewrite Hs.
  destruct (g s); simpl; rewrite (IH _ Hl); reflexivity.
Qed.

Lemma handleMoveEnd_census (n : nat) (l : list Shape) :
  List.map node (ShapeController.handleMoveEnd n l) = List.map node l /\
  List.map dataset_shapeType (ShapeController.handleMoveEnd n l)
    = List.map dataset_shapeType l /\
  (List.map selected (ShapeController.handleMoveEnd n l) = List.map selected l \/
   List.map selected (ShapeController.handleMoveEnd n l)
     = List.map (fun s => Nat.eqb (node s) n) l).
Proof.
  unfold ShapeController.handleMoveEnd.
  destruct (List.find _ l) as [s |]; [| auto].
  destruct (controller s) as [this |]; [| auto].
  destruct (isDragging this); [| auto].
  match goal with |- context [if ?b then _ else _] => destruct b end.
  - unfold ShapeController.handleClick.
    split; [| split; [| right]];
      try (repeat first [rewrite map_update_node by reflexivity
                        | rewrite List.map_map; cbn [set_selected node
                            dataset_shapeType]];
           reflexivity).
    rewrite map_update_node by reflexivity.
    unfold update_node. rewrite !List.map_map. apply List.map_ext.
    intros x. destruct (Nat.eqb (node x) n) eqn:E; simpl; rewrite E; reflexivity.
  - repeat rewrite map_update_node by reflexivity. auto.
Qed.

Lemma handleMoveEnd_inv (n : nat) (app : App) :
  app_inv app -> app_inv (set_shapes (ShapeController.handleMoveEnd n) app).
Proof.
  intros Hinv. destruct (handleMoveEnd_census n (shapes (doc app)))
    as (Hn & Ht & [Hs | Hs]).
  - apply (app_inv_census app); [split; [| split] | | | exact Hinv]; auto.
  - destruct Hinv as (Hnd & Hlt & Hsel & Hsync). unfold app_inv. simpl.
    rewrite Hn. split; [exact Hnd |].
    split; [apply (nodes_below_map _ _ _ Hn Hlt) |].
    split; [rewrite (filter_map_count _ _ _ Hs); apply node_filter_NoDup, Hnd |].
    rewrite Hsync. symmetry. apply countShapes_types_from, Ht.
Qed.

Lemma emit_update_inv (event : string) (app : App) :
  In event ["shapeAdded"%string; "shapeRemoved"%string; "shapesCleared"%string] ->
  NoDup (List.map node (shapes (doc app))) ->
  Forall (fun s => (node s < nextNode app)%nat) (shapes (doc app)) ->
  (length (List.filter selected (shapes (doc app))) <= 1)%nat ->
  app_inv (eventBus.emit event app).
Proof.
  intros [<- | [<- | [<- | []]]] Hnd Hlt Hsel; unfold app_inv; simpl; auto.
Qed.

Lemma remove_node_NoDup (n : nat) (l : list Shape) :
  NoDup (List.map node l) -> NoDup (List.map node (remove_node n l)).
Proof.
  intros H. exact (sublist_NoDup _ _ H (remove_node_sublist n l)).
Qed.

Lemma remove_node_selected (n : nat) (l : list Shape) :
  (length (List.filter selected (remove_node n l))
   <= length (List.filter selected l))%nat.
Proof.
  unfold remove_node. induction l as [| s l IH]; simpl; [lia |].
  destruct (negb (Nat.eqb (node s) n)); simpl; destruct (selected s); simpl; lia.
Qed.

Lemma remove_inv (n : nat) (app : App) :
  app_inv app -> app_inv (eventBus.emit "shapeRemoved" (set_shapes (remove_node n) app)).
Proof.
  intros (Hnd & Hlt & Hsel & _). apply emit_update_inv; simpl.
  - right. left. reflexivity.
  - apply remove_node_NoDup, Hnd.
  - apply remove_node_Forall, Hlt.
  - pose proof (remove_node_selected n (shapes (doc app))). lia.
Qed.

Lemma createShape_inv id shapeType x y container app :
  app_inv app -> app_inv (DragDropManager.createShape id shapeType x y container app).
Proof.
  intros Hinv. unfold DragDropManager.createShape.
  destruct (ShapeFactory.throws (doc app) shapeType); [exact Hinv |].
  destruct (ShapeFactory.create (doc app) (nextNode app) id shapeType x y container)
    as [s |] eqn:E.
  - destruct Hinv as (Hnd & Hlt & Hsel & _).
    destruct (create_Some _ _ _ _ _ _ _ _ E) as (_ & Hnode & _).
    assert (Hunsel : selected s = false).
    { unfold ShapeFactory.create in E.
      destruct (ShapeFactory.getDefinition (doc app) shapeType); [| discriminate].
      injection E as <-. reflexivity. }
    apply emit_update_inv; simpl.
    + left. reflexivity.
    + rewrite map_app. simpl. rewrite Hnode. apply NoDup_app. split; [exact Hnd |].
      split; [| apply NoDup_singleton].
      intros k Hk Hk'. apply list_elem_of_In in Hk, Hk'.
      destruct Hk' as [<- | []].
      apply in_map_iff in Hk as (x0 & Hx & Hin).
      rewrite List.Forall_forall in Hlt. specialize (Hlt _ Hin). lia.
    + apply Forall_app. split.
      * eapply Forall_impl; [exact Hlt |]. intros x0 Hx0. simpl in Hx0. lia.
      * constructor; [simpl; rewrite Hnode; lia | constructor].
    + rewrite List.filter_app. simpl. rewrite Hunsel. simpl.
      rewrite app_nil_r. exact Hsel.
  - apply (app_inv_census app); [repeat split | | | exact Hinv]; reflexivity.
Qed.

Lemma handleTapToAdd_inv item sumX sumY id app :
  app_inv app -> app_inv (DragDropManager.handleTapToAdd item sumX sumY id app).
Proof.
  intros Hinv. unfold DragDropManager.handleTapToAdd.
  destruct (buildArea (doc app)); [| exact Hinv].
  destruct (falsy (dataset_shape item)); [exact Hinv |].
  destruct (DragDropManager.tapPosition sumX sumY).
  apply createShape_inv, Hinv.
Qed.

Lemma handleTouchEnd_inv touch sumX sumY id st app :
  app_inv app -> app_inv (snd (DragDropManager.handleTouchEnd touch sumX sumY id st app)).
Proof.
  intros Hinv. unfold DragDropManager.handleTouchEnd.
  destruct (DragDropManager.touchDraggedElement st) as [element |]; [| exact Hinv].
  destruct (DragDropManager.isDragging st).
  - destruct (buildArea (doc app)) as [area |]; [| exact Hinv].
    destruct (DragDropManager.isOverBuildArea touch (boundingClientRect area));
      [| exact Hinv].
    destruct (DragDropManager.dropPosition _ _ touch).
    destruct (ShapeFactory.throws _ _); [exact Hinv |].
    apply createShape_inv, Hinv.
  - destruct (DragDropManager.tapThrows element app); [exact Hinv |].
    apply (handleTapToAdd_inv element sumX sumY id app Hinv).
Qed.

Lemma handleDrop_inv data point id app :
  app_inv app -> app_inv (DragDropManager.handleDrop data point id app).
Proof.
  intros Hinv. unfold DragDropManager.handleDrop.
  destruct (buildArea (doc app)); [| exact Hinv].
  destruct (DragDropManager.dropPosition _ _ point).
  apply createShape_inv, Hinv.
Qed.

Lemma update_node_inv (n : nat) (f : Shape -> Shape) (app : App) :
  (forall s, node (f s) = node s /\ selected (f s) = selected s /\
             dataset_shapeType (f s) = dataset_shapeType s) ->
  app_inv app -> app_inv (set_shapes (update_node n f) app).
Proof.
  intros Hf Hinv.
  apply (app_inv_census app); [apply update_node_census, Hf | | | exact Hinv];
    reflexivity.
Qed.

Lemma handleAction_inv button app :
  app_inv app -> app_inv (ContextMenuManager.handleAction js button app).
Proof.
  intros Hinv. unfold ContextMenuManager.handleAction.
  destruct button as [action |]; [| exact Hinv].
  destruct (currentShape app) as [n |]; [| exact Hinv].
  match goal with |- app_inv (ContextMenuManager.hide ?x) =>
    cut (app_inv x);
      [intros H; apply (app_inv_census x);
         [repeat split | | | exact H]; reflexivity |]
  end.
  destruct (String.eqb action "rotate"); [apply update_node_inv; [census_tac | exact Hinv] |].
  destruct (String.eqb action "flip-horizontal");
    [apply update_node_inv; [census_tac | exact Hinv] |].
  destruct (String.eqb action "flip-vertical");
    [apply update_node_inv; [census_tac | exact Hinv] |].
  destruct (String.eqb action "delete"); [| exact Hinv].
  apply remove_inv, Hinv.
Qed.

Lemma clearAllShapes_inv app :
  app_inv app -> app_inv (KeyboardManager.clearAllShapes app).
Proof.
  intros Hinv. unfold KeyboardManager.clearAllShapes.
  destruct (buildArea (doc app)); [| exact Hinv].
  apply emit_update_inv; simpl; [auto | constructor | constructor | lia].
Qed.

Lemma deleteSelectedShape_inv app :
  app_inv app -> app_inv (KeyboardManager.deleteSelectedShape app).
Proof.
  intros Hinv. unfold KeyboardManager.deleteSelectedShape.
  destruct (List.find selected (shapes (doc app))); [| exact Hinv].
  apply remove_inv, Hinv.
Qed.

Lemma handlePrint_keeps innerWidth env w :
  nextNode (PrintManager.app (snd (PrintManager.handlePrint innerWidth env w)))
    = nextNode (PrintManager.app w) /\
  supplyList (PrintManager.app (snd (PrintManager.handlePrint innerWidth env w)))
    = supplyList (PrintManager.app w).
Proof.
  destruct w as [a cs]. destruct env as [[] [] [] []];
    unfold PrintManager.handlePrint; destruct (Utils.isMobile innerWidth);
    split; reflexivity.
Qed.

(** Every action keeps [app_inv]. *)
Lemma step_app_inv (a : Action) (p : Page) :
  app_inv (application p) -> app_inv (application (step js a p)).
Proof.
  intros Hinv. destruct a; simpl.
  - apply handleTapToAdd_inv, Hinv.
  - exact Hinv.
  - exact Hinv.
  - pose proof (handleTouchEnd_inv touch sumX sumY id (dragDrop p) (application p) Hinv) as H.
    destruct (DragDropManager.handleTouchEnd touch sumX sumY id (dragDrop p) (application p)).
    exact H.
  - apply handleDrop_inv, Hinv.
  - apply update_node_inv; [census_tac | exact Hinv].
  - destruct (buildArea (doc (application p))); [| exact Hinv].
    simpl. apply update_node_inv; [census_tac | exact Hinv].
  - apply handleMoveEnd_inv, Hinv.
  - apply update_node_inv; [census_tac | exact Hinv].
  - apply (app_inv_census (application p)); [repeat split | | | exact Hinv]; reflexivity.
  - apply handleAction_inv, Hinv.
  - unfold KeyboardManager.handleKeydown.
    destruct (String.eqb key "Escape"); [apply clearAllShapes_inv, Hinv |].
    destruct (String.eqb key "Delete"); [apply deleteSelectedShape_inv, Hinv |].
    destruct (String.eqb key "Backspace"); [apply deleteSelectedShape_inv, Hinv |].
    exact Hinv.
  - apply clearAllShapes_inv, Hinv.
  - destruct (handlePrint_keeps innerWidth env
                {| PrintManager.app := application p; PrintManager.calls := [] |})
      as [Hk Hs].
    apply (app_inv_census (application p)); [| exact Hk | exact Hs | exact Hinv].
    unfold same_census. rewrite handlePrint_doc. repeat split.
  - apply (app_inv_census (application p)); [repeat split | | | exact Hinv]; reflexivity.
  - apply (app_inv_census (application p)); [repeat split | | | exact Hinv]; reflexivity.
Qed.

Lemma reachable_app_inv (items : list PaletteItem) (area : option Container)
    (actions : list Action) :
  app_inv (application (run js actions (loaded items area))).
Proof.
  assert (H : forall p, app_inv (application p) ->
                        app_inv (application (run js actions p))).
  { induction actions as [| a actions IH]; intros p Hp; [exact Hp |].
    simpl. apply IH, step_app_inv, Hp. }
  apply H. unfold app_inv. simpl. repeat split; try constructor. lia.
Qed.

End AppInvariant.

(** X16.  On every page reached from the loaded page at most one placed
    shape is selected. *)
Theorem at_most_one_shape_selected
    (js : Builtins) (items : list PaletteItem) (area : option Container)
    (actions : list Action) :
  (length (List.filter selected (placed (run js actions (loaded items area)))) <= 1)%nat.
Proof.
  destruct (reachable_app_inv js items area actions) as (_ & _ & H & _). exact H.
Qed.

(** X17.  On every page reached from the loaded page (whose supply list
    is empty) the rendered supply list is the count of the shapes that
    are placed: every listener that adds or removes a shape re-renders
    it, and no other listener changes the placed types. *)
Theorem supplyList_shows_placed_shapes
    (js : Builtins) (items : list PaletteItem) (area : option Container)
    (actions : list Action) :
  supplyList (application (run js actions (loaded items area)))
    = SupplyListManager.countShapes (placed (run js actions (loaded items area))).
Proof.
  destruct (reachable_app_inv js items area actions) as (_ & _ & _ & H). exact H.
Qed.

Section DeleteSelected.

Lemma remove_absent_node (n : nat) (l : list Shape) :
  ~ In n (List.map node l) -> remove_node n l = l.
Proof.
  unfold remove_node. induction l as [| s l IH]; intros Hnot; [reflexivity |].
  simpl. destruct (Nat.eqb_spec (node s) n) as [E | E].
  - exfalso. apply Hnot. left. exact E.
  - simpl. rewrite IH; [reflexivity |]. intros H. apply Hnot. right. exact H.
Qed.

Lemma filter_unselected_all (l : list Shape) :
  length (List.filter selected l) = 0%nat ->
  List.filter (fun s => negb (selected s)) l = l /\ List.find selected l = None.
Proof.
  induction l as [| s l IH]; intros H; [split; reflexivity |].
  simpl in *. destruct (selected s); simpl in *; [discriminate |].
  destruct (IH H) as [-> ->]. split; reflexivity.
Qed.

Lemma remove_selected (l : list Shape) :
  NoDup (List.map node l) ->
  (length (List.filter selected l) <= 1)%nat ->
  match List.find selected l with
  | Some s => remove_node (node s) l
  | None => l
  end = List.filter (fun s => negb (selected s)) l.
Proof.
  induction l as [| x l IH]; intros Hnd Hsel; [reflexivity |].
  simpl in Hnd. apply NoDup_cons in Hnd as [Hnot Hnd].
  simpl in *. destruct (selected x) eqn:Ex; simpl in *.
  - destruct (filter_unselected_all l) as [Hall _]; [lia |].
    unfold remove_node. simpl. rewrite Nat.eqb_refl. simpl.
    fold (remove_node (node x) l). rewrite Hall.
    apply remove_absent_node. intros H. apply Hnot, list_elem_of_In, H.
  - specialize (IH Hnd Hsel).
    destruct (List.find selected l) as [s |] eqn:Ef; [| rewrite <- IH; reflexivity].
    unfold remove_node. simpl. fold (remove_node (node s) l).
    destruct (Nat.eqb_spec (node x) (node s)) as [E | E].
    + exfalso. apply Hnot. rewrite E. apply list_elem_of_In, in_map.
      apply List.find_some in Ef. apply Ef.
    + simpl. rewrite IH. reflexivity.
Qed.

Lemma filter_selected_unselected (l : list Shape) :
  List.filter selected (List.filter (fun s => negb (selected s)) l) = [].
Proof.
  induction l as [| s l IH]; [reflexivity |].
  simpl. destruct (selected s) eqn:E; simpl; [| rewrite E]; exact IH.
Qed.

Lemma remove_node_length (n : nat) (l : list Shape) :
  (length (remove_node n l) + length (List.filter (fun s => Nat.eqb (node s) n) l)
   = length l)%nat.
Proof.
  unfold remove_node. induction l as [| s l IH]; [reflexivity |].
  simpl. destruct (Nat.eqb (node s) n); simpl; lia.
Qed.

End DeleteSelected.

(** X18.  On every page reached from the loaded page the Delete key and
    the Backspace key remove exactly the selected shape: the shapes that
    remain are the unselected ones, in their order, none of them is
    selected, and with nothing selected the page is left as it is. *)
Theorem delete_key_removes_the_selected_shape
    (js : Builtins) (items : list PaletteItem) (area : option Container)
    (actions : list Action) :
  let app := application (run js actions (loaded items area)) in
  shapes (doc (KeyboardManager.deleteSelectedShape app))
    = List.filter (fun s => negb (selected s)) (shapes (doc app)) /\
  KeyboardManager.handleKeydown "Delete" app = KeyboardManager.deleteSelectedShape app /\
  KeyboardManager.handleKeydown "Backspace" app = KeyboardManager.deleteSelectedShape app /\
  List.filter selected (shapes (doc (KeyboardManager.deleteSelectedShape app))) = [] /\
  (List.filter selected (shapes (doc app)) = [] ->
   KeyboardManager.deleteSelectedShape app = app).
Proof.
  intros app.
  destruct (reachable_app_inv js items area actions) as (Hnd & _ & Hsel & _).
  fold app in Hnd, Hsel.
  assert (Hshapes : shapes (doc (KeyboardManager.deleteSelectedShape app))
                    = List.filter (fun s => negb (selected s)) (shapes (doc app))).
  { rewrite <- (remove_selected _ Hnd Hsel).
    unfold KeyboardManager.deleteSelectedShape.
    destruct (List.find selected (shapes (doc app))); [| reflexivity].
    rewrite emit_doc. reflexivity. }
  split; [exact Hshapes |]. split; [reflexivity |]. split; [reflexivity |]. split.
  - rewrite Hshapes. apply filter_selected_unselected.
  - intros Hnone. unfold KeyboardManager.deleteSelectedShape.
    destruct (filter_unselected_all (shapes (doc app))) as [_ ->];
      [rewrite Hnone |]; reflexivity.
Qed.

(** X19.  On every page reached from the loaded page, the delete entry
    of the context menu, with a shape current, removes that shape and no
    other (none if it is no longer placed), re-renders the supply list
    from the shapes that remain, emits ['shapeRemoved'] and closes the
    menu. *)
Theorem menu_delete_removes_the_current_shape
    (js : Builtins) (items : list PaletteItem) (area : option Container)
    (actions : list Action) (n : nat)
    (Hcurrent : currentShape (application (run js actions (loaded items area))) = Some n) :
  let app := application (run js actions (loaded items area)) in
  let app' := ContextMenuManager.handleAction js (Some "delete"%string) app in
  shapes (doc app') = remove_node n (shapes (doc app)) /\
  (length (shapes (doc app'))
   + length (List.filter (fun s => Nat.eqb (node s) n) (shapes (doc app)))
   = length (shapes (doc app)))%nat /\
  (length (List.filter (fun s => Nat.eqb (node s) n) (shapes (doc app))) <= 1)%nat /\
  supplyList app' = SupplyListManager.countShapes (shapes (doc app')) /\
  emitted app' = emitted app ++ ["shapeRemoved"%string] /\
  currentShape app' = None.
Proof.
  intros app app'.
  destruct (reachable_app_inv js items area actions) as (Hnd & _ & _ & _).
  fold app in Hnd, Hcurrent.
  subst app'. unfold ContextMenuManager.handleAction. rewrite Hcurrent. simpl.
  repeat split.
  - apply remove_node_length.
  - apply node_filter_NoDup, Hnd.
Qed.

Lemma menu_delete_removes_the_current_shape_witness :
  shapes (doc (ContextMenuManager.handleAction noBuiltins (Some "delete"%string)
                 (application
                    (run noBuiltins [exampleDrop; exampleDrop; ShowContextMenu 1]
                       exampleLoaded))))
  = remove_node 1
      (shapes (doc (application
                      (run noBuiltins [exampleDrop; exampleDrop; ShowContextMenu 1]
                         exampleLoaded)))).
Proof.
  exact (proj1 (menu_delete_removes_the_current_shape noBuiltins examplePalette
                  (Some (exampleArea 400 600))
                  [exampleDrop; exampleDrop; ShowContextMenu 1] 1 eq_refl)).
Defined.

Lemma click_selects_only_the_pressed_shape_witness :
  List.map selected
    (ShapeController.handleMoveEnd 1
       (update_node 1
          (ShapeController.handleMoveStart true {| clientX := 180; clientY := 290 |})
          (placed (run noBuiltins [exampleDrop; exampleDrop] exampleLoaded))))
  = [false; true].
Proof.
  destruct (placed (run noBuiltins [exampleDrop; exampleDrop] exampleLoaded))
    as [| s0 [| s1 [| s2 l]]] eqn:E; try (vm_compute in E; discriminate).
  assert (H1 : node s1 = 1%nat /\ node s0 = 0%nat
               /\ controller s1 = Some newShapeController).
  { vm_compute in E. injection E as <- <-. repeat split. }
  destruct H1 as (Hn1 & Hn0 & Hc1).
  assert (Hfind : List.find (fun s => Nat.eqb (node s) 1) [s0; s1] = Some s1)
    by (simpl; rewrite Hn0, Hn1; reflexivity).
  destruct (click_selects_only_the_pressed_shape 1 true
              {| clientX := 180; clientY := 290 |} [s0; s1] s1 newShapeController
              (exampleArea 400 600) {| clientX := 250; clientY := 290 |}
              Hfind Hc1 eq_refl) as (Hsel & _).
  cbv zeta in Hsel. rewrite Hsel. simpl. rewrite Hn0, Hn1. reflexivity.
Defined.

(** ** The transforms the page writes *)

Section Written.

Lemma transform_written_no_backslash (s : Shape) :
  transform_written s -> has_backslash (svg_style_transform s) = false.
Proof.
  intros [Hq [-> | [-> | Hin]]].
  - reflexivity.
  - unfold quarter_turn in Hq. simpl in Hq.
    destruct Hq as [<- | [<- | [<- | [<- | []]]]]; reflexivity.
  - unfold flipTransforms in Hin. simpl in Hin.
    destruct Hin as [<- | [<- | [<- | []]]]; reflexivity.
Qed.

Lemma transform_written_rotate (s : Shape) :
  transform_written s -> transform_written (ShapeController.rotate s).
Proof.
  intros Hw. pose proof (transform_written_no_backslash s Hw) as Hb.
  destruct Hw as [Hq _].
  split; [exact (proj1 (rotate_inv s (conj Hq Hb))) |].
  right. left. reflexivity.
Qed.

Lemma transform_written_flip (js : Builtins) (direction : string) (s : Shape) :
  transform_written s ->
  transform_written (ContextMenuManager.getShapeController.flip js direction s).
Proof.
  intros Hw. pose proof (transform_written_no_backslash s Hw) as Hb.
  destruct Hw as [Hq _].
  unfold ContextMenuManager.getShapeController.flip.
  rewrite (flipTransform_no_backslash js direction _ Hb).
  destruct (String.eqb direction "horizontal");
    [| destruct (String.eqb direction "vertical")];
    (split; [exact Hq |]); right; right; unfold flipTransforms; simpl; auto.
Qed.

End Written.

(** X20.  On every page reached from the loaded page the inline
    transform of a placed shape is empty, or the rotation by its
    [dataset.rotation], or one of the three strings a flip writes, which
    all rotate by 0 degrees: [rotate] writes the rotation alone and
    [flip] the scale alone, so the transform never shows a rotation by
    90, 180 or 270 degrees together with a flip. *)
Theorem transforms_are_rotation_or_flip
    (js : Builtins) (items : list PaletteItem) (area : option Container)
    (actions : list Action) :
  Forall transform_written (placed (run js actions (loaded items area))).
Proof.
  apply run_Forall.
  - intros s s' Hr Ht [Hq Hw].
    unfold transform_written, quarter_turn, rotation_state in *.
    rewrite Hr, Ht. split; assumption.
  - intros s Hr Ht. unfold transform_written, quarter_turn, rotation_state.
    rewrite Hr, Ht. split; [left; reflexivity | left; reflexivity].
  - apply transform_written_rotate.
  - intros direction s. apply transform_written_flip.
  - constructor.
Qed.

(** ** The rows of the supply list *)

Section Entries.

Lemma bumpEntry_keys (name : string) (entries : list (string * nat)) :
  List.map fst (bumpEntry name entries)
    = if isKey (List.map fst entries) name then List.map fst entries
      else List.map fst entries ++ [name].
Proof.
  induction entries as [| [key count] rest IH]; [reflexivity |].
  simpl. destruct (String.eqb key name); simpl; [reflexivity |].
  rewrite IH. destruct (isKey (List.map fst rest) name); reflexivity.
Qed.

Lemma bumpEntry_count (name name' : string) (entries : list (string * nat)) :
  entryCount (bumpEntry name entries) name'
    = if String.eqb name name'
      then Some (default 0%nat (entryCount entries name') + 1)%nat
      else entryCount entries name'.
Proof.
  unfold entryCount.
  induction entries as [| [key count] rest IH]; simpl.
  - destruct (String.eqb name name'); reflexivity.
  - destruct (String.eqb_spec key name) as [-> | Hne]; simpl.
    + destruct (String.eqb name name'); reflexivity.
    + destruct (String.eqb_spec key name') as [-> | Hne'].
      * destruct (String.eqb_spec name name') as [-> | _]; [congruence | reflexivity].
      * exact IH.
Qed.

Lemma filter_filter_ext {A} (p q r : A -> bool) (l : list A) :
  (forall x, q x && p x = r x) ->
  List.filter p (List.filter q l) = List.filter r l.
Proof.
  intros H. induction l as [| x l IH]; [reflexivity |].
  simpl. specialize (H x). destruct (q x); simpl in *.
  - rewrite H. destruct (r x); rewrite IH; reflexivity.
  - rewrite <- H. exact IH.
Qed.

Lemma filter_all {A} (p : A -> bool) (l : list A) :
  (forall x, p x = true) -> List.filter p l = l.
Proof.
  intros H. induction l as [| x l IH]; [reflexivity |].
  simpl. rewrite H, IH. reflexivity.
Qed.

Lemma countEntries_keys_from (l : list Shape) (entries : list (string * nat)) :
  List.map fst
    (foldl (fun entries shape =>
              bumpEntry (SupplyListManager.displayName (dataset_shapeType shape)) entries)
       entries l)
  = List.map fst entries
    ++ List.filter (fun name => negb (isKey (List.map fst entries) name))
         (firstOccurrences
            (List.map (fun s => SupplyListManager.displayName (dataset_shapeType s)) l)).
Proof.
  revert entries. induction l as [| s l IH]; intros entries.
  - simpl. rewrite app_nil_r. reflexivity.
  - simpl. rewrite IH, bumpEntry_keys.
    set (name := SupplyListManager.displayName (dataset_shapeType s)).
    set (names := firstOccurrences _).
    destruct (isKey (List.map fst entries) name) eqn:E; simpl.
    + f_equal. symmetry. apply filter_filter_ext. intros x.
      destruct (String.eqb_spec x name) as [-> | _]; simpl; [rewrite E |]; reflexivity.
    + rewrite <- app_assoc. simpl. f_equal. f_equal.
      symmetry. apply filter_filter_ext. intros x.
      unfold isKey. rewrite existsb_app. simpl. rewrite orb_false_r.
      rewrite negb_orb, (String.eqb_sym name x). apply andb_comm.
Qed.

Lemma countEntries_count_from (l : list Shape) (entries : list (string * nat))
    (counts : gmap string nat) :
  (forall name, entryCount entries name = counts !! name) ->
  forall name,
    entryCount
      (foldl (fun entries shape =>
                bumpEntry (SupplyListManager.displayName (dataset_shapeType shape))
                  entries)
         entries l) name
    = foldl SupplyListManager.countShape counts l !! name.
Proof.
  revert entries counts. induction l as [| s l IH]; intros entries counts H name;
    [apply H |].
  simpl. apply IH. intros name'.
  rewrite bumpEntry_count, countShape_lookup, H. reflexivity.
Qed.

Lemma firstOccurrences_NoDup (l : list string) : List.NoDup (firstOccurrences l).
Proof.
  induction l as [| x l IH]; simpl; constructor.
  - intros H. apply filter_In in H as [_ H]. rewrite String.eqb_refl in H. discriminate.
  - apply List.NoDup_filter, IH.
Qed.

End Entries.

(** X21.  The rows that [render] draws, the entries of the counts in
    insertion order, list each display name once, in the order in which
    the names first occur among the placed shapes, each with the count
    that [countShapes] gives it. *)
Theorem supply_rows_in_order_of_first_occurrence (l : list Shape) :
  List.map fst (countEntries l)
    = firstOccurrences
        (List.map (fun s => SupplyListManager.displayName (dataset_shapeType s)) l) /\
  List.NoDup (List.map fst (countEntries l)) /\
  (forall name count,
     In (name, count) (countEntries l) <->
     SupplyListManager.countShapes l !! name = Some count) /\
  (l = [] <-> countEntries l = []).
Proof.
  assert (Hkeys : List.map fst (countEntries l)
                  = firstOccurrences
                      (List.map (fun s => SupplyListManager.displayName
                                            (dataset_shapeType s)) l)).
  { unfold countEntries. rewrite countEntries_keys_from. simpl.
    apply filter_all. reflexivity. }
  assert (Hnd : List.NoDup (List.map fst (countEntries l)))
    by (rewrite Hkeys; apply firstOccurrences_NoDup).
  assert (Hcount : forall name,
            entryCount (countEntries l) name = SupplyListManager.countShapes l !! name).
  { apply countEntries_count_from. intros name. rewrite lookup_empty. reflexivity. }
  split; [exact Hkeys |]. split; [exact Hnd |]. split.
  - intros name count. rewrite <- Hcount. unfold entryCount.
    clear Hkeys Hcount. induction (countEntries l) as [| [key c] rest IH]; simpl.
    + split; [intros [] | discriminate].
    + simpl in Hnd. inversion Hnd as [| ? ? Hnot Hnd']; subst.
      destruct (String.eqb_spec key name) as [-> | Hne]; simpl.
      * split.
        -- intros [[= ->] | Hin]; [reflexivity |].
           exfalso. apply Hnot. apply in_map_iff. exists (name, count). auto.
        -- intros [= ->]. left. reflexivity.
      * rewrite <- (IH Hnd'). split.
        -- intros [[= -> ->] | Hin]; [congruence | exact Hin].
        -- intros Hin. right. exact Hin.
  - split; [intros ->; reflexivity |].
    intros He. destruct l as [| s l']; [reflexivity |].
    rewrite He in Hkeys. simpl in Hkeys. discriminate.
Qed.

(** ** A drop inside the build area *)


